(** * peft-repo-metrics: a shallow embedding of [analyze.py] and [backfill.py]

    The development follows the two source files.

    - [Py] holds what both files share: the values produced by [json.loads]
      (Python dicts, lists, strings, numbers, [None]), truthiness, the
      exceptions that occur and the error monad used to thread them.
    - [Analyze] embeds [_iter_nodes], [load_report_to_df], [process_df],
      [cloc_metrics], [aggregate_metrics], [_download_space_csv_or_empty], the
      merge step of [append_metrics_to_hub_csv] and the command-line [main].
    - [Backfill] embeds the git helpers, [month_starts_descending] and [main]
      as a state-and-exception computation over the target repository.

    Floating-point numbers are represented by the rationals they denote, so
    pandas' NaN is [None] in an [option Q].  The mean, the quantile and the
    rounding are the exact operations on these rationals, where the code
    computes in binary64: a recorded number may differ from the one found
    here in its last digit, and the theorems on recorded numbers state
    orderings that hold for both. *)

From stdpp Require Import gmap strings list sorting pretty.
From Stdlib Require Import Ascii QArith Qround Qabs Qminmax Lqa.

Open Scope string_scope.
Open Scope list_scope.

#[global] Set Warnings "-clear-no-such-hyp".

(* ===================================================================== *)
(** * Python values, exceptions, the error monad *)
(* ===================================================================== *)

Module Py.

(** What [json.loads] returns.  A dict is an association list read with
    first-match lookup; the order of the pairs is the insertion order. *)
#[local] Unset Elimination Schemes.
Inductive pyval : Type :=
| PNone
| PBool (b : bool)
| PNum (q : Q)
| PStr (s : string)
| PList (l : list pyval)
| PDict (kv : list (string * pyval)).
#[local] Set Elimination Schemes.

(** Induction over nested values: the hypothesis is available for every
    element of a list and for every value stored in a dict. *)
Section PyvalInd.
Variable P : pyval → Prop.
Hypothesis HNone : P PNone.
Hypothesis HBool : ∀ b, P (PBool b).
Hypothesis HNum : ∀ q, P (PNum q).
Hypothesis HStr : ∀ s, P (PStr s).
Hypothesis HList : ∀ l, Forall P l → P (PList l).
Hypothesis HDict : ∀ kv, Forall (λ p, P p.2) kv → P (PDict kv).

Fixpoint pyval_ind (v : pyval) : P v :=
  match v with
  | PNone => HNone
  | PBool b => HBool b
  | PNum q => HNum q
  | PStr s => HStr s
  | PList l =>
      HList l ((fix go (l : list pyval) : Forall P l :=
                  match l with
                  | [] => @List.Forall_nil _ P
                  | x :: l' => @List.Forall_cons _ P x l' (pyval_ind x) (go l')
                  end) l)
  | PDict kv =>
      HDict kv ((fix go (kv : list (string * pyval)) : Forall (λ p, P p.2) kv :=
                   match kv with
                   | [] => @List.Forall_nil _ (λ p, P p.2)
                   | (k, x) :: kv' =>
                       @List.Forall_cons _ (λ p, P p.2) (k, x) kv' (pyval_ind x) (go kv')
                   end) kv)
  end.
End PyvalInd.

(** The exceptions that the two scripts can meet. *)
Inductive exn : Type :=
| AttributeError
| TypeError
| ValueError
| RuntimeError
| FileNotFoundError
| CalledProcessError
| JSONDecodeError
| EntryNotFoundError
| EmptyDataError
| ParserError
| KeyError
| PermissionError
| UnicodeDecodeError
| SystemExit (code : Z).

Inductive result (A : Type) : Type :=
| Ok (a : A)
| Raise (e : exn).
Arguments Ok {A} a.
Arguments Raise {A} e.

#[global] Instance result_ret : MRet result := λ A a, Ok a.
#[global] Instance result_bind : MBind result :=
  λ A B f m, match m with Ok a => f a | Raise e => Raise e end.
#[global] Instance result_fmap : FMap result :=
  λ A B f m, match m with Ok a => Ok (f a) | Raise e => Raise e end.

Definition is_ok {A} (r : result A) : bool :=
  match r with Ok _ => true | Raise _ => false end.

(** [bool(v)] *)
Definition truthy (v : pyval) : bool :=
  match v with
  | PNone => false
  | PBool b => b
  | PNum q => negb (Qeq_bool q 0)
  | PStr s => negb (String.eqb s "")
  | PList l => match l with [] => false | _ => true end
  | PDict kv => match kv with [] => false | _ => true end
  end.

(** [a or b] *)
Definition py_or (a b : pyval) : pyval := if truthy a then a else b.

Fixpoint dict_lookup (k : string) (kv : list (string * pyval)) : option pyval :=
  match kv with
  | [] => None
  | (k', v) :: kv' => if String.eqb k k' then Some v else dict_lookup k kv'
  end.

(** [d.get(k)] on a dict: [None] when the key is missing. *)
Definition dict_get (kv : list (string * pyval)) (k : string) : pyval :=
  default PNone (dict_lookup k kv).

(** Attribute access [.get] exists on dicts only. *)
Definition as_dict (v : pyval) : result (list (string * pyval)) :=
  match v with
  | PDict kv => Ok kv
  | _ => Raise AttributeError
  end.

(** [v == s] for a string literal [s]. *)
Definition eq_str (v : pyval) (s : string) : bool :=
  match v with
  | PStr s' => String.eqb s' s
  | _ => false
  end.

(** Run [f] over a list from left to right, concatenating what it yields;
    the first exception ends the traversal. *)
Fixpoint flat_mapM {A B} (f : A → result (list B)) (l : list A) : result (list B) :=
  match l with
  | [] => Ok []
  | x :: l' => ys ← f x; zs ← flat_mapM f l'; Ok (ys ++ zs)
  end.

Fixpoint mapM {A B} (f : A → result B) (l : list A) : result (list B) :=
  match l with
  | [] => Ok []
  | x :: l' => y ← f x; ys ← mapM f l'; Ok (y :: ys)
  end.

End Py.
Import Py.

(* ===================================================================== *)
(** * analyze.py *)
(* ===================================================================== *)

Module Analyze.

(** ** Flattening: [_iter_nodes] *)

(** One flattened row is the dict [row] that [_iter_nodes] fills and
    yields: a finite map from column name to value. *)
Abbreviation row := (gmap string pyval).

(** [row.get(k)] and [row[k]] for a key that is present. *)
Definition cell (r : row) (k : string) : pyval := default PNone (r !! k).

Definition BASE_FIELDS : list string :=
  ["name"; "nodetype"; "path"; "qualname"; "lineno"; "end_lineno"; "docstring"].

Definition METRIC_FIELDS : list string :=
  ["metrics.lines"; "metrics.statements"; "metrics.expressions";
   "metrics.expression_statements"; "metrics.cyclomatic_complexity";
   "metrics.parameters"; "metrics.type_coverage"; "metrics.todo_comments";
   "metrics.duplication.score"; "metrics.duplication.other";
   "metrics.duplication.lines_other"].

(** The body of [_iter_nodes] up to its [yield row], for a node that is a
    dict with items [node].  The assignments are applied in source order,
    the first one innermost. *)
Definition node_row (node : list (string * pyval)) : result row :=
  let row0 : row := list_to_map ((λ k, (k, dict_get node k)) <$> BASE_FIELDS) in
  let row1 : row :=
    <["qual_or_name" :=
        if negb (truthy (cell row0 "qualname"))
        then py_or (cell row0 "qualname") (cell row0 "name")
        else cell row0 "qualname"]> row0 in
  m ← as_dict (py_or (dict_get node "metrics") (PDict []));
  dup ← as_dict (py_or (dict_get m "duplication") (PDict []));
  Ok (<["is_file" := PBool (eq_str (cell row1 "nodetype") "file")]>
      (<["is_directory" := PBool (eq_str (cell row1 "nodetype") "directory")]>
      (<["has_metrics" := PBool (truthy (PDict m))]>
      (<["metrics.duplication.lines_other" := dict_get dup "lines_other"]>
      (<["metrics.duplication.other" := dict_get dup "other"]>
      (<["metrics.duplication.score" := dict_get dup "score"]>
      (<["metrics.todo_comments" := dict_get m "todo_comments"]>
      (<["metrics.type_coverage" := dict_get m "type_coverage"]>
      (<["metrics.parameters" := dict_get m "parameters"]>
      (<["metrics.cyclomatic_complexity" := dict_get m "cyclomatic_complexity"]>
      (<["metrics.expression_statements" := dict_get m "expression_statements"]>
      (<["metrics.expressions" := dict_get m "expressions"]>
      (<["metrics.statements" := dict_get m "statements"]>
      (<["metrics.lines" := dict_get m "lines"]> row1)))))))))))))).

(** What iterating [node.get("children", []) or []] does when the value
    stored under ["children"] is not a list.  A falsy value is replaced by
    [[]]; a non-empty string or dict iterates over strings, on which the
    recursive call fails at [node.get]; a number or [True] is not iterable. *)
Definition iter_non_list (v : pyval) : result (list row) :=
  if truthy v then
    match v with
    | PStr _ | PDict _ => Raise AttributeError
    | _ => Raise TypeError
    end
  else Ok [].

(** [list(_iter_nodes(node))]: the rows in the order the generator yields
    them, or the exception that ends the iteration.  The inner loops walk
    the items of the dict to the ["children"] entry and then the children
    themselves. *)
Fixpoint _iter_nodes (node : pyval) : result (list row) :=
  match node with
  | PDict kv =>
      r ← node_row kv;
      rest ← (fix children (items : list (string * pyval)) : result (list row) :=
                match items with
                | [] => Ok []
                | (k, v) :: items' =>
                    if String.eqb "children" k then
                      match v with
                      | PList l =>
                          (fix each (l : list pyval) : result (list row) :=
                             match l with
                             | [] => Ok []
                             | child :: l' =>
                                 ys ← _iter_nodes child; zs ← each l'; Ok (ys ++ zs)
                             end) l
                      | _ => iter_non_list v
                      end
                    else children items'
                end) kv;
      Ok (r :: rest)
  | _ => Raise AttributeError
  end.

(** The same loop over the children, read off the dict with [dict_lookup]. *)
Definition iter_children (o : option pyval) : result (list row) :=
  match o with
  | None => Ok []
  | Some (PList l) => flat_mapM _iter_nodes l
  | Some v => iter_non_list v
  end.

(** ** Report trees, as the specification describes them *)

(** A report node: its own items and its ordered children. *)
#[local] Unset Elimination Schemes.
Inductive ReportNode : Type :=
| Node (fields : list (string * pyval)) (kids : list ReportNode).
#[local] Set Elimination Schemes.

Definition fields (t : ReportNode) : list (string * pyval) :=
  match t with Node f _ => f end.
Definition kids (t : ReportNode) : list ReportNode :=
  match t with Node _ k => k end.

Section ReportNodeInd.
Variable P : ReportNode → Prop.
Hypothesis HNode : ∀ f ks, Forall P ks → P (Node f ks).
Fixpoint ReportNode_ind (t : ReportNode) : P t :=
  match t with
  | Node f ks =>
      HNode f ks ((fix go (ks : list ReportNode) : Forall P ks :=
                     match ks with
                     | [] => @List.Forall_nil _ P
                     | k :: ks' => @List.Forall_cons _ P k ks' (ReportNode_ind k) (go ks')
                     end) ks)
  end.
End ReportNodeInd.

(** Pre-order: a node, then the pre-orders of its children from left to
    right. *)
Fixpoint preorder (t : ReportNode) : list ReportNode :=
  match t with
  | Node f ks => t :: flat_map preorder ks
  end.

(** Total number of nodes. *)
Fixpoint node_count (t : ReportNode) : nat :=
  match t with
  | Node f ks => S (list_sum (map node_count ks))
  end.

(** The [metrics] entry is absent, falsy or a dict, and so is the
    [duplication] entry of that dict. *)
Definition metrics_well_formed (kv : list (string * pyval)) : bool :=
  match py_or (dict_get kv "metrics") (PDict []) with
  | PDict m =>
      match py_or (dict_get m "duplication") (PDict []) with
      | PDict _ => true
      | _ => false
      end
  | _ => false
  end.

(** Reading a parsed JSON value as a report tree.  A well-formed node is a
    dict with well-formed metrics whose ["children"] entry is absent, falsy
    or a list of well-formed nodes. *)
Fixpoint tree_of (v : pyval) : option ReportNode :=
  match v with
  | PDict kv =>
      if metrics_well_formed kv then
        ks ← (fix children (items : list (string * pyval)) : option (list ReportNode) :=
                match items with
                | [] => Some []
                | (k, c) :: items' =>
                    if String.eqb "children" k then
                      match c with
                      | PList l =>
                          (fix each (l : list pyval) : option (list ReportNode) :=
                             match l with
                             | [] => Some []
                             | child :: l' =>
                                 t ← tree_of child; ts ← each l'; Some (t :: ts)
                             end) l
                      | _ => if truthy c then None else Some []
                      end
                    else children items'
                end) kv;
        Some (Node kv ks)
      else None
  | _ => None
  end.

Definition well_formed (v : pyval) : bool := bool_decide (is_Some (tree_of v)).

(** ** [load_report_to_df] *)

(** The boolean column [has_metrics] used as a mask. *)
Definition has_metrics (r : row) : bool :=
  match cell r "has_metrics" with
  | PBool b => b
  | _ => false
  end.

(** The report is passed as parsed by [json.loads].  Every key of a row is
    one of the requested columns, so [from_records] keeps the rows as they
    are; [only_leaves] keeps the rows whose [has_metrics] is true. *)
Definition load_report_to_df (data : pyval) (only_leaves : bool) : result (list row) :=
  rows ← _iter_nodes data;
  Ok (if only_leaves then filter (λ r, has_metrics r = true) rows else rows).

(** ** [process_df] *)

(** [.fillna(0.0)] on one cell. *)
Definition fillna (v : pyval) : pyval :=
  match v with
  | PNone => PNum 0
  | _ => v
  end.

(** [int(x)] on a number: truncation towards zero. *)
Definition py_trunc (q : Q) : Z :=
  if Qle_bool 0 q then Qfloor q else Qceiling q.

Definition bool_num (b : bool) : Q := if b then 1 else 0.

(** [.astype(int)] on one cell.  Exact for null, booleans and numbers of
    magnitude up to 2^53.  Integers are unbounded here, where pandas wraps
    around or raises [OverflowError] beyond 64 bits, and every string is
    reported as [ValueError], where pandas accepts the ones that spell a
    number; reports hold neither. *)
Definition astype_int (v : pyval) : result pyval :=
  match v with
  | PNum q => Ok (PNum (inject_Z (py_trunc q)))
  | PBool b => Ok (PNum (bool_num b))
  | PNone | PStr _ => Raise ValueError
  | PList _ | PDict _ => Raise TypeError
  end.

(** [.astype(float)] on one cell, with the same proviso on strings. *)
Definition astype_float (v : pyval) : result pyval :=
  match v with
  | PNum q => Ok (PNum q)
  | PBool b => Ok (PNum (bool_num b))
  | PNone | PStr _ => Raise ValueError
  | PList _ | PDict _ => Raise TypeError
  end.

(** [df[c] = f(df[c])], cell by cell. *)
Definition assign_column (c : string) (f : pyval → result pyval) (df : list row)
  : result (list row) :=
  mapM (λ r, v ← f (cell r c); Ok (<[c := v]> r)) df.

Definition fill_int (v : pyval) : result pyval := astype_int (fillna v).
Definition fill_float (v : pyval) : result pyval := astype_float (fillna v).

Definition process_df (df : list row) : result (list row) :=
  df ← assign_column "metrics.lines" fill_int df;
  df ← assign_column "metrics.statements" fill_int df;
  df ← assign_column "metrics.expressions" fill_int df;
  df ← assign_column "metrics.expression_statements" fill_int df;
  df ← assign_column "metrics.cyclomatic_complexity" fill_int df;
  df ← assign_column "metrics.parameters" fill_int df;
  df ← assign_column "metrics.todo_comments" fill_int df;
  df ← assign_column "metrics.duplication.lines_other" fill_int df;
  df ← assign_column "metrics.duplication.score" fill_float df;
  Ok df.

(** The columns that [process_df] assigns. *)
Definition processed_columns : list string :=
  ["metrics.lines"; "metrics.statements"; "metrics.expressions";
   "metrics.expression_statements"; "metrics.cyclomatic_complexity";
   "metrics.parameters"; "metrics.todo_comments";
   "metrics.duplication.lines_other"; "metrics.duplication.score"].

(** ** Series statistics, as pandas computes them *)

#[global] Instance Qle_dec (x y : Q) : Decision (x <= y)%Q.
Proof.
  destruct (Qle_bool x y) eqn:E.
  - left. by apply Qle_bool_iff.
  - right. intros H. apply Qle_bool_iff in H. congruence.
Defined.

(** A numeric cell: a number, or NaN ([None]).  A column that holds
    anything else cannot be aggregated: strings and containers fail in the
    mean, booleans in the quantile, all with [TypeError]. *)
Definition to_numeric (v : pyval) : result (option Q) :=
  match v with
  | PNone => Ok None
  | PNum q => Ok (Some q)
  | _ => Raise TypeError
  end.

(** [df[c]] as a numeric Series. *)
Definition numeric_series (df : list row) (c : string) : result (list (option Q)) :=
  mapM (λ r, to_numeric (cell r c)) df.

(** The reductions skip NaN. *)
Definition dropna (s : list (option Q)) : list Q := omap id s.

Definition Qsum (l : list Q) : Q := foldr Qplus 0 l.

Definition ssum (s : list (option Q)) : Q := Qsum (dropna s).

Definition smean (s : list (option Q)) : option Q :=
  match dropna s with
  | [] => None
  | xs => Some (Qsum xs / inject_Z (Z.of_nat (length xs)))
  end.

Definition smax (s : list (option Q)) : option Q :=
  match dropna s with
  | [] => None
  | x :: xs => Some (foldl Qmax x xs)
  end.

Definition smin (s : list (option Q)) : option Q :=
  match dropna s with
  | [] => None
  | x :: xs => Some (foldl Qmin x xs)
  end.

(** [Series.quantile(q)]: linear interpolation at position [q * (n - 1)] of
    the sorted values, in exact arithmetic. *)
Definition quantile (q : Q) (s : list (option Q)) : option Q :=
  match merge_sort Qle (dropna s) with
  | [] => None
  | (x0 :: _) as xs =>
      let n := length xs in
      let pos := q * inject_Z (Z.of_nat (n - 1)) in
      let lo := Z.to_nat (Qfloor pos) in
      let hi := (lo + 1) `min` (n - 1) in
      let frac := pos - inject_Z (Qfloor pos) in
      Some (nth lo xs x0 + (nth hi xs x0 - nth lo xs x0) * frac)
  end.

(** Rounding to the nearest integer, ties to even. *)
Definition round_half_even (x : Q) : Z :=
  let f := Qfloor x in
  match (x - inject_Z f ?= 1 # 2)%Q with
  | Lt => f
  | Gt => (f + 1)%Z
  | Eq => if Z.even f then f else (f + 1)%Z
  end.

(** [.round(4)], in exact arithmetic: the nearest multiple of 1/10000, ties
    to the even one. *)
Definition round4 (x : option Q) : option Q :=
  (λ q, inject_Z (round_half_even (q * 10000)) / 10000) <$> x.

(** [s.mean().round(4)].  The mean of a Series without a value is the
    plain float [nan], which has no [round]: the call ends with
    [AttributeError].  Otherwise the mean is a NumPy float and is rounded. *)
Definition rounded_mean (s : list (option Q)) : result (option Q) :=
  match smean s with
  | Some μ => Ok (round4 (Some μ))
  | None => Raise AttributeError
  end.

(** The values stored in an aggregate record. *)
Inductive scalar : Type :=
| SStr (s : string)
| SInt (z : Z)
| SFloat (x : option Q)
| SJson (v : pyval).

(** [int(x)] fails on NaN. *)
Definition py_int (x : option Q) : result scalar :=
  match x with
  | None => Raise ValueError
  | Some q => Ok (SInt (py_trunc q))
  end.

Definition py_float (x : option Q) : scalar := SFloat x.

(** [.str.len()] on one cell: the length of a sized value, NaN otherwise.
    The accessor [.str] itself refuses a column that holds numbers and no
    string, with [AttributeError]; this check on the whole column is left
    out, so the docstring statistics are those of the code for docstrings
    that are strings or null. *)
Definition str_len (v : pyval) : option nat :=
  match v with
  | PStr s => Some (String.length s)
  | PList l => Some (length l)
  | PDict kv => Some (length kv)
  | _ => None
  end.

(** ** [aggregate_metrics] *)

(** An insertion-ordered dict with string keys. *)
Abbreviation record := (list (string * scalar)).

Fixpoint record_get (k : string) (r : record) : option scalar :=
  match r with
  | [] => None
  | (k', v) :: r' => if String.eqb k k' then Some v else record_get k r'
  end.

(** [r[k] = v]: an existing key keeps its place. *)
Fixpoint record_set (k : string) (v : scalar) (r : record) : record :=
  match r with
  | [] => [(k, v)]
  | (k', v') :: r' =>
      if String.eqb k k' then (k, v) :: r' else (k', v') :: record_set k v r'
  end.

(** [r.update(other)] *)
Definition record_update (r other : record) : record :=
  foldl (λ acc kv, record_set kv.1 kv.2 acc) r other.

(** Mean, maximum and 90th percentile: the three entries written for each of
    lines, statements, expressions, cyclomatic_complexity and parameters. *)
Definition mean_max_p90 (df : list row) (field : string) : result record :=
  s ← numeric_series df ("metrics." +:+ field);
  mean ← rounded_mean s;
  mx ← py_int (smax s);
  p90 ← py_int (quantile (9 # 10) s);
  Ok [(field +:+ " mean", py_float mean);
      (field +:+ " max", mx);
      (field +:+ " 90th-percentile", p90)].

(** The two docstring statistics.  [df["docstring"].str.len() > 0] is a
    boolean Series, true where the length is positive. *)
Definition docstring_flags (df : list row) : list (option Q) :=
  (λ r, Some (bool_num
          match str_len (cell r "docstring") with
          | Some (S _) => true
          | _ => false
          end)) <$> df.

Definition docstring_coverage (df : list row) : result (option Q) :=
  rounded_mean (docstring_flags df).

Definition docstring_missing (df : list row) : Z :=
  Z.of_nat (length (filter (λ r, str_len (cell r "docstring") = Some 0%nat) df)).

(** Element-wise product of two Series: NaN where either is NaN. *)
Definition series_mul (a b : list (option Q)) : list (option Q) :=
  zip_with (λ x y, x ← x; y ← y; Some (x * y)) a b.

Definition aggregate_metrics (df : list row) (date : string) : result record :=
  coverage ← docstring_coverage df;
  let head := [("date", SStr date);
               ("docstring coverage", py_float coverage);
               ("docstring missing", SInt (docstring_missing df))] in
  lines ← mean_max_p90 df "lines";
  statements ← mean_max_p90 df "statements";
  expressions ← mean_max_p90 df "expressions";
  cyclomatic ← mean_max_p90 df "cyclomatic_complexity";
  parameters ← mean_max_p90 df "parameters";
  tc ← numeric_series df "metrics.type_coverage";
  tc_mean ← rounded_mean tc;
  tc_min ← py_int (smin tc);
  tc_p50 ← py_int (quantile (1 # 2) tc);
  todo ← numeric_series df "metrics.todo_comments";
  score ← numeric_series df "metrics.duplication.score";
  score_mean ← rounded_mean score;
  ln ← numeric_series df "metrics.lines";
  Ok (head ++ lines ++ statements ++ expressions ++ cyclomatic ++ parameters ++
      [("type_coverage mean", py_float tc_mean);
       ("type_coverage min", tc_min);
       ("type_coverage 50th-percentile", tc_p50);
       ("todo_comments total", SInt (py_trunc (ssum todo)));
       ("duplication.score mean", py_float score_mean);
       ("duplication.score max", py_float (smax score));
       ("duplication.score 90th-percentile", py_float (quantile (9 # 10) score));
       ("duplication.score 50th-percentile", py_float (quantile (1 # 2) score));
       ("duplication.duplicated-lines total",
        SInt (round_half_even (ssum (series_mul ln score))))]).

(** ** [cloc_metrics] *)

(** How [subprocess.run(["cloc", "--json", path], check=True)] can end: the
    executable is not found; the call raises something else before there is
    a completed process ([PermissionError] for a file that may not be
    executed, [UnicodeDecodeError] for output that is not text, any other
    error of the operating system); or the process exits with a status and
    an output, given as what [json.loads] makes of it ([None] when the
    output is not JSON). *)
Inductive cloc_run : Type :=
| ClocNotFound
| ClocNotRun (e : exn)
| ClocExited (returncode : Z) (stdout : option pyval).

(** [k in v] *)
Definition py_contains (v : pyval) (k : string) : result bool :=
  match v with
  | PDict kv => Ok (bool_decide (is_Some (dict_lookup k kv)))
  | PList l => Ok (existsb (λ x, eq_str x k) l)
  | PStr s => Ok (bool_decide (is_Some (String.index 0 k s)))
  | _ => Raise TypeError
  end.

(** [v[k]] for a string key [k] *)
Definition py_getitem (v : pyval) (k : string) : result pyval :=
  match v with
  | PDict kv =>
      match dict_lookup k kv with
      | Some x => Ok x
      | None => Raise KeyError
      end
  | _ => Raise TypeError
  end.

(** [d.get(k, 0)] *)
Definition get_or_zero (d : list (string * pyval)) (k : string) : scalar :=
  SJson (default (PNum 0) (dict_lookup k d)).

(** The [try] block of [cloc_metrics]. *)
Definition cloc_try (run : cloc_run) : result record :=
  match run with
  | ClocNotFound => Raise FileNotFoundError
  | ClocNotRun e => Raise e
  | ClocExited rc out =>
      if bool_decide (rc = 0%Z) then
        match out with
        | None => Raise JSONDecodeError
        | Some cloc_data =>
            has_python ← py_contains cloc_data "Python";
            if has_python : bool then
              v ← py_getitem cloc_data "Python";
              py_data ← as_dict v;
              Ok [("files", get_or_zero py_data "nFiles");
                  ("lines blank", get_or_zero py_data "blank");
                  ("lines comment", get_or_zero py_data "comment");
                  ("lines code", get_or_zero py_data "code")]
            else Ok []
        end
      else Raise CalledProcessError
  end.

(** [except (subprocess.CalledProcessError, json.JSONDecodeError): pass] *)
Definition cloc_metrics (run : cloc_run) : result record :=
  match cloc_try run with
  | Raise CalledProcessError | Raise JSONDecodeError => Ok []
  | r => r
  end.

(** ** The ledger: [_download_space_csv_or_empty] and the merge *)

(** A table: column labels and rows of cells, [None] being a missing cell. *)
Record DataFrame : Type := mk_frame {
  columns : list string;
  rows : list (list (option scalar))
}.


(** [df.empty]: some axis has length zero. *)
Definition frame_empty (df : DataFrame) : bool :=
  bool_decide (columns df = []) || bool_decide (length (rows df) = 0%nat).

(** [pd.DataFrame([row])] *)
Definition frame_of_record (r : record) : DataFrame :=
  {| columns := r.*1; rows := [Some <$> r.*2] |}.

(** [list(dict.fromkeys(l))]: the first occurrence of each label, in order. *)
Fixpoint fromkeys_from (seen : list string) (l : list string) : list string :=
  match l with
  | [] => []
  | k :: l' =>
      if bool_decide (k ∈ seen) then fromkeys_from seen l'
      else k :: fromkeys_from (k :: seen) l'
  end.

Definition fromkeys (l : list string) : list string := fromkeys_from [] l.

(** The cell of a row under a label. *)
Fixpoint cell_at (cols : list string) (r : list (option scalar)) (c : string)
  : option scalar :=
  match cols, r with
  | c' :: cols', x :: r' => if String.eqb c c' then x else cell_at cols' r' c
  | _, _ => None
  end.

(** [df.reindex(columns=cols)] *)
Definition reindex (cols : list string) (df : DataFrame) : DataFrame :=
  {| columns := cols;
     rows := (λ r, cell_at (columns df) r <$> cols) <$> rows df |}.

(** The cells of a table under a label, from the first row to the last. *)
Definition column_cells (df : DataFrame) (c : string) : list (option scalar) :=
  (λ r, cell_at (columns df) r c) <$> rows df.

(** The dtype that [pd.concat] finds for a column.  With a string (or any
    other object) among its cells the column is of dtype [object] and the
    cells stay as they are; otherwise a missing cell or a float makes it
    [float64], and its integers become floats; a column of integers only
    stays [int64]. *)
Definition float_column (cells : list (option scalar)) : bool :=
  forallb (λ x, match x with
                | Some (SStr _) | Some (SJson _) => false
                | _ => true
                end) cells
  && existsb (λ x, match x with
                   | None | Some (SFloat _) => true
                   | _ => false
                   end) cells.

Definition to_float (x : option scalar) : option scalar :=
  match x with
  | Some (SInt z) => Some (SFloat (Some (inject_Z z)))
  | _ => x
  end.

(** [pd.concat([a, b], ignore_index=True)] for two frames over the same
    columns: the rows of [a], then those of [b], each column converted to
    the dtype found for it. *)
Definition concat2 (a b : DataFrame) : DataFrame :=
  let stacked := {| columns := columns a; rows := rows a ++ rows b |} in
  {| columns := columns a;
     rows := (λ r, (λ c, if float_column (column_cells stacked c)
                         then to_float (cell_at (columns a) r c)
                         else cell_at (columns a) r c) <$> columns a)
             <$> rows stacked |}.


(** Step 2 of [append_metrics_to_hub_csv]: [df_updated]. *)
Definition df_updated (df_existing : DataFrame) (r : record) : DataFrame :=
  let df_new := frame_of_record r in
  let all_cols := fromkeys (columns df_existing ++ columns df_new) in
  if frame_empty df_existing then reindex all_cols df_new
  else concat2 (reindex all_cols df_existing) (reindex all_cols df_new).


(** ** [main], without [--hub-repo] *)

(** The table printed on standard output, or the exception that ends the
    process.  [report] is the outcome of reading and parsing the report
    file. *)
Definition main (report : result pyval) (cloc : cloc_run) (date : string)
  : result DataFrame :=
  data ← report;
  df ← load_report_to_df data true;
  df ← process_df df;
  agg ← aggregate_metrics df date;
  c ← cloc_metrics cloc;
  let agg := record_update agg c in
  let df_row := frame_of_record agg in
  Ok (reindex (fromkeys (columns df_row)) df_row).

(** Exit status of the interpreter: an uncaught exception gives 1. *)
Definition exit_status {A} (r : result A) : Z :=
  match r with
  | Ok _ => 0
  | Raise (SystemExit c) => c
  | Raise _ => 1
  end.

End Analyze.

(* ===================================================================== *)
(** * backfill.py *)
(* ===================================================================== *)

Module Backfill.

Import Analyze.

(** ** Strings and dates *)

Fixpoint lstrip (s : string) : string :=
  match s with
  | String a s' => if Ascii.is_space a then lstrip s' else s
  | EmptyString => EmptyString
  end.

(** [s.strip()] *)
Definition strip (s : string) : string :=
  String.rev (lstrip (String.rev (lstrip s))).

Fixpoint splitlines_go (cur : string) (s : string) : list string :=
  match s with
  | EmptyString => if String.eqb cur "" then [] else [String.rev cur]
  | String a s' =>
      if Ascii.eqb a "010"%char then String.rev cur :: splitlines_go "" s'
      else splitlines_go (String a cur) s'
  end.

(** [s.splitlines()], for lines ended by a line feed. *)
Definition splitlines (s : string) : list string := splitlines_go "" s.

(** [dt.date] *)
Record date : Type := mk_date { year : Z; month : Z; day : Z }.

(** [dt.date(y, m, 1)]: the year must lie between [MINYEAR] and [MAXYEAR]. *)
Definition month_start_date (y m : Z) : result date :=
  if bool_decide (1 ≤ y ≤ 9999 ∧ 1 ≤ m ≤ 12)%Z then Ok (mk_date y m 1)
  else Raise ValueError.

(** [d.replace(day=1)] *)
Definition replace_day1 (d : date) : date := mk_date (year d) (month d) 1.

(** [a < b] on dates *)
Definition date_ltb (a b : date) : bool :=
  bool_decide (year a < year b
               ∨ (year a = year b ∧ (month a < month b
                                      ∨ (month a = month b ∧ day a < day b))))%Z.

Definition pad (width : nat) (n : Z) : string :=
  let s := pretty n in
  String.concat "" (replicate (width - String.length s) "0") +:+ s.

(** [d.isoformat()] *)
Definition isoformat (d : date) : string :=
  pad 4 (year d) +:+ "-" +:+ pad 2 (month d) +:+ "-" +:+ pad 2 (day d).

(** [dt.datetime(y, m, 1, tzinfo=dt.timezone.utc).isoformat()] *)
Definition since_iso (d : date) : string :=
  isoformat (mk_date (year d) (month d) 1) +:+ "T00:00:00+00:00".

(** ** The target repository and the processes that are run *)

(** What is checked out: a branch, or a commit with a detached [HEAD]. *)
Inductive gitref : Type :=
| OnBranch (name : string)
| Detached (sha : string).

#[global] Instance gitref_eq_dec : EqDecision gitref.
Proof. solve_decision. Defined.

(** The command lines handed to [run]. *)
Inductive command : Type :=
| GitRevParseAbbrevRef
| GitRevParseHead
| GitShowRef (branch : string)
| GitCheckout (target : string)
| GitRevList (branch : string) (since : option string)
| GitShow (sha : string)
| MainPy
| AnalyzePy (date : string).

(** [subprocess.CompletedProcess] *)
Record completed : Type := mk_completed {
  returncode : Z;
  stdout : string;
  stderr : string
}.

(** Everything outside the script: the files looked for, the refs and
    commits of the repository, outside reasons for a git command to fail,
    what git prints, the two Python programs that are spawned, the clock and
    the library calls that are not embedded. *)
Record Env : Type := mk_env {
  analyzer_has_main_py : bool;
  cwd_has_analyze_py : bool;
  is_branch : string → bool;
  branch_tip : string → string;
  is_commit : string → bool;
  git_fails : command → gitref → bool;
  rev_list_out : string → option string → string;
  show_out : string → string;
  main_py : gitref → completed;
  analyze_py : gitref → string → completed;
  today : date;
  fromisoformat : string → result date;
  read_csv : string → result DataFrame;
  concat_sort_to_csv : list DataFrame → result string
}.

(** The state the script acts on: the checked-out reference of the target
    repository, the commands run so far (latest last) and the two output
    streams. *)
Record world : Type := mk_world {
  HEAD : gitref;
  log : list command;
  out : list string;
  err : list string
}.

(** Computations that read and change the world and may raise. *)
Definition M (A : Type) : Type := world → result A * world.

#[global] Instance M_ret : MRet M := λ A a w, (Ok a, w).
#[global] Instance M_bind : MBind M :=
  λ A B f m w,
    match m w with
    | (Ok a, w') => f a w'
    | (Raise e, w') => (Raise e, w')
    end.

Definition raise {A} (e : exn) : M A := λ w, (Raise e, w).
Definition lift {A} (r : result A) : M A := λ w, (r, w).

(** [try: body finally: final] *)
Definition try_finally {A} (body : M A) (final : M ()) : M A :=
  λ w,
    let '(r, w1) := body w in
    match final w1 with
    | (Ok _, w2) => (r, w2)
    | (Raise e, w2) => (Raise e, w2)
    end.

Definition print_err (s : string) : M () :=
  λ w, (Ok (), mk_world (HEAD w) (log w) (out w) (err w ++ [s])).

Definition write_out (s : string) : M () :=
  λ w, (Ok (), mk_world (HEAD w) (log w) (out w ++ [s]) (err w)).

Definition ok_process (s : string) : completed := mk_completed 0 s "".
Definition failed_process : completed := mk_completed 1 "" "".

Section Script.
Variable env : Env.

(** What a process does to the repository and what it returns. *)
Definition exec (cmd : command) (h : gitref) : completed * gitref :=
  if git_fails env cmd h then (failed_process, h)
  else
    match cmd with
    | GitRevParseAbbrevRef =>
        (ok_process match h with OnBranch n => n | Detached _ => "HEAD" end, h)
    | GitRevParseHead =>
        (ok_process match h with OnBranch n => branch_tip env n | Detached s => s end, h)
    | GitShowRef b =>
        (if is_branch env b then ok_process "" else failed_process, h)
    | GitCheckout t =>
        if is_branch env t then (ok_process "", OnBranch t)
        else if is_commit env t then (ok_process "", Detached t)
        else (failed_process, h)
    | GitRevList b since => (ok_process (rev_list_out env b since), h)
    | GitShow s => (ok_process (show_out env s), h)
    | MainPy => (main_py env h, h)
    | AnalyzePy d => (analyze_py env h d, h)
    end.

(** [run(cmd, cwd=..., check=check)], in an environment where the command
    can be started: a missing [git] or working directory, for which
    [subprocess.run] raises [FileNotFoundError], is not part of it. *)
Definition run (cmd : command) (check : bool) : M completed :=
  λ w,
    let '(cp, h) := exec cmd (HEAD w) in
    let w' := mk_world h (log w ++ [cmd]) (out w) (err w) in
    if check && negb (bool_decide (returncode cp = 0%Z))
    then (Raise CalledProcessError, w')
    else (Ok cp, w').

Definition git_current_ref : M (string * string) :=
  r ← run GitRevParseAbbrevRef true;
  s ← run GitRevParseHead true;
  mret (strip (stdout r), strip (stdout s)).

(** The non-empty stripped lines of an output. *)
Definition nonempty_lines (s : string) : list string :=
  filter (λ l, l ≠ "") (strip <$> splitlines s).

Definition git_earliest_first_parent_sha (branch : string) : M (option string) :=
  cp ← run (GitRevList branch None) false;
  mret (head (nonempty_lines (stdout cp))).

Definition git_commit_date (sha : string) : M date :=
  cp ← run (GitShow sha) true;
  lift (fromisoformat env (strip (stdout cp))).

Definition git_first_commit_date (branch : string) : M date :=
  sha ← git_earliest_first_parent_sha branch;
  match sha with
  | None => raise RuntimeError
  | Some sha => git_commit_date sha
  end.

Definition git_first_commit_on_or_after (branch : string) (since : string)
  : M (option string) :=
  cp ← run (GitRevList branch (Some since)) false;
  mret (head (nonempty_lines (stdout cp))).

(** The loop of [month_starts_descending], [n] iterations from [d]. *)
Fixpoint month_starts_from (n : nat) (d : date) : result (list date) :=
  match n with
  | O => Ok []
  | S n' =>
      let y := if bool_decide (month d = 1%Z) then (year d - 1)%Z else year d in
      let m := if bool_decide (month d = 1%Z) then 12%Z else (month d - 1)%Z in
      d' ← month_start_date y m;
      starts ← month_starts_from n' d';
      Ok (d :: starts)
  end.

Definition month_starts_descending : result (list date) :=
  month_starts_from 2400 (replace_day1 (today env)).

(** [l[:n]] *)
Definition slice_to {A} (n : Z) (l : list A) : list A :=
  if bool_decide (0 ≤ n)%Z then take (Z.to_nat n) l
  else take (length l - Z.to_nat (- n)) l.

Section Loop.
Variable branch : string.
Variable earliest : date.

(** The [for month_start in starts] loop of [main] with its two
    accumulators; the result is [dfs] when the loop is left, by
    exhaustion or by [break]. *)
Fixpoint snapshot_loop (starts : list date) (dfs : list DataFrame)
    (seen_shas : gset string) : M (list DataFrame) :=
  match starts with
  | [] => mret dfs
  | month_start :: starts' =>
      _ ← print_err "|";
      if date_ltb month_start (replace_day1 earliest) then mret dfs
      else
        sha ← git_first_commit_on_or_after branch (since_iso month_start);
        match sha with
        | None => snapshot_loop starts' dfs seen_shas
        | Some sha =>
            if bool_decide (sha = "") || bool_decide (sha ∈ seen_shas)
            then snapshot_loop starts' dfs seen_shas
            else
              let seen_shas := seen_shas ∪ {[sha]} in
              _ ← run (GitCheckout sha) true;
              cp_report ← run MainPy false;
              if negb (bool_decide (returncode cp_report = 0%Z)) then
                d ← git_commit_date sha;
                _ ← print_err ("error: main.py failed on commit " +:+ sha +:+
                               " (" +:+ isoformat d +:+ "), aborting");
                _ ← print_err (stderr cp_report);
                mret dfs
              else
                d ← git_commit_date sha;
                cp_agg ← run (AnalyzePy (isoformat d)) true;
                let csv_text := strip (stdout cp_agg) in
                if bool_decide (csv_text = "")
                then snapshot_loop starts' dfs seen_shas
                else
                  df ← lift (read_csv env csv_text);
                  snapshot_loop starts' (dfs ++ [df]) seen_shas
        end
  end.
End Loop.

(** [--branch] and [--max-months]; the paths are part of [env]. *)
Record Args : Type := mk_args { branch : string; max_months : Z }.

(** The body of the [try] statement of [main]. *)
Definition collect_and_write (args : Args) (earliest : date) (starts : list date)
  : M () :=
  dfs ← snapshot_loop (branch args) earliest starts [] ∅;
  match dfs with
  | [] => print_err "no data collected"
  | _ =>
      csv ← lift (concat_sort_to_csv env dfs);
      write_out csv
  end.

(** The [finally] clause of [main]. *)
Definition restore (start_ref start_sha : string) : M () :=
  if String.eqb start_ref "HEAD"
  then _ ← run (GitCheckout start_sha) false; mret ()
  else _ ← run (GitCheckout start_ref) false; mret ().

(** The [try ... except subprocess.CalledProcessError] around the branch
    check. *)
Definition verify_branch (branch : string) : M () :=
  λ w,
    match run (GitShowRef branch) true w with
    | (Raise CalledProcessError, w') =>
        (_ ← print_err ("error: branch '" +:+ branch +:+ "' not found");
         raise (SystemExit 2)) w'
    | (Raise e, w') => (Raise e, w')
    | (Ok _, w') => (Ok (), w')
    end.

Definition main (args : Args) : M () :=
  if negb (analyzer_has_main_py env) then
    _ ← print_err "error: main.py not found"; raise (SystemExit 2)
  else if negb (cwd_has_analyze_py env) then
    _ ← print_err "error: analyze.py not found"; raise (SystemExit 2)
  else
    start ← git_current_ref;
    _ ← verify_branch (branch args);
    _ ← run (GitCheckout (branch args)) true;
    earliest ← git_first_commit_date (branch args);
    starts ← lift month_starts_descending;
    let starts :=
      if bool_decide (max_months args = 0%Z) then starts
      else slice_to (max_months args) starts in
    try_finally (collect_and_write args earliest starts)
                (restore start.1 start.2).

End Script.

End Backfill.

(* ===================================================================== *)
(** * Notions used to state the properties *)
(* ===================================================================== *)

Module Notions.

Import Analyze Backfill.

(** The children of a well-formed node, read off the dict. *)
Fixpoint trees_of (l : list pyval) : option (list ReportNode) :=
  match l with
  | [] => Some []
  | child :: l' => t ← tree_of child; ts ← trees_of l'; Some (t :: ts)
  end.

Definition kids_of (o : option pyval) : option (list ReportNode) :=
  match o with
  | None => Some []
  | Some (PList l) => trees_of l
  | Some c => if truthy c then None else Some []
  end.

(** One row per node, in pre-order, for a value read as the tree [t]. *)
Definition flattens_to (v : pyval) (t : ReportNode) : Prop :=
  ∃ rs, _iter_nodes v = Ok rs
        ∧ Forall2 (λ nd r, node_row (fields nd) = Ok r) (preorder t) rs
        ∧ length rs = node_count t.

(** What [process_df] does to one row. *)
Definition assign_cell (c : string) (f : pyval → result pyval) (r : row) : result row :=
  v ← f (cell r c); Ok (<[c := v]> r).

Definition process_row (r : row) : result row :=
  r ← assign_cell "metrics.lines" fill_int r;
  r ← assign_cell "metrics.statements" fill_int r;
  r ← assign_cell "metrics.expressions" fill_int r;
  r ← assign_cell "metrics.expression_statements" fill_int r;
  r ← assign_cell "metrics.cyclomatic_complexity" fill_int r;
  r ← assign_cell "metrics.parameters" fill_int r;
  r ← assign_cell "metrics.todo_comments" fill_int r;
  r ← assign_cell "metrics.duplication.lines_other" fill_int r;
  r ← assign_cell "metrics.duplication.score" fill_float r;
  Ok r.

(** How a processed row [r] relates to the flattened row [r0] it comes
    from: [r0] bears metrics; the columns that [process_df] assigns hold
    numbers, 0 where [r0] had a null, and integers except for the score; the
    other cells are those of [r0]. *)
Definition processed_from (r0 r : row) : Prop :=
  has_metrics r0 = true
  ∧ (∀ c, c ∈ processed_columns →
          ∃ q : Q, cell r c = PNum q ∧ (cell r0 c = PNone → q = 0))
  ∧ (∀ c, c ∈ processed_columns → c ≠ "metrics.duplication.score" →
          ∃ z : Z, cell r c = PNum (inject_Z z))
  ∧ (∀ c, c ∉ processed_columns → cell r c = cell r0 c).

(** Rows whose docstring has a positive length, and rows whose docstring
    has length zero. *)
Definition documented (r : row) : Prop :=
  ∃ n, str_len (cell r "docstring") = Some (S n).

#[global] Instance documented_dec r : Decision (documented r).
Proof.
  unfold documented. destruct (str_len (cell r "docstring")) as [[|n]|].
  - right. by intros [? ?].
  - left. eauto.
  - right. by intros [? ?].
Defined.

Definition count_documented (df : list row) : Z :=
  Z.of_nat (length (filter documented df)).

Definition count_empty_docstring (df : list row) : Z :=
  Z.of_nat (length (filter (λ r, str_len (cell r "docstring") = Some 0%nat) df)).

(** ** Statistics *)



(** Reading a float or an integer entry of a record. *)
Definition get_float (rec : record) (k : string) : option Q :=
  match record_get k rec with
  | Some (SFloat x) => x
  | _ => None
  end.

Definition get_int (rec : record) (k : string) : option Z :=
  match record_get k rec with
  | Some (SInt z) => Some z
  | _ => None
  end.

(** The flag whose mean is the docstring coverage. *)
Definition docstring_flag (r : row) : bool :=
  match str_len (cell r "docstring") with
  | Some (S _) => true
  | _ => false
  end.

(** What a successful aggregation has computed. *)
Record aggregated (df : list row) (date : string) (rec : record) : Prop := {
  agg_counts :
    ∃ l1 l2 l3 l4 l5 tail,
      mean_max_p90 df "lines" = Ok l1
      ∧ mean_max_p90 df "statements" = Ok l2
      ∧ mean_max_p90 df "expressions" = Ok l3
      ∧ mean_max_p90 df "cyclomatic_complexity" = Ok l4
      ∧ mean_max_p90 df "parameters" = Ok l5
      ∧ rec = [("date", SStr date);
               ("docstring coverage", SFloat (round4 (smean (docstring_flags df))));
               ("docstring missing", SInt (docstring_missing df))]
              ++ l1 ++ l2 ++ l3 ++ l4 ++ l5 ++ tail
      ∧ ∃ tc tmin tp50 todo score ln,
          numeric_series df "metrics.type_coverage" = Ok tc
          ∧ smin tc = Some tmin ∧ quantile (1 # 2) tc = Some tp50
          ∧ numeric_series df "metrics.todo_comments" = Ok todo
          ∧ numeric_series df "metrics.duplication.score" = Ok score
          ∧ numeric_series df "metrics.lines" = Ok ln
          ∧ tail =
              [("type_coverage mean", SFloat (round4 (smean tc)));
               ("type_coverage min", SInt (py_trunc tmin));
               ("type_coverage 50th-percentile", SInt (py_trunc tp50));
               ("todo_comments total", SInt (py_trunc (ssum todo)));
               ("duplication.score mean", SFloat (round4 (smean score)));
               ("duplication.score max", SFloat (smax score));
               ("duplication.score 90th-percentile", SFloat (quantile (9 # 10) score));
               ("duplication.score 50th-percentile", SFloat (quantile (1 # 2) score));
               ("duplication.duplicated-lines total",
                SInt (round_half_even (ssum (series_mul ln score))))]
}.

(** ** Example tables *)

Definition ledger0 : DataFrame :=
  {| columns := ["date"; "files"];
     rows := [[Some (SStr "2024-01-01"); Some (SInt 3)]] |}.

Definition record0 : record :=
  [("date", SStr "2024-02-01"); ("lines mean", SFloat (Some 15))].



(** ** Example reports *)

(** A file node with metrics but without a type coverage and without a
    duplication record. *)
Definition leaf_without_coverage : pyval :=
  PDict [("name", PStr "a.py"); ("nodetype", PStr "file");
         ("docstring", PStr "module a");
         ("metrics", PDict [("lines", PNum 3)])].

(** A file node carrying the named metrics. *)
Definition file_node (nm : string) (doc : pyval) (lines coverage score : Q) : pyval :=
  PDict [("name", PStr nm); ("nodetype", PStr "file"); ("docstring", doc);
         ("metrics", PDict [("lines", PNum lines);
                            ("type_coverage", PNum coverage);
                            ("duplication", PDict [("score", PNum score)])])].

(** A directory without metrics holding two files, the second one without
    a docstring. *)
Definition small_report : pyval :=
  PDict [("name", PStr "src"); ("nodetype", PStr "directory");
         ("children", PList [file_node "a.py" (PStr "module a") 10 1 0;
                             file_node "b.py" PNone 20 1 (1 # 2)])].



(** ** Runs of backfill.py *)

(** The snapshot checkouts among the commands of a log. *)
Definition checkouts (l : list command) : list string :=
  omap (λ c, match c with GitCheckout t => Some t | _ => None end) l.

(** The commit a month start resolves to when the repository is at [h]. *)
Definition resolved (env : Env) (branch : string) (m : date) (h : gitref) : option string :=
  head (nonempty_lines
          (stdout (exec env (GitRevList branch (Some (since_iso m))) h).1)).

Definition add_log (w : world) (cmds : list command) : world :=
  mk_world (HEAD w) (log w ++ cmds) (out w) (err w).
Definition add_err (w : world) (msgs : list string) : world :=
  mk_world (HEAD w) (log w) (out w) (err w ++ msgs).
Definition set_head (w : world) (h : gitref) : world :=
  mk_world h (log w) (out w) (err w).

Definition add_out (w : world) (s : string) : world :=
  mk_world (HEAD w) (log w) (out w ++ [s]) (err w).

(** The log [after] extends [before] by commands whose checkouts are
    pairwise distinct and not among [seen]. *)
Definition fresh_checkouts (seen : gset string) (before after : list command) : Prop :=
  ∃ new, after = before ++ new
         ∧ NoDup (checkouts new)
         ∧ ∀ t, t ∈ checkouts new → t ∉ seen.

(** The reference that the [finally] clause checks out. *)
Definition restore_target (start_ref start_sha : string) : string :=
  if String.eqb start_ref "HEAD" then start_sha else start_ref.

(** What the [try] statement returns once the loop has ended with [dfs]. *)
Definition output_result (env : Env) (dfs : list DataFrame) : result () :=
  match dfs with
  | [] => Ok ()
  | _ => concat_sort_to_csv env dfs ≫= λ _, Ok ()
  end.

(** The date of a commit as [git_commit_date] reads it when the repository
    is at [h]: [git show] is run with [check=True] and its output parsed. *)
Definition shown_date (env : Env) (sha : string) (h : gitref) : result date :=
  if bool_decide (returncode (exec env (GitShow sha) h).1 = 0%Z)
  then fromisoformat env (strip (stdout (exec env (GitShow sha) h).1))
  else Raise CalledProcessError.

(** The month starts that the loop of [main] is given. *)
Definition months_examined (args : Args) (starts : list date) : list date :=
  if bool_decide (max_months args = 0%Z) then starts
  else slice_to (max_months args) starts.

(** What the [try] statement returns or raises once the loop has ended. *)
Definition after_loop (env : Env) (r : result (list DataFrame)) : result () :=
  match r with
  | Ok dfs =>
      match dfs with
      | [] => Ok ()
      | _ => concat_sort_to_csv env dfs ≫= λ _, Ok ()
      end
  | Raise e => Raise e
  end.

(** The message printed when the report generator fails. *)
Definition failure_message (sha : string) (d : date) : string :=
  "error: main.py failed on commit " +:+ sha +:+ " (" +:+ isoformat d +:+ "), aborting".


(** ** An example repository *)

Definition nl : string := String "010"%char "".

Definition example_frame : DataFrame :=
  {| columns := ["date"]; rows := [[Some (SStr "2024-02-10")]] |}.

(** Two commits on [main], [c1] of 15 January 2024 and [c2] of 10 February
    2024; the clock shows 20 February 2024.  The scanner's exit status and
    the process running [analyze.py] are given per commit, and [git show]
    fails when [show_fails]. *)
Definition example_env (scan : string → Z) (analyze : gitref → string → completed)
    (show_fails : bool) : Env :=
  {| analyzer_has_main_py := true;
     cwd_has_analyze_py := true;
     is_branch := λ b, bool_decide (b = "main") || bool_decide (b = "dev");
     branch_tip := λ b, if bool_decide (b = "main") then "c2" else "c1";
     is_commit := λ s, bool_decide (s = "c1") || bool_decide (s = "c2");
     git_fails := λ cmd _, match cmd with GitShow _ => show_fails | _ => false end;
     rev_list_out := λ _ since,
       match since with
       | None => "c1" +:+ nl +:+ "c2" +:+ nl
       | Some s =>
           if bool_decide (s = "2024-02-01T00:00:00+00:00") then "c2" +:+ nl
           else if bool_decide (s = "2024-01-01T00:00:00+00:00")
                then "c1" +:+ nl +:+ "c2" +:+ nl
                else ""
       end;
     show_out := λ s,
       if bool_decide (s = "c1") then "2024-01-15T10:00:00+00:00" +:+ nl
       else "2024-02-10T10:00:00+00:00" +:+ nl;
     main_py := λ h,
       match h with
       | Detached s => mk_completed (scan s) "" "scanner error"
       | OnBranch _ => mk_completed 0 "" ""
       end;
     analyze_py := analyze;
     today := mk_date 2024 2 20;
     fromisoformat := λ s,
       if bool_decide (s = "2024-01-15T10:00:00+00:00") then Ok (mk_date 2024 1 15)
       else if bool_decide (s = "2024-02-10T10:00:00+00:00") then Ok (mk_date 2024 2 10)
            else Raise ValueError;
     read_csv := λ _, Ok example_frame;
     concat_sort_to_csv := λ _, Ok ("date" +:+ nl +:+ "2024-02-10" +:+ nl) |}.

Definition analyze_ok : gitref → string → completed :=
  λ _ _, ok_process ("date" +:+ nl +:+ "2024-02-10" +:+ nl).


(** The scanner fails on [c1] only. *)
Definition scan_fails_on_c1 : string → Z :=
  λ s, if bool_decide (s = "c1") then 1%Z else 0%Z.

Definition args0 : Args := mk_args "main" 100.
Definition on_dev : world := mk_world (OnBranch "dev") [] [] [].

(** ** Further notions *)

(** The columns requested from [from_records]. *)
Definition load_columns : list string :=
  BASE_FIELDS ++ ["qual_or_name"; "has_metrics"; "is_directory"; "is_file"]
  ++ METRIC_FIELDS.

(** The two exceptions with which flattening ends. *)
Definition attribute_or_type_error {A} (r : result A) : Prop :=
  r = Raise AttributeError ∨ r = Raise TypeError.

(** A cell that [.fillna(0.0).astype(...)] accepts: null, a number or a
    boolean. *)
Definition fillable (v : pyval) : bool :=
  match v with
  | PNone | PNum _ | PBool _ => true
  | _ => false
  end.

(** A row that [process_df] accepts. *)
Definition fillable_row (r : row) : Prop :=
  ∀ c, c ∈ processed_columns → fillable (cell r c) = true.

(** A cell for which [.fillna(0.0).astype(...)] is exact here: null, a
    boolean, or a number of magnitude at most 2^53, which binary64 and a
    64-bit integer both hold without loss when it is an integer. *)
Definition convertible (v : pyval) : bool :=
  match v with
  | PNone | PBool _ => true
  | PNum q => Qle_bool (inject_Z (- 2 ^ 53)) q && Qle_bool q (inject_Z (2 ^ 53))
  | _ => false
  end.

Definition convertible_row (r : row) : Prop :=
  ∀ c, c ∈ processed_columns → convertible (cell r c) = true.

(** A docstring as reports have it: a string or null. *)
Definition text_or_null (v : pyval) : bool :=
  match v with
  | PNone | PStr _ => true
  | _ => false
  end.

(** A type coverage as reports have it: a number or null. *)
Definition number_or_null (v : pyval) : bool :=
  match v with
  | PNone | PNum _ => true
  | _ => false
  end.

(** The keys of an aggregate record, in the order in which
    [aggregate_metrics] writes them. *)
Definition aggregate_keys : list string :=
  ["date"; "docstring coverage"; "docstring missing";
   "lines mean"; "lines max"; "lines 90th-percentile";
   "statements mean"; "statements max"; "statements 90th-percentile";
   "expressions mean"; "expressions max"; "expressions 90th-percentile";
   "cyclomatic_complexity mean"; "cyclomatic_complexity max";
   "cyclomatic_complexity 90th-percentile";
   "parameters mean"; "parameters max"; "parameters 90th-percentile";
   "type_coverage mean"; "type_coverage min"; "type_coverage 50th-percentile";
   "todo_comments total";
   "duplication.score mean"; "duplication.score max";
   "duplication.score 90th-percentile"; "duplication.score 50th-percentile";
   "duplication.duplicated-lines total"].

(** The keys that [cloc_metrics] writes. *)
Definition cloc_keys : list string :=
  ["files"; "lines blank"; "lines comment"; "lines code"].

(** A table whose rows all have one cell per column. *)
Definition rectangular (df : DataFrame) : Prop :=
  Forall (λ r, length r = length (columns df)) (rows df).

(** The checked-out reference can be checked out again under the name
    that [git_current_ref] reports for it. *)
Definition restorable (env : Env) (h : gitref) : Prop :=
  match h with
  | OnBranch n =>
      n ≠ "HEAD" ∧ strip n = n ∧ is_branch env n = true
      ∧ ∀ h', git_fails env (GitCheckout n) h' = false
  | Detached s =>
      strip s = s ∧ is_branch env s = false ∧ is_commit env s = true
      ∧ ∀ h', git_fails env (GitCheckout s) h' = false
  end.

(** The world after the first four commands of [main] have succeeded. *)
Definition after_branch_checkout (env : Env) (args : Args) (w : world) : world :=
  mk_world (exec env (GitCheckout (branch args)) (HEAD w)).2
           (log w ++ [GitRevParseAbbrevRef; GitRevParseHead;
                      GitShowRef (branch args); GitCheckout (branch args)])
           (out w) (err w).

(** A month counted from year 0: consecutive months have consecutive
    indices. *)
Definition month_index (d : date) : Z := (year d * 12 + (month d - 1))%Z.

(** The since-arguments of the history queries among the commands of a log. *)
Definition queried (l : list command) : list string :=
  omap (λ c, match c with GitRevList _ (Some s) => Some s | _ => None end) l.

(** What one run of the sampling loop adds to the log [before], and how its
    result [r] relates to the tables [dfs] it started with: at most one
    history query per month start, each for a month start of the list that
    does not lie before the month of [earliest]; and at most one new table
    per checkout, appended to [dfs]. *)
Definition loop_trace (earliest : date) (starts : list date) (dfs : list DataFrame)
    (before : list command) (r : result (list DataFrame)) (after : list command)
  : Prop :=
  ∃ new,
    after = before ++ new
    ∧ (length (queried new) ≤ length starts)%nat
    ∧ (∀ s, s ∈ queried new →
            ∃ m, m ∈ starts ∧ s = since_iso m
                 ∧ date_ltb m (replace_day1 earliest) = false)
    ∧ ∀ dfs', r = Ok dfs' →
        ∃ added, dfs' = dfs ++ added ∧ (length added ≤ length (checkouts new))%nat.

(** The world [w'] differs from [w] by commands that are not checkouts:
    the same reference is checked out and nothing was printed. *)
Definition only_queried (w w' : world) : Prop :=
  HEAD w' = HEAD w ∧ out w' = out w ∧ err w' = err w
  ∧ checkouts (log w') = checkouts (log w).

End Notions.

(* ===================================================================== *)
(** * Properties of analyze.py *)
(* ===================================================================== *)

Module AnalyzeFacts.

Import Analyze Notions.

#[local] Arguments String.eqb : simpl never.

(** No rows for no nodes. *)
Ltac no_rows := exists []; split; [done | split; [constructor | done]].

(** ** Flattening *)


Lemma iter_nodes_dict kv :
  _iter_nodes (PDict kv) =
    r ← node_row kv; rest ← iter_children (dict_lookup "children" kv); Ok (r :: rest).
Proof.
  cbn [_iter_nodes]. destruct (node_row kv) as [r|e]; [|done].
  cbn. f_equal.
  induction kv as [|[k v] kv IH]; [done|].
  cbn [dict_lookup]. destruct (String.eqb "children" k); [|exact IH].
  destruct v; try done.
  cbn [iter_children]. induction l as [|c l IHl]; [done|].
  cbn [flat_mapM]. by rewrite IHl.
Qed.

Lemma tree_of_dict kv :
  tree_of (PDict kv) =
    if metrics_well_formed kv
    then ks ← kids_of (dict_lookup "children" kv); Some (Node kv ks)
    else None.
Proof.
  cbn [tree_of]. destruct (metrics_well_formed kv); [|done].
  f_equal.
  induction kv as [|[k v] kv IH]; [done|].
  cbn [dict_lookup]. destruct (String.eqb "children" k); [|exact IH].
  by destruct v.
Qed.

Lemma node_row_well_formed kv :
  metrics_well_formed kv = true → ∃ r, node_row kv = Ok r.
Proof.
  unfold metrics_well_formed, node_row. intros H.
  destruct (py_or (dict_get kv "metrics") (PDict [])) as [| | | | |m]; try done.
  cbn. destruct (py_or (dict_get m "duplication") (PDict [])); try done.
  cbn. eauto.
Qed.

Lemma dict_lookup_elem k kv v :
  dict_lookup k kv = Some v → ∃ k', (k', v) ∈ kv.
Proof.
  induction kv as [|[k' v'] kv IH]; [done|]. cbn.
  destruct (String.eqb k k').
  - intros [= ->]. exists k'. left.
  - intros [k'' ?]%IH. exists k''. by right.
Qed.


Lemma flatten_children l :
  Forall (λ v, ∀ t, tree_of v = Some t → flattens_to v t) l →
  ∀ ts, trees_of l = Some ts →
  ∃ rs, flat_mapM _iter_nodes l = Ok rs
        ∧ Forall2 (λ nd r, node_row (fields nd) = Ok r) (flat_map preorder ts) rs
        ∧ length rs = list_sum (node_count <$> ts).
Proof.
  induction 1 as [|v l Hv _ IH]; intros ts Hts; cbn in Hts.
  - simplify_eq. no_rows.
  - destruct (tree_of v) as [t|] eqn:Ht; [|done]. cbn in Hts.
    destruct (trees_of l) as [ts'|] eqn:Hts'; [|done].
    cbn in Hts. simplify_eq.
    destruct (Hv t eq_refl) as (rs1 & E1 & F1 & L1).
    destruct (IH ts' eq_refl) as (rs2 & E2 & F2 & L2).
    exists (rs1 ++ rs2). cbn [flat_mapM]. rewrite E1, E2. cbn.
    split; [done|]. split.
    + by apply Forall2_app.
    + rewrite length_app, L1, L2. done.
Qed.

Lemma flatten_strong v :
  (∀ t, tree_of v = Some t → flattens_to v t)
  ∧ (∀ l, v = PList l → Forall (λ c, ∀ t, tree_of c = Some t → flattens_to c t) l).
Proof.
  induction v as [| | | |l IH|kv IH] using pyval_ind; (split; [|try done]).
  1-5: by intros t.
  - intros l' [= <-]. eapply Forall_impl; [exact IH|]. by intros c [? _].
  - intros t. rewrite tree_of_dict.
    destruct (metrics_well_formed kv) eqn:Hm; [|done].
    destruct (kids_of (dict_lookup "children" kv)) as [ks|] eqn:Hks; [|done].
    cbn. intros [= <-].
    destruct (node_row_well_formed kv Hm) as [r Hr].
    unfold flattens_to. rewrite iter_nodes_dict, Hr. cbn.
    assert (∃ rs, iter_children (dict_lookup "children" kv) = Ok rs
                  ∧ Forall2 (λ nd r, node_row (fields nd) = Ok r) (flat_map preorder ks) rs
                  ∧ length rs = list_sum (node_count <$> ks)) as (rs & E & F & L).
    { destruct (dict_lookup "children" kv) as [c|] eqn:Hc.
      - destruct (dict_lookup_elem _ _ _ Hc) as [k' Hin].
        rewrite Forall_forall in IH. specialize (IH _ Hin) as [_ IHc]. cbn in IHc.
        destruct c as [| | | |l|kv'].
        5: { apply flatten_children; [by apply IHc|done]. }
        all: unfold kids_of in Hks; unfold iter_children, iter_non_list;
          match type of Hks with (if ?b then _ else _) = _ => destruct b end;
          simplify_eq; no_rows.
      - cbn in Hks. simplify_eq. no_rows. }
    exists (r :: rs). rewrite E. cbn. split; [done|]. split.
    + by constructor.
    + by rewrite L.
Qed.

(** C6. Flattening a well-formed report tree yields exactly one row per
    node, in pre-order: each node's row comes before the rows of its
    children, the children are taken in the order of the input, the children
    of nodes without metrics are visited like any others, and the number of
    rows is the number of nodes of the tree. *)
Theorem flatten_preorder (v : pyval) (t : ReportNode) :
  tree_of v = Some t →
  ∃ rs : list row,
    _iter_nodes v = Ok rs
    ∧ Forall2 (λ nd r, node_row (fields nd) = Ok r) (preorder t) rs
    ∧ length rs = node_count t.
Proof. intros H. by apply (flatten_strong v). Qed.

(** ** Processing *)

Lemma bind_ok {A B} (a : A) (f : A → result B) : (Ok a ≫= f) = f a.
Proof. done. Qed.

Lemma is_ok_inv {A} (r : result A) : is_ok r = true → ∃ a, r = Ok a.
Proof. destruct r; [eauto|done]. Qed.

Lemma bind_ok_inv {A B} (m : result A) (f : A → result B) (b : B) :
  (m ≫= f) = Ok b → ∃ a, m = Ok a ∧ f a = Ok b.
Proof. destruct m; [eauto|done]. Qed.


Lemma assign_column_cons c f r df :
  assign_column c f (r :: df) =
    r' ← assign_cell c f r; df' ← assign_column c f df; Ok (r' :: df').
Proof.
  unfold assign_column, assign_cell. cbn [mapM].
  by destruct (f (cell r c)).
Qed.

Ltac split_column H :=
  rewrite assign_column_cons in H;
  let r := fresh "r" in let df := fresh "df" in
  let Hr := fresh "Hr" in let Hdf := fresh "Hdf" in
  match type of H with
  | context [assign_cell ?c ?f ?x] =>
      destruct (assign_cell c f x) as [r|] eqn:Hr; [|done]
  end;
  cbn [mbind result_bind] in H;
  match type of H with
  | context [assign_column ?c ?f ?x] =>
      destruct (assign_column c f x) as [df|] eqn:Hdf; [|done]
  end;
  cbn [mbind result_bind] in H.

Lemma process_df_cons r df out :
  process_df (r :: df) = Ok out →
  ∃ r' df', out = r' :: df' ∧ process_row r = Ok r' ∧ process_df df = Ok df'.
Proof.
  unfold process_df, process_row. intros H.
  do 9 split_column H.
  simplify_eq. eexists _, _. split; [done|].
  split; rewrite ?bind_ok.
  - by repeat match goal with
           | H : assign_cell _ _ _ = Ok _ |- _ => rewrite H, bind_ok; clear H
           end.
  - by repeat match goal with
           | H : assign_column _ _ _ = Ok _ |- _ => rewrite H, bind_ok; clear H
           end.
Qed.

Lemma process_df_rows df out :
  process_df df = Ok out → Forall2 (λ r r', process_row r = Ok r') df out.
Proof.
  revert out. induction df as [|r df IH]; intros out H.
  - cbn in H. simplify_eq. constructor.
  - apply process_df_cons in H as (r' & df' & -> & Hr & Hdf).
    constructor; auto.
Qed.

Lemma fill_int_num v w : fill_int v = Ok w → ∃ z : Z, w = PNum (inject_Z z) ∧ (v = PNone → z = 0%Z).
Proof.
  unfold fill_int. destruct v; cbn; intros; simplify_eq.
  - by exists 0%Z.
  - destruct b; [by exists 1%Z | by exists 0%Z].
  - eexists. split; [done|]. done.
Qed.

Lemma fill_float_num v w : fill_float v = Ok w → ∃ q : Q, w = PNum q ∧ (v = PNone → q = 0).
Proof.
  unfold fill_float. destruct v; cbn; intros; simplify_eq.
  - by exists 0.
  - by eexists.
  - by eexists.
Qed.

Lemma cell_insert c v (r : row) : cell (<[c := v]> r) c = v.
Proof. unfold cell. by rewrite lookup_insert_eq. Qed.

Lemma cell_insert_ne c c' v (r : row) : c ≠ c' → cell (<[c := v]> r) c' = cell r c'.
Proof. intros. unfold cell. by rewrite lookup_insert_ne. Qed.

(** The integer columns of a processed row hold integers, with 0 where the
    cell was null; the score holds a number, with 0 where it was null; every
    other cell is as before. *)
Lemma process_row_cells r r' :
  process_row r = Ok r' →
  (∀ c, c ∈ processed_columns → c ≠ "metrics.duplication.score" →
        ∃ z : Z, cell r' c = PNum (inject_Z z) ∧ (cell r c = PNone → z = 0%Z))
  ∧ (∃ q : Q, cell r' "metrics.duplication.score" = PNum q
              ∧ (cell r "metrics.duplication.score" = PNone → q = 0))
  ∧ (∀ c, c ∉ processed_columns → cell r' c = cell r c).
Proof.
  unfold process_row, assign_cell. intros H.
  repeat match type of H with
  | context [fill_int ?x] =>
      let E := fresh "E" in destruct (fill_int x) eqn:E; [|done];
      cbn [mbind result_bind] in H
  | context [fill_float ?x] =>
      let E := fresh "E" in destruct (fill_float x) eqn:E; [|done];
      cbn [mbind result_bind] in H
  end.
  simplify_eq.
  repeat match goal with
  | E : fill_int (cell _ _) = Ok _ |- _ =>
      rewrite ?cell_insert_ne in E by done;
      apply fill_int_num in E as (? & -> & ?)
  | E : fill_float (cell _ _) = Ok _ |- _ =>
      rewrite ?cell_insert_ne in E by done;
      apply fill_float_num in E as (? & -> & ?)
  end.
  split; [|split].
  - intros c Hc Hne. unfold processed_columns in Hc.
    repeat (apply elem_of_cons in Hc as [->|Hc]);
      try (rewrite ?cell_insert_ne by done; rewrite cell_insert; eauto; fail).
    + done.
    + by apply elem_of_nil in Hc.
  - rewrite cell_insert. eauto.
  - intros c Hc. unfold processed_columns in Hc.
    rewrite !cell_insert_ne; [done|..]; intros <-; apply Hc; set_solver.
Qed.

Lemma load_only_leaves data df :
  load_report_to_df data true = Ok df →
  ∃ rs, _iter_nodes data = Ok rs ∧ df = filter (λ r, has_metrics r = true) rs.
Proof.
  unfold load_report_to_df. intros (rs & -> & H)%bind_ok_inv.
  simplify_eq. eauto.
Qed.

(** C4, as the code has it.  The rows are first restricted to those with
    [has_metrics]; then the null cells of the eight count columns and of the
    duplication score that [process_df] assigns become 0, the count columns
    holding integers afterwards.  Every other cell, the type coverage and
    [duplication.other] among them, is left as flattening produced it. *)
Theorem process_fills_assigned_columns (data : pyval) (df : list row) :
  (load_report_to_df data true ≫= process_df) = Ok df →
  ∃ rs : list row,
    _iter_nodes data = Ok rs
    ∧ Forall2 processed_from (filter (λ r, has_metrics r = true) rs) df.
Proof.
  intros (df0 & Hload & Hproc)%bind_ok_inv.
  apply load_only_leaves in Hload as (rs & Hrs & ->).
  exists rs. split; [done|].
  apply process_df_rows in Hproc.
  assert (Forall (λ r, has_metrics r = true) (filter (λ r, has_metrics r = true) rs)) as Hf.
  { apply Forall_forall. by intros r [? _]%list_elem_of_filter. }
  induction Hproc as [|r0 r l l' Hr _ IH]; [constructor|].
  apply Forall_cons in Hf as [Hm Hf].
  constructor; [|by apply IH].
  destruct (process_row_cells _ _ Hr) as (Hint & (q & Hq & Hq0) & Hother).
  split; [done|]. split; [|split; [|done]].
  - intros c Hc. destruct (decide (c = "metrics.duplication.score")) as [->|Hne].
    + eauto.
    + destruct (Hint c Hc Hne) as (z & Hz & Hz0).
      exists (inject_Z z). split; [done|]. intros ->%Hz0. done.
  - intros c Hc Hne. destruct (Hint c Hc Hne) as (z & Hz & _). eauto.
Qed.

Lemma process_fills_assigned_columns_witness :
  ∃ df rs,
    (load_report_to_df leaf_without_coverage true ≫= process_df) = Ok df
    ∧ _iter_nodes leaf_without_coverage = Ok rs
    ∧ Forall2 processed_from (filter (λ r, has_metrics r = true) rs) df.
Proof.
  destruct (is_ok_inv (load_report_to_df leaf_without_coverage true ≫= process_df))
    as [df E]; [vm_compute; reflexivity|].
  destruct (process_fills_assigned_columns leaf_without_coverage df E)
    as (rs & Hrs & H).
  exists df, rs. split; [exact E|]. split; assumption.
Defined.

(** C4, as stated, fails: a metric-bearing row whose report gives no type
    coverage and no duplication record still has a null type coverage and a
    null [duplication.other] after filtering and [process_df]. *)
Lemma type_coverage_not_filled :
  ¬ (∀ data df r c,
       (load_report_to_df data true ≫= process_df) = Ok df →
       r ∈ df → c ∈ METRIC_FIELDS → cell r c ≠ PNone).
Proof.
  intros H.
  destruct (is_ok_inv (load_report_to_df leaf_without_coverage true ≫= process_df))
    as [df E]; [vm_compute; reflexivity|].
  assert (((λ df : list row, (λ r, cell r "metrics.type_coverage") <$> df) <$>
           (load_report_to_df leaf_without_coverage true ≫= process_df))
          = Ok [PNone]) as Hcells by (vm_compute; reflexivity).
  rewrite E in Hcells. cbn in Hcells.
  destruct df as [|r [|]]; try discriminate Hcells.
  injection Hcells as Hcell.
  apply (H leaf_without_coverage [r] r "metrics.type_coverage" E).
  - left.
  - unfold METRIC_FIELDS. do 6 right. left.
  - exact Hcell.
Qed.

(** ** Aggregation *)

Lemma round_half_even_proper x y : x == y → round_half_even x = round_half_even y.
Proof.
  intros H. unfold round_half_even.
  rewrite <- (Qfloor_comp _ _ H).
  assert ((x - inject_Z (Qfloor x) ?= 1 # 2)%Q = (y - inject_Z (Qfloor x) ?= 1 # 2)%Q) as ->; [|done].
  apply Qcompare_comp; [|reflexivity].
  unfold Qminus. apply Qplus_comp; [exact H|reflexivity].
Qed.

Lemma round4_proper x y : x == y → round4 (Some x) = round4 (Some y).
Proof.
  intros H. unfold round4. cbn [fmap option_fmap option_map]. do 3 f_equal.
  apply round_half_even_proper. apply Qmult_comp; [exact H|reflexivity].
Qed.

Lemma rounded_mean_ok s m :
  rounded_mean s = Ok m → m = round4 (smean s) ∧ dropna s ≠ [].
Proof.
  unfold rounded_mean, smean. destruct (dropna s); [done|]. by intros [= <-].
Qed.

Lemma rounded_mean_nan s : dropna s = [] → rounded_mean s = Raise AttributeError.
Proof. unfold rounded_mean, smean. by intros ->. Qed.

Lemma mean_max_p90_inv df f rec :
  mean_max_p90 df f = Ok rec →
  ∃ s mx p,
    numeric_series df ("metrics." +:+ f) = Ok s
    ∧ smax s = Some mx ∧ quantile (9 # 10) s = Some p
    ∧ rec = [(f +:+ " mean", SFloat (round4 (smean s)));
             (f +:+ " max", SInt (py_trunc mx));
             (f +:+ " 90th-percentile", SInt (py_trunc p))].
Proof.
  unfold mean_max_p90. intros (s & Hs & H)%bind_ok_inv.
  apply bind_ok_inv in H as (mean & [-> _]%rounded_mean_ok & H).
  apply bind_ok_inv in H as (mx & Hmx & H).
  apply bind_ok_inv in H as (p & Hp & H).
  unfold py_int in Hmx, Hp.
  destruct (smax s) as [mq|] eqn:Emax; [|done].
  destruct (quantile (9 # 10) s) as [pq|] eqn:Ep; [|done].
  simplify_eq. by exists s, mq, pq.
Qed.


Lemma aggregate_metrics_inv df date rec :
  aggregate_metrics df date = Ok rec → aggregated df date rec.
Proof.
  unfold aggregate_metrics, docstring_coverage. intros H.
  apply bind_ok_inv in H as (cov & [-> _]%rounded_mean_ok & H).
  apply bind_ok_inv in H as (l1 & H1 & H).
  apply bind_ok_inv in H as (l2 & H2 & H).
  apply bind_ok_inv in H as (l3 & H3 & H).
  apply bind_ok_inv in H as (l4 & H4 & H).
  apply bind_ok_inv in H as (l5 & H5 & H).
  apply bind_ok_inv in H as (tc & Htc & H).
  apply bind_ok_inv in H as (tmean & [-> _]%rounded_mean_ok & H).
  apply bind_ok_inv in H as (tmin & Htmin & H).
  apply bind_ok_inv in H as (tp50 & Htp50 & H).
  apply bind_ok_inv in H as (todo & Htodo & H).
  apply bind_ok_inv in H as (score & Hscore & H).
  apply bind_ok_inv in H as (smean' & [-> _]%rounded_mean_ok & H).
  apply bind_ok_inv in H as (ln & Hln & H).
  unfold py_int in Htmin, Htp50.
  destruct (smin tc) as [a|] eqn:Ha; [|done].
  destruct (quantile (1 # 2) tc) as [b|] eqn:Hb; [|done].
  simplify_eq. constructor.
  exists l1, l2, l3, l4, l5. eexists.
  do 5 (split; [assumption|]). split; [reflexivity|].
  exists tc, a, b, todo, score, ln.
  do 6 (split; [assumption|]). reflexivity.
Qed.

(** An empty table cannot be aggregated: the mean of no docstring flag is
    the float [nan], which has no [round]. *)
Lemma aggregate_metrics_empty date : aggregate_metrics [] date = Raise AttributeError.
Proof. reflexivity. Qed.

(** ** Docstring statistics *)


Lemma docstring_flag_documented r : docstring_flag r = true ↔ documented r.
Proof.
  unfold docstring_flag, documented.
  destruct (str_len (cell r "docstring")) as [[|n]|]; split; try done; eauto.
  - by intros [? ?].
  - by intros [? ?].
Qed.

Lemma dropna_some {A} (g : A → Q) (l : list A) :
  dropna ((λ x, Some (g x)) <$> l) = g <$> l.
Proof. induction l as [|x l IH]; [done|]. cbn. by rewrite <- IH. Qed.

Lemma Qsum_flags df :
  Qsum ((λ r, bool_num (docstring_flag r)) <$> df) == inject_Z (count_documented df).
Proof.
  unfold count_documented. induction df as [|r df IH]; [done|].
  cbn [fmap list_fmap Qsum foldr]. fold (Qsum ((λ r, bool_num (docstring_flag r)) <$> df)).
  rewrite IH. rewrite filter_cons.
  destruct (decide (documented r)) as [Hd|Hd].
  - apply docstring_flag_documented in Hd as ->. cbn [bool_num length].
    rewrite Nat2Z.inj_succ, <- Z.add_1_l, inject_Z_plus. done.
  - destruct (docstring_flag r) eqn:E.
    + by apply docstring_flag_documented in E.
    + cbn [bool_num]. apply Qplus_0_l.
Qed.

Lemma docstring_coverage_eq df :
  df ≠ [] →
  round4 (smean (docstring_flags df)) =
    round4 (Some (inject_Z (count_documented df) / inject_Z (Z.of_nat (length df)))).
Proof.
  intros Hne. unfold docstring_flags, smean.
  change (λ r : row, Some (bool_num match str_len (cell r "docstring") with
                                     | Some (S _) => true | _ => false end))
    with (λ r : row, Some (bool_num (docstring_flag r))).
  rewrite (dropna_some (λ r, bool_num (docstring_flag r))).
  destruct df as [|r df]; [done|].
  cbn [fmap list_fmap]. apply round4_proper.
  rewrite <- (Qsum_flags (r :: df)). cbn [fmap list_fmap length].
  rewrite length_fmap. reflexivity.
Qed.

Lemma count_documented_null r df :
  cell r "docstring" = PNone → count_documented (r :: df) = count_documented df.
Proof.
  intros H. unfold count_documented. rewrite filter_cons_False; [done|].
  unfold documented. rewrite H. by intros [? ?].
Qed.

Lemma count_empty_null r df :
  cell r "docstring" = PNone → count_empty_docstring (r :: df) = count_empty_docstring df.
Proof.
  intros H. unfold count_empty_docstring. rewrite filter_cons_False; [done|].
  by rewrite H.
Qed.

(** C10. A row whose docstring is null is counted in the denominator of
    the docstring coverage, but neither among the rows with a non-empty
    docstring nor among the rows with an empty one; so the coverage and the
    share of rows with an empty docstring can add up to less than 1. *)
Theorem null_docstring_counted_nowhere :
  (∀ (r : row) (df : list row) (date : string) (rec : record),
     cell r "docstring" = PNone →
     aggregate_metrics (r :: df) date = Ok rec →
     record_get "docstring coverage" rec =
       Some (SFloat (round4 (Some (inject_Z (count_documented df)
                                   / inject_Z (Z.of_nat (S (length df)))))))
     ∧ record_get "docstring missing" rec = Some (SInt (count_empty_docstring df)))
  ∧ (∃ (df : list row) (date : string) (rec : record) (cov : Q) (missing : Z),
       (load_report_to_df small_report true ≫= process_df) = Ok df
       ∧ aggregate_metrics df date = Ok rec
       ∧ record_get "docstring coverage" rec = Some (SFloat (Some cov))
       ∧ record_get "docstring missing" rec = Some (SInt missing)
       ∧ cov + inject_Z missing / inject_Z (Z.of_nat (length df)) < 1).
Proof.
  split.
  - intros r df date rec Hnull Hagg.
    apply aggregate_metrics_inv in Hagg as [(l1 & l2 & l3 & l4 & l5 & tail & _ & _ & _ & _ & _ & -> & _)].
    split.
    + change (Some (SFloat (round4 (smean (docstring_flags (r :: df))))) =
              Some (SFloat (round4 (Some (inject_Z (count_documented df)
                                          / inject_Z (Z.of_nat (S (length df)))))))).
      rewrite docstring_coverage_eq by done.
      by rewrite count_documented_null.
    + change (Some (SInt (docstring_missing (r :: df))) =
              Some (SInt (count_empty_docstring df))).
      rewrite <- (count_empty_null r df Hnull). done.
  - destruct (is_ok_inv (df ← load_report_to_df small_report true;
                         df ← process_df df;
                         rec ← aggregate_metrics df "2024-01-01";
                         Ok (df, rec)))
      as [[df rec] E]; [vm_compute; reflexivity|].
    assert ((λ p : list row * record,
               (length p.1, record_get "docstring coverage" p.2,
                record_get "docstring missing" p.2)) <$>
            (df ← load_report_to_df small_report true;
             df ← process_df df;
             rec ← aggregate_metrics df "2024-01-01";
             Ok (df, rec))
            = Ok (2%nat, Some (SFloat (Some (5000 # 10000))), Some (SInt 0)))
      as Hval by (vm_compute; reflexivity).
    rewrite E in Hval. cbn [fmap result_fmap fst snd] in Hval.
    injection Hval as Hlen Hcov Hmiss.
    apply bind_ok_inv in E as (df0 & Hload & E).
    apply bind_ok_inv in E as (df1 & Hproc & E).
    apply bind_ok_inv in E as (rec1 & Hagg & E).
    injection E as -> ->.
    exists df, "2024-01-01", rec, (5000 # 10000), 0%Z.
    split; [by rewrite Hload|]. split; [exact Hagg|].
    split; [exact Hcov|]. split; [exact Hmiss|].
    rewrite Hlen. reflexivity.
Qed.

Lemma null_docstring_counted_nowhere_witness :
  ∃ r df rec,
    cell r "docstring" = PNone
    ∧ aggregate_metrics (r :: df) "2024-01-01" = Ok rec
    ∧ record_get "docstring coverage" rec =
        Some (SFloat (round4 (Some (inject_Z (count_documented df)
                                    / inject_Z (Z.of_nat (S (length df)))))))
    ∧ record_get "docstring missing" rec = Some (SInt (count_empty_docstring df)).
Proof.
  destruct (is_ok_inv (rs ← _iter_nodes (file_node "b.py" PNone 20 1 (1 # 2));
                       df ← process_df rs;
                       rec ← aggregate_metrics df "2024-01-01";
                       Ok (df, rec)))
    as [[df rec] E]; [vm_compute; reflexivity|].
  assert ((λ p : list row * record, (λ r, cell r "docstring") <$> p.1) <$>
          (rs ← _iter_nodes (file_node "b.py" PNone 20 1 (1 # 2));
           df ← process_df rs;
           rec ← aggregate_metrics df "2024-01-01";
           Ok (df, rec))
          = Ok [PNone]) as Hdoc by (vm_compute; reflexivity).
  rewrite E in Hdoc. cbn [fmap result_fmap list_fmap fst snd] in Hdoc.
  apply bind_ok_inv in E as (rs & _ & E).
  apply bind_ok_inv in E as (df1 & _ & E).
  apply bind_ok_inv in E as (rec1 & Hagg & E).
  injection E as -> ->.
  destruct df as [|r [|]]; try discriminate Hdoc.
  injection Hdoc as Hnull.
  exists r, [], rec. split; [exact Hnull|]. split; [exact Hagg|].
  exact (proj1 null_docstring_counted_nowhere r [] "2024-01-01" rec Hnull Hagg).
Defined.

(** ** The line counter *)

(** The failures that [cloc_metrics] absorbs: a non-zero exit status, an
    output that is not JSON, and a JSON object without a ["Python"] entry
    all give the empty result. *)
Lemma cloc_metrics_tolerated rc out :
  (rc ≠ 0%Z ∨ out = None
   ∨ ∃ kv, out = Some (PDict kv) ∧ dict_lookup "Python" kv = None) →
  cloc_metrics (ClocExited rc out) = Ok [].
Proof.
  unfold cloc_metrics, cloc_try. intros [H|[->|(kv & -> & H)]].
  - by rewrite bool_decide_eq_false_2.
  - by case_bool_decide.
  - case_bool_decide; [|done]. cbn [py_contains mbind result_bind].
    rewrite H. rewrite bool_decide_eq_false_2 by (by intros [? ?]). done.
Qed.

(** C8 at the failing input: when the [cloc] executable is absent,
    [subprocess.run] raises [FileNotFoundError], which the handler of
    [cloc_metrics] does not catch; the exception leaves [cloc_metrics] and
    ends [main] with exit status 1 although the report itself aggregates. *)
Theorem cloc_absent_is_fatal :
  cloc_metrics ClocNotFound = Raise FileNotFoundError
  ∧ is_ok (A:=record) (df ← load_report_to_df small_report true;
                       df ← process_df df;
                       aggregate_metrics df "2024-01-01") = true
  ∧ main (Ok small_report) ClocNotFound "2024-01-01" = Raise FileNotFoundError
  ∧ exit_status (main (Ok small_report) ClocNotFound "2024-01-01") = 1%Z.
Proof. split; [|split; [|split]]; vm_compute; reflexivity. Qed.

(** ** Reports without metrics *)


(** ** The ledger *)

Lemma filter_ext_in {A} (P1 P2 : A → Prop)
    `{!∀ x, Decision (P1 x), !∀ x, Decision (P2 x)} (l : list A) :
  (∀ x, x ∈ l → P1 x ↔ P2 x) → filter P1 l = filter P2 l.
Proof.
  induction l as [|a l IH]; intros Hext; [done|].
  rewrite !filter_cons.
  assert (P1 a ↔ P2 a) as Ha by (apply Hext; left).
  rewrite IH by (intros x Hx; apply Hext; by right).
  destruct (decide (P1 a)), (decide (P2 a)); tauto.
Qed.

Lemma filter_all {A} (P : A → Prop) `{!∀ x, Decision (P x)} (l : list A) :
  Forall P l → filter P l = l.
Proof.
  induction 1 as [|a l Ha _ IH]; [done|].
  by rewrite filter_cons_True, IH.
Qed.


Lemma fromkeys_from_nodup seen l :
  NoDup l → fromkeys_from seen l = filter (λ c, c ∉ seen) l.
Proof.
  intros Hl. revert seen. induction Hl as [|k l Hk _ IH]; intros seen; [done|].
  cbn [fromkeys_from]. rewrite filter_cons. case_bool_decide as Hs.
  - rewrite decide_False by (by intros ?). apply IH.
  - rewrite decide_True by done. f_equal. rewrite IH.
    apply filter_ext_in. intros x Hx.
    rewrite elem_of_cons. split; [tauto|]. intros ? [->|?]; done.
Qed.




Lemma cell_at_shorter cols r c : c ∉ cols → cell_at cols r c = None.
Proof.
  revert r. induction cols as [|c' cols IH]; intros [|x r] H; try done.
  cbn. destruct (String.eqb_spec c c') as [->|Hne].
  - exfalso. apply H. left.
  - apply IH. intros ?. apply H. by right.
Qed.

Lemma cell_at_record (r : record) c :
  cell_at r.*1 (Some <$> r.*2) c = record_get c r.
Proof.
  induction r as [|[k v] r IH]; [done|].
  cbn. by destruct (String.eqb c k).
Qed.

Lemma frame_empty_rows (df : DataFrame) :
  (columns df = [] → rows df = []) →
  frame_empty df = bool_decide (rows df = []).
Proof.
  intros H. unfold frame_empty.
  destruct (rows df) as [|x l] eqn:E.
  - by rewrite orb_true_r.
  - rewrite (bool_decide_eq_false_2 (columns df = [])); [done|].
    intros ?%H. done.
Qed.


Lemma frame_of_distinct_keys (r : record) :
  NoDup r.*1 → (λ c, record_get c r) <$> r.*1 = Some <$> r.*2.
Proof.
  induction r as [|[k v] r IH]; [done|]. cbn [fmap list_fmap fst snd].
  intros [Hk Hnd]%NoDup_cons. cbn [record_get]. rewrite String.eqb_refl. f_equal.
  rewrite <- IH by done. apply list_fmap_ext. intros i c Hc.
  destruct (String.eqb_spec c k) as [->|]; [|done].
  exfalso. apply Hk. by eapply list_elem_of_lookup_2.
Qed.



(** ** Order statistics *)

#[global] Instance Qle_transitive : Transitive Qle.
Proof. intros x y z. apply Qle_trans. Qed.
#[global] Instance Qle_total : Total Qle.
Proof. intros x y. destruct (Qlt_le_dec x y); [left; by apply Qlt_le_weak|by right]. Qed.










(** *** Sorted samples and quantiles *)






Section Interpolation.
Variable xs : list Q.
Variable x0 : Q.
Hypothesis Hsorted : StronglySorted Qle xs.
Hypothesis Hne : xs ≠ [].




End Interpolation.






Lemma round_half_even_floor_or_succ x :
  round_half_even x = Qfloor x
  ∨ (round_half_even x = (Qfloor x + 1)%Z ∧ 1 # 2 <= x - inject_Z (Qfloor x)).
Proof.
  unfold round_half_even.
  destruct (x - inject_Z (Qfloor x) ?= 1 # 2)%Q eqn:E.
  - apply Qeq_alt in E. destruct (Z.even (Qfloor x)); [by left|right].
    split; [done|]. rewrite E. lra.
  - by left.
  - right. split; [done|]. apply Qgt_alt in E. lra.
Qed.

Lemma round_half_even_ge (k : Z) x : inject_Z k <= x → (k ≤ round_half_even x)%Z.
Proof.
  intros H. assert (k ≤ Qfloor x)%Z.
  { rewrite <- (Qfloor_Z k). by apply Qfloor_resp_le. }
  destruct (round_half_even_floor_or_succ x) as [->|[-> _]]; lia.
Qed.

Lemma round_half_even_le (k : Z) x : x <= inject_Z k → (round_half_even x ≤ k)%Z.
Proof.
  intros H. assert (Qfloor x ≤ k)%Z as Hf.
  { rewrite <- (Qfloor_Z k). by apply Qfloor_resp_le. }
  destruct (round_half_even_floor_or_succ x) as [->|[-> Hhalf]]; [done|].
  assert (inject_Z (Qfloor x) < inject_Z k) as Hlt by lra.
  rewrite <- Zlt_Qlt in Hlt. lia.
Qed.

(** Rounding to four decimals stays within integer bounds. *)
Lemma round4_between (a b : Z) μ m :
  inject_Z a <= μ → μ <= inject_Z b → round4 (Some μ) = Some m →
  inject_Z a <= m ∧ m <= inject_Z b.
Proof.
  intros Ha Hb [= <-].
  assert ((a * 10000 ≤ round_half_even (μ * 10000))%Z) as H1.
  { apply round_half_even_ge. rewrite inject_Z_mult.
    change (inject_Z 10000) with 10000. lra. }
  assert ((round_half_even (μ * 10000) ≤ b * 10000)%Z) as H2.
  { apply round_half_even_le. rewrite inject_Z_mult.
    change (inject_Z 10000) with 10000. lra. }
  rewrite Zle_Qle, inject_Z_mult in H1, H2.
  change (inject_Z 10000) with 10000 in *.
  set (r := inject_Z (round_half_even (μ * 10000))) in *.
  split.
  - apply Qle_shift_div_l; lra.
  - apply Qle_shift_div_r; lra.
Qed.

(** *** Samples of processed tables *)







Lemma processed_int_cells df0 df c :
  Forall2 (λ r r', process_row r = Ok r') df0 df →
  c ∈ processed_columns → c ≠ "metrics.duplication.score" →
  Forall (λ r, ∃ z : Z, cell r c = PNum (inject_Z z)) df.
Proof.
  intros H Hc Hne. induction H as [|r r' df0 df Hr _ IH]; constructor; [|done].
  destruct (process_row_cells _ _ Hr) as (Hint & _).
  destruct (Hint c Hc Hne) as (z & Hz & _). eauto.
Qed.

Lemma processed_score_cells df0 df :
  Forall2 (λ r r', process_row r = Ok r') df0 df →
  Forall (λ r, ∃ q : Q, cell r "metrics.duplication.score" = PNum q) df.
Proof.
  intros H. induction H as [|r r' df0 df Hr _ IH]; constructor; [|done].
  destruct (process_row_cells _ _ Hr) as (_ & (q & Hq & _) & _). eauto.
Qed.


Lemma nonempty_sample_stats s :
  dropna s ≠ [] →
  ∃ μ lo hi, smean s = Some μ ∧ smin s = Some lo ∧ smax s = Some hi.
Proof.
  unfold smean, smin, smax. destruct (dropna s); [done|]. intros _.
  eexists _, _, _. repeat split.
Qed.

Lemma nonempty_sample_quantile q s :
  dropna s ≠ [] → ∃ v, quantile q s = Some v.
Proof.
  intros H. unfold quantile.
  destruct (merge_sort Qle (dropna s)) as [|x0 xs] eqn:E; [|eauto].
  exfalso. apply H. apply Permutation_nil_r. rewrite <- E.
  symmetry. apply merge_sort_Permutation.
Qed.


Lemma smin_nonempty s mn : smin s = Some mn → dropna s ≠ [].
Proof. unfold smin. by destruct (dropna s). Qed.


Lemma in_processed_columns c :
  bool_decide (c ∈ processed_columns) = true → c ∈ processed_columns.
Proof. apply bool_decide_eq_true_1. Qed.






(** ** Instances at concrete inputs *)

Lemma flatten_preorder_witness :
  ∃ t rs,
    tree_of small_report = Some t
    ∧ _iter_nodes small_report = Ok rs
    ∧ Forall2 (λ nd r, node_row (fields nd) = Ok r) (preorder t) rs
    ∧ length rs = node_count t
    ∧ node_count t = 3%nat.
Proof.
  assert (well_formed small_report = true) as Hwf by (vm_compute; reflexivity).
  apply bool_decide_eq_true_1 in Hwf as [t Ht].
  destruct (flatten_preorder small_report t Ht) as (rs & Hrs & Hrows & Hlen).
  exists t, rs. split; [exact Ht|]. split; [exact Hrs|]. split; [exact Hrows|].
  split; [exact Hlen|].
  assert ((node_count <$> tree_of small_report) = Some 3%nat) as Hn
    by (vm_compute; reflexivity).
  rewrite Ht in Hn. by injection Hn.
Defined.



(** * Further properties of analyze.py *)

Lemma Ok_inj {A} (a b : A) : Ok a = Ok b → a = b.
Proof. by intros [=]. Qed.

(** ** Reports that cannot be flattened *)

Lemma node_row_ill_formed kv :
  metrics_well_formed kv = false → node_row kv = Raise AttributeError.
Proof.
  unfold metrics_well_formed, node_row. intros H.
  destruct (py_or (dict_get kv "metrics") (PDict [])) as [| | | | |m]; try done.
  cbn. by destruct (py_or (dict_get m "duplication") (PDict [])).
Qed.

Lemma iter_non_list_fails v :
  truthy v = true → (∀ l, v ≠ PList l) → attribute_or_type_error (iter_non_list v).
Proof.
  unfold iter_non_list. intros -> Hl.
  destruct v; [by right|by right|by right|by left| |by left].
  by destruct (Hl l).
Qed.

Lemma malformed_children l :
  Forall (λ v, tree_of v = None → attribute_or_type_error (_iter_nodes v)) l →
  trees_of l = None → attribute_or_type_error (flat_mapM _iter_nodes l).
Proof.
  induction 1 as [|v l Hv _ IH]; [done|]. cbn [trees_of flat_mapM].
  destruct (tree_of v) as [t|] eqn:Ht.
  - destruct (proj1 (flatten_strong v) t Ht) as (rs & -> & _). cbn.
    destruct (trees_of l); [done|]. intros _.
    by destruct (IH eq_refl) as [->| ->]; [left|right].
  - intros _. by destruct (Hv eq_refl) as [->| ->]; [left|right].
Qed.

Lemma malformed_strong v :
  (tree_of v = None → attribute_or_type_error (_iter_nodes v))
  ∧ (∀ l, v = PList l →
          Forall (λ c, tree_of c = None → attribute_or_type_error (_iter_nodes c)) l).
Proof.
  induction v as [| | | |l IH|kv IH] using pyval_ind; (split; [|try done]).
  1-5: by left.
  - intros l' [= <-]. eapply Forall_impl; [exact IH|]. by intros c [? _].
  - rewrite tree_of_dict, iter_nodes_dict.
    destruct (metrics_well_formed kv) eqn:Hm.
    2:{ intros _. rewrite node_row_ill_formed by done. by left. }
    destruct (node_row_well_formed kv Hm) as [r ->]. cbn.
    destruct (dict_lookup "children" kv) as [c|] eqn:Hc; [|done].
    destruct (dict_lookup_elem _ _ _ Hc) as [k' Hin].
    rewrite Forall_forall in IH. specialize (IH _ Hin) as [_ IHc]. cbn in IHc.
    assert (attribute_or_type_error (iter_children (Some c)) →
            attribute_or_type_error
              (iter_children (Some c) ≫= λ rest, Ok (r :: rest))) as Hbind.
    { by intros [->| ->]; [left|right]. }
    destruct c as [| | | |l|kv']; cbn [kids_of].
    5:{ destruct (trees_of l) eqn:Hl; [done|]. intros _. apply Hbind.
        apply malformed_children; [by apply IHc|done]. }
    all: match goal with
         | |- context [truthy ?v] => destruct (truthy v) eqn:Ht; [|done]
         end; intros _; apply Hbind; by apply iter_non_list_fails.
Qed.

(** X1. Flattening fails on every value that is not a well-formed report tree:
    the generator ends with [AttributeError] (a node, a metrics entry or a
    child that has no [get]) or [TypeError] (children that cannot be
    iterated).  With the pre-order theorem, the reports that flatten are
    exactly the well-formed ones. *)
Theorem flatten_fails_on_malformed (v : pyval) :
  tree_of v = None →
  _iter_nodes v = Raise AttributeError ∨ _iter_nodes v = Raise TypeError.
Proof. apply (malformed_strong v). Qed.

Lemma flatten_fails_on_malformed_witness :
  tree_of (PDict [("name", PStr "pkg"); ("children", PNum 3)]) = None
  ∧ (_iter_nodes (PDict [("name", PStr "pkg"); ("children", PNum 3)]) = Raise AttributeError
     ∨ _iter_nodes (PDict [("name", PStr "pkg"); ("children", PNum 3)]) = Raise TypeError).
Proof.
  assert (tree_of (PDict [("name", PStr "pkg"); ("children", PNum 3)]) = None) as H
    by (vm_compute; reflexivity).
  split; [exact H|]. exact (flatten_fails_on_malformed _ H).
Defined.

(** ** The cells of a flattened row *)

Lemma dict_get_nil k : dict_get [] k = PNone.
Proof. done. Qed.

(** X2. Every flattened row has exactly the columns that [load_report_to_df]
    asks for, so that [from_records] neither drops a key nor adds an empty
    column.  The row bears metrics exactly when the [metrics] entry of the
    node is a non-empty dict; otherwise all its metric cells are null. *)
Theorem row_columns_and_metrics kv (r : row) :
  node_row kv = Ok r →
  dom r = list_to_set load_columns
  ∧ has_metrics r = truthy (dict_get kv "metrics")
  ∧ (has_metrics r = false → ∀ c, c ∈ METRIC_FIELDS → cell r c = PNone).
Proof.
  unfold node_row. cbv zeta.
  destruct (as_dict (py_or (dict_get kv "metrics") (PDict []))) as [m|e] eqn:Em; [|done].
  cbn [mbind result_bind].
  destruct (as_dict (py_or (dict_get m "duplication") (PDict []))) as [dup|e] eqn:Ed;
    [|done].
  cbn [mbind result_bind]. intros H%Ok_inj. subst r.
  assert (truthy (PDict m) = truthy (dict_get kv "metrics")) as Htruthy.
  { unfold py_or in Em. destruct (truthy (dict_get kv "metrics")) eqn:Ht.
    - destruct (dict_get kv "metrics"); try done. by injection Em as ->.
    - by injection Em as <-. }
  split; [|split].
  - rewrite !dom_insert_L, dom_list_to_map_L. cbn. set_solver.
  - unfold has_metrics. rewrite !cell_insert_ne by done. rewrite cell_insert.
    exact Htruthy.
  - unfold has_metrics. rewrite !cell_insert_ne by done. rewrite cell_insert.
    intros Hm. assert (m = []) as -> by (by destruct m).
    cbn in Ed. injection Ed as <-.
    intros c Hc. unfold METRIC_FIELDS in Hc.
    repeat (apply elem_of_cons in Hc as [->|Hc]);
      [..|by apply elem_of_nil in Hc];
      rewrite ?cell_insert_ne by done; by rewrite cell_insert.
Qed.

Lemma row_columns_and_metrics_witness :
  ∃ r : row,
    node_row [("name", PStr "pkg"); ("nodetype", PStr "directory")] = Ok r
    ∧ dom r = list_to_set load_columns
    ∧ has_metrics r = false.
Proof.
  destruct (is_ok_inv (node_row [("name", PStr "pkg"); ("nodetype", PStr "directory")]))
    as [r E]; [vm_compute; reflexivity|].
  exists r. split; [exact E|].
  destruct (row_columns_and_metrics _ r E) as (Hdom & Hm & _).
  split; [exact Hdom|]. rewrite Hm. reflexivity.
Defined.

(** ** Outcomes of [process_df] *)

Lemma fill_int_fillable v : fillable v = true → ∃ w, fill_int v = Ok w.
Proof. destruct v; cbn; try done; eauto. Qed.

Lemma fill_float_fillable v : fillable v = true → ∃ w, fill_float v = Ok w.
Proof. destruct v; cbn; try done; eauto. Qed.

Lemma fillable_row_process r : fillable_row r → ∃ r', process_row r = Ok r'.
Proof.
  intros Hr. unfold process_row, assign_cell.
  repeat match goal with
  | |- context [fill_int ?x] =>
      let E := fresh "E" in
      destruct (fill_int_fillable x) as [? E];
      [rewrite ?cell_insert_ne by done; apply Hr; set_solver
      |rewrite E; clear E; cbn [mbind result_bind]]
  | |- context [fill_float ?x] =>
      let E := fresh "E" in
      destruct (fill_float_fillable x) as [? E];
      [rewrite ?cell_insert_ne by done; apply Hr; set_solver
      |rewrite E; clear E; cbn [mbind result_bind]]
  end.
  eauto.
Qed.

Lemma process_df_cons_ok r r' df df' :
  process_row r = Ok r' → process_df df = Ok df' →
  process_df (r :: df) = Ok (r' :: df').
Proof.
  unfold process_df, process_row. intros Hr Hdf.
  repeat match type of Hr with
  | (assign_cell ?c ?f ?x ≫= _) = _ =>
      let E := fresh "Er" in
      destruct (assign_cell c f x) eqn:E; [|done]; cbn [mbind result_bind] in Hr
  end.
  repeat match type of Hdf with
  | (assign_column ?c ?f ?x ≫= _) = _ =>
      let E := fresh "Ed" in
      destruct (assign_column c f x) eqn:E; [|done]; cbn [mbind result_bind] in Hdf
  end.
  apply Ok_inj in Hr, Hdf. subst r' df'.
  repeat match goal with
  | Hc : assign_cell ?c ?f ?x = Ok _, Hd : assign_column ?c ?f ?y = Ok _
    |- context [assign_column ?c ?f (?x :: ?y)] =>
      rewrite (assign_column_cons c f x y), Hc, bind_ok, Hd, !bind_ok; clear Hc Hd
  end.
  reflexivity.
Qed.

Lemma process_df_of_rows df df' :
  Forall2 (λ r r', process_row r = Ok r') df df' → process_df df = Ok df'.
Proof.
  induction 1 as [|r r' df df' Hr _ IH]; [done|]. by apply process_df_cons_ok.
Qed.

Lemma convertible_fillable v : convertible v = true → fillable v = true.
Proof. by destruct v. Qed.

(** X3. On a table whose cells in the nine assigned columns are null,
    booleans or numbers of magnitude at most 2^53, [process_df] raises nothing:
    it returns as many rows, in the same order, and each row of the result
    is what the nine assignments make of the row at the same place, whatever
    the other rows hold. *)
Theorem process_df_accepts_numbers (df : list row) :
  Forall convertible_row df →
  ∃ df', process_df df = Ok df'
         ∧ length df' = length df
         ∧ Forall2 (λ r r', process_row r = Ok r') df df'.
Proof.
  intros Hall.
  assert (∃ df', Forall2 (λ r r', process_row r = Ok r') df df') as [df' H].
  { induction Hall as [|r df Hr _ [df' IH]]; [by exists []|].
    destruct (fillable_row_process r) as [r' Hr'].
    { intros c Hc. by apply convertible_fillable, Hr. }
    exists (r' :: df'). by constructor. }
  exists df'. split; [by apply process_df_of_rows|].
  split; [symmetry; by eapply Forall2_length|done].
Qed.

Lemma process_df_accepts_numbers_witness :
  Forall convertible_row [({[ "metrics.lines" := PNum 3 ]} : row)]
  ∧ ∃ df', process_df [({[ "metrics.lines" := PNum 3 ]} : row)] = Ok df'
           ∧ length df' = 1%nat.
Proof.
  assert (Forall convertible_row [({[ "metrics.lines" := PNum 3 ]} : row)]) as H.
  { constructor; [|constructor]. intros c Hc. unfold processed_columns in Hc.
    repeat (apply elem_of_cons in Hc as [->|Hc]); [..|by apply elem_of_nil in Hc];
      vm_compute; reflexivity. }
  split; [exact H|].
  destruct (process_df_accepts_numbers _ H) as (df' & E & Hlen & _).
  exists df'. split; [exact E|exact Hlen].
Defined.

(** ** Processing twice *)

Lemma py_trunc_Z z : py_trunc (inject_Z z) = z.
Proof. unfold py_trunc. destruct (Qle_bool 0 (inject_Z z)); [apply Qfloor_Z|apply Qceiling_Z]. Qed.

Lemma assign_cell_fixed c f (r : row) :
  f (cell r c) = Ok (cell r c) → cell r c ≠ PNone → assign_cell c f r = Ok r.
Proof.
  intros Hf Hne. unfold assign_cell. rewrite Hf. cbn. f_equal.
  apply insert_id. unfold cell in *. destruct (r !! c); [done|]. by destruct Hne.
Qed.

Lemma process_row_fixed r r' : process_row r = Ok r' → process_row r' = Ok r'.
Proof.
  intros H. destruct (process_row_cells _ _ H) as (Hint & (q & Hq & _) & _).
  assert (∀ c, c ∈ processed_columns → c ≠ "metrics.duplication.score" →
               assign_cell c fill_int r' = Ok r') as Hfix.
  { intros c Hc Hne. destruct (Hint c Hc Hne) as (z & Hz & _).
    apply assign_cell_fixed; rewrite Hz; [|done].
    unfold fill_int, fillna, astype_int. by rewrite py_trunc_Z. }
  unfold process_row.
  repeat (rewrite Hfix by (done || (apply in_processed_columns; vm_compute; reflexivity));
          rewrite bind_ok).
  rewrite assign_cell_fixed; [done| |]; by rewrite Hq.
Qed.

(** X4. [process_df] is idempotent: a processed table is left as it is by a
    second pass. *)
Theorem process_df_idempotent (df df' : list row) :
  process_df df = Ok df' → process_df df' = Ok df'.
Proof.
  intros H%process_df_rows. apply process_df_of_rows.
  induction H as [|r r' df df' Hr _ IH]; constructor; [|done].
  by eapply process_row_fixed.
Qed.

Lemma process_df_idempotent_witness :
  ∃ df0 df : list row, process_df df0 = Ok df ∧ process_df df = Ok df.
Proof.
  destruct (is_ok_inv (df0 ← load_report_to_df small_report true;
                       df ← process_df df0;
                       Ok (df0, df)))
    as [[df0 df] E]; [vm_compute; reflexivity|].
  apply bind_ok_inv in E as (df0' & _ & E).
  apply bind_ok_inv in E as (df' & Hproc & E).
  injection E as -> ->.
  exists df0, df. split; [exact Hproc|].
  exact (process_df_idempotent df0 df Hproc).
Defined.

(** ** When aggregation succeeds *)

Lemma numeric_series_numbers df c :
  Forall (λ r, ∃ q, cell r c = PNum q) df →
  ∃ s, numeric_series df c = Ok s ∧ length (dropna s) = length df.
Proof.
  intros H. unfold numeric_series.
  induction H as [|r df [q Hq] _ (s & Hs & Hlen)]; [by exists []|].
  exists (Some q :: s). cbn [mapM]. rewrite Hq, Hs. cbn. by rewrite <- Hlen.
Qed.

Lemma rounded_mean_some s : dropna s ≠ [] → ∃ m, rounded_mean s = Ok m.
Proof. unfold rounded_mean, smean. destruct (dropna s); [done|]. eauto. Qed.

Lemma mean_max_p90_numbers df f :
  df ≠ [] →
  Forall (λ r, ∃ q, cell r ("metrics." +:+ f) = PNum q) df →
  ∃ l, mean_max_p90 df f = Ok l.
Proof.
  intros Hne (s & Hs & Hlen)%numeric_series_numbers.
  assert (dropna s ≠ []) as Hs_ne.
  { intros E. rewrite E in Hlen. by destruct df. }
  destruct (nonempty_sample_stats s Hs_ne) as (μ & lo & hi & _ & _ & Hhi).
  destruct (nonempty_sample_quantile (9 # 10) s Hs_ne) as [p Hp].
  destruct (rounded_mean_some s Hs_ne) as [m Hm].
  unfold mean_max_p90. rewrite Hs, bind_ok, Hm, bind_ok, Hhi, Hp. cbn. eauto.
Qed.

Lemma numeric_series_nullable df c :
  Forall (λ r, number_or_null (cell r c) = true) df →
  ∃ s, numeric_series df c = Ok s
       ∧ (dropna s = [] → Forall (λ r, cell r c = PNone) df)
       ∧ (dropna s ≠ [] → ∃ r q, r ∈ df ∧ cell r c = PNum q).
Proof.
  intros H. unfold numeric_series.
  induction H as [|r df Hr _ (s & Hs & Hnil & Hsome)].
  { exists []. split; [done|]. split; [by constructor|done]. }
  cbn [mapM]. rewrite Hs. destruct (cell r c) as [| |q| | |] eqn:E; try done; cbn.
  - exists (None :: s). split; [done|]. split.
    + intros Hd. constructor; [done|]. by apply Hnil.
    + intros Hd. destruct (Hsome Hd) as (r' & q & ? & ?).
      exists r', q. split; [by right|done].
  - exists (Some q :: s). split; [done|]. split; [done|].
    intros _. exists r, q. split; [left|done].
Qed.

Lemma docstring_flags_full df : dropna (docstring_flags df) ≠ [] ↔ df ≠ [].
Proof. by destruct df. Qed.

Lemma int_cells_numbers df0 df c :
  Forall2 (λ r r', process_row r = Ok r') df0 df →
  c ∈ processed_columns →
  Forall (λ r, ∃ q : Q, cell r c = PNum q) df.
Proof.
  intros Hp Hc. destruct (decide (c = "metrics.duplication.score")) as [->|Hne].
  - by eapply processed_score_cells.
  - eapply Forall_impl; [by eapply processed_int_cells|]. intros r [z Hz]. eauto.
Qed.

(** X5. After [process_df], for a table whose docstrings are strings or
    null and whose type coverage cells are numbers or null, aggregation
    depends on the type coverage alone: it succeeds exactly when some row
    has a type coverage.  Otherwise, in particular for the empty table, it
    ends with [AttributeError]: a mean without a value is a plain float,
    which has no [round]. *)
Theorem aggregation_depends_on_type_coverage (df0 df : list row) (date : string) :
  process_df df0 = Ok df →
  Forall (λ r, text_or_null (cell r "docstring") = true) df →
  Forall (λ r, number_or_null (cell r "metrics.type_coverage") = true) df →
  match aggregate_metrics df date with
  | Ok rec => ∃ r q, r ∈ df ∧ cell r "metrics.type_coverage" = PNum q
  | Raise e =>
      e = AttributeError ∧ Forall (λ r, cell r "metrics.type_coverage" = PNone) df
  end.
Proof.
  intros Hp%process_df_rows _ Htc.
  destruct df as [|r df'] eqn:Edf.
  { rewrite aggregate_metrics_empty. by split. }
  rewrite <- Edf in *. assert (df ≠ []) as Hne by (by rewrite Edf). clear Edf.
  assert (∀ f, "metrics." +:+ f ∈ processed_columns → ∃ l, mean_max_p90 df f = Ok l)
    as Hcount.
  { intros f Hf. apply mean_max_p90_numbers; [done|]. by eapply int_cells_numbers. }
  assert (∀ c, c ∈ processed_columns →
               ∃ s, numeric_series df c = Ok s ∧ dropna s ≠ []) as Hseries.
  { intros c Hc. destruct (numeric_series_numbers df c) as (s & Hs & Hlen).
    - by eapply int_cells_numbers.
    - exists s. split; [done|]. intros E. rewrite E in Hlen. by destruct df. }
  destruct (Hcount "lines") as [l1 H1];
    [apply in_processed_columns; vm_compute; reflexivity|].
  destruct (Hcount "statements") as [l2 H2];
    [apply in_processed_columns; vm_compute; reflexivity|].
  destruct (Hcount "expressions") as [l3 H3];
    [apply in_processed_columns; vm_compute; reflexivity|].
  destruct (Hcount "cyclomatic_complexity") as [l4 H4];
    [apply in_processed_columns; vm_compute; reflexivity|].
  destruct (Hcount "parameters") as [l5 H5];
    [apply in_processed_columns; vm_compute; reflexivity|].
  destruct (Hseries "metrics.todo_comments") as (todo & Htodo & _);
    [apply in_processed_columns; vm_compute; reflexivity|].
  destruct (Hseries "metrics.duplication.score") as (score & Hscore & Hscore_ne);
    [apply in_processed_columns; vm_compute; reflexivity|].
  destruct (Hseries "metrics.lines") as (ln & Hln & _);
    [apply in_processed_columns; vm_compute; reflexivity|].
  destruct (rounded_mean_some (docstring_flags df)) as [cov Hcov];
    [by apply docstring_flags_full|].
  destruct (rounded_mean_some score Hscore_ne) as [sm Hsm].
  destruct (numeric_series_nullable df "metrics.type_coverage" Htc)
    as (tc & Htcs & Hnil & Hsome).
  unfold aggregate_metrics, docstring_coverage. cbv zeta.
  rewrite Hcov, bind_ok, H1, H2, H3, H4, H5, !bind_ok, Htcs, bind_ok.
  destruct (dropna tc) as [|x xs] eqn:Ex.
  { rewrite rounded_mean_nan by done. cbn. split; [done|]. by apply Hnil. }
  assert (dropna tc ≠ []) as Htc_ne by (by rewrite Ex).
  destruct (rounded_mean_some tc Htc_ne) as [tm Htm].
  destruct (nonempty_sample_stats tc Htc_ne) as (μ & lo & hi & _ & Hlo & _).
  destruct (nonempty_sample_quantile (1 # 2) tc Htc_ne) as [p Hq].
  rewrite Htm, bind_ok, Hlo, Hq. cbn [py_int].
  rewrite !bind_ok, Htodo, bind_ok, Hscore, bind_ok, Hsm, bind_ok, Hln, bind_ok.
  by apply Hsome.
Qed.

Lemma forallb_Forall {A} (f : A → bool) l :
  forallb f l = true → Forall (λ x, f x = true) l.
Proof.
  induction l as [|x l IH]; [constructor|]. cbn.
  intros [? ?]%andb_prop. constructor; auto.
Qed.

Lemma aggregation_depends_on_type_coverage_witness :
  ∃ df0 df,
    process_df df0 = Ok df
    ∧ Forall (λ r, text_or_null (cell r "docstring") = true) df
    ∧ Forall (λ r, number_or_null (cell r "metrics.type_coverage") = true) df
    ∧ match aggregate_metrics df "2024-01-01" with
      | Ok rec => ∃ r q, r ∈ df ∧ cell r "metrics.type_coverage" = PNum q
      | Raise e =>
          e = AttributeError
          ∧ Forall (λ r, cell r "metrics.type_coverage" = PNone) df
      end.
Proof.
  destruct (is_ok_inv (df0 ← load_report_to_df leaf_without_coverage true;
                       df ← process_df df0;
                       Ok (df0, df)))
    as [[df0 df] E]; [vm_compute; reflexivity|].
  assert ((λ p : list row * list row,
             (forallb (λ r : row, text_or_null (cell r "docstring")) p.2,
              forallb (λ r : row, number_or_null (cell r "metrics.type_coverage")) p.2))
          <$> (df0 ← load_report_to_df leaf_without_coverage true;
               df ← process_df df0;
               Ok (df0, df))
          = Ok (true, true)) as Hcells by (vm_compute; reflexivity).
  rewrite E in Hcells. cbn [fmap result_fmap fst snd] in Hcells.
  injection Hcells as Hdoc Htc.
  apply bind_ok_inv in E as (df0' & _ & E).
  apply bind_ok_inv in E as (df' & Hproc & E).
  injection E as -> ->.
  apply forallb_Forall in Hdoc, Htc.
  exists df0, df. split; [exact Hproc|]. split; [exact Hdoc|]. split; [exact Htc|].
  exact (aggregation_depends_on_type_coverage df0 df "2024-01-01" Hproc Hdoc Htc).
Defined.

(** ** The keys of the aggregate and of the printed row *)

Lemma aggregate_keys_of df date rec :
  aggregate_metrics df date = Ok rec → rec.*1 = aggregate_keys.
Proof.
  intros [(l1 & l2 & l3 & l4 & l5 & tail & H1 & H2 & H3 & H4 & H5 & -> & Htail)]
    %aggregate_metrics_inv.
  destruct Htail as (tc & tmin & tp50 & todo & score & ln & _ & _ & _ & _ & _ & _ & ->).
  apply mean_max_p90_inv in H1 as (? & ? & ? & _ & _ & _ & ->).
  apply mean_max_p90_inv in H2 as (? & ? & ? & _ & _ & _ & ->).
  apply mean_max_p90_inv in H3 as (? & ? & ? & _ & _ & _ & ->).
  apply mean_max_p90_inv in H4 as (? & ? & ? & _ & _ & _ & ->).
  apply mean_max_p90_inv in H5 as (? & ? & ? & _ & _ & _ & ->).
  reflexivity.
Qed.

Lemma record_set_fresh k v (r : record) :
  k ∉ r.*1 → record_set k v r = r ++ [(k, v)].
Proof.
  induction r as [|[k' v'] r IH]; [done|]. cbn [fmap list_fmap fst].
  intros H. cbn [record_set app]. destruct (String.eqb_spec k k') as [->|Hne].
  - exfalso. apply H. left.
  - f_equal. apply IH. intros ?. apply H. by right.
Qed.

Lemma record_update_fresh (r other : record) :
  NoDup other.*1 → (∀ k, k ∈ other.*1 → k ∉ r.*1) →
  record_update r other = r ++ other.
Proof.
  unfold record_update. revert r.
  induction other as [|[k v] other IH]; intros r Hnd Hdisj.
  { by rewrite app_nil_r. }
  cbn [fmap list_fmap fst] in Hnd, Hdisj. apply NoDup_cons in Hnd as [Hk Hnd].
  cbn [foldl fst snd]. rewrite record_set_fresh by (apply Hdisj; left).
  rewrite IH; [by rewrite <- app_assoc|done|].
  intros k' Hk'. rewrite fmap_app, elem_of_app. intros [?|Hin].
  - by apply (Hdisj k'); [right|].
  - cbn in Hin. apply list_elem_of_singleton in Hin as ->. done.
Qed.

Lemma fromkeys_nodup l : NoDup l → fromkeys l = l.
Proof.
  intros H. unfold fromkeys. rewrite fromkeys_from_nodup by done.
  apply filter_all, Forall_forall. intros x _ ?%elem_of_nil. done.
Qed.

Lemma frame_of_distinct_record (r : record) :
  NoDup r.*1 →
  reindex (fromkeys (columns (frame_of_record r))) (frame_of_record r)
  = frame_of_record r.
Proof.
  intros H. unfold reindex, frame_of_record. cbn [columns rows].
  rewrite fromkeys_nodup by done. f_equal. cbn [fmap list_fmap]. f_equal.
  etrans; [|by apply frame_of_distinct_keys]. apply list_fmap_ext. intros i c _.
  apply cell_at_record.
Qed.

(** ** Outcomes of [cloc_metrics] *)

(** The JSON values for which the [try] block of [cloc_metrics] runs to
    its end: an object without ["Python"], or with an object under it; a
    list without the string ["Python"]; a string without that substring. *)
Lemma cloc_metrics_cases (run : cloc_run) :
  match cloc_metrics run with
  | Ok rec => rec = [] ∨ rec.*1 = cloc_keys
  | Raise e =>
      e ≠ CalledProcessError ∧ e ≠ JSONDecodeError
      ∧ ((run = ClocNotFound ∧ e = FileNotFoundError)
         ∨ run = ClocNotRun e
         ∨ (∃ v, run = ClocExited 0 (Some v)
                 ∧ (e = TypeError ∨ e = AttributeError)
                 ∧ ∀ kv, v = PDict kv →
                     ∃ x, dict_lookup "Python" kv = Some x ∧ ∀ py, x ≠ PDict py))
  end.
Proof.
  unfold cloc_metrics, cloc_try. destruct run as [|e|rc out].
  { split; [done|]. split; [done|]. by left. }
  { destruct e;
      first [by left | split; [done|]; split; [done|]; right; by left]. }
  case_bool_decide as Hrc; [subst rc|by left].
  destruct out as [v|]; [|by left].
  assert (∀ e, e = TypeError ∨ e = AttributeError →
               (∀ kv, v = PDict kv →
                  ∃ x, dict_lookup "Python" kv = Some x ∧ ∀ py, x ≠ PDict py) →
               e ≠ CalledProcessError ∧ e ≠ JSONDecodeError
               ∧ ((ClocExited 0 (Some v) = ClocNotFound ∧ e = FileNotFoundError)
                  ∨ ClocExited 0 (Some v) = ClocNotRun e
                  ∨ (∃ v', ClocExited 0 (Some v) = ClocExited 0 (Some v')
                           ∧ (e = TypeError ∨ e = AttributeError)
                           ∧ ∀ kv, v' = PDict kv →
                               ∃ x, dict_lookup "Python" kv = Some x
                                    ∧ ∀ py, x ≠ PDict py))) as Hraise.
  { intros e He Hv. split; [by destruct He as [->| ->]|].
    split; [by destruct He as [->| ->]|]. right. right. by exists v. }
  destruct v as [| | |s|l|kv]; cbn [py_contains mbind result_bind];
    try (apply Hraise; [by left|done]).
  - destruct (bool_decide _); [|by left]. cbn. apply Hraise; [by left|done].
  - destruct (existsb _ l); [|by left]. cbn. apply Hraise; [by left|done].
  - destruct (dict_lookup "Python" kv) as [x|] eqn:Ex.
    + rewrite bool_decide_eq_true_2 by eauto. cbn [py_getitem]. rewrite Ex, bind_ok.
      destruct x; cbn; try (apply Hraise; [by right|];
                            intros kv' [= <-]; eexists; split; [done|done]).
      by right.
    + rewrite bool_decide_eq_false_2 by (by intros [? ?]). by left.
Qed.

(** X6. [cloc_metrics] returns an empty result or one with exactly the four
    keys.  Its handler lets neither [CalledProcessError] nor
    [JSONDecodeError] out.  An exception that leaves it is either one that
    [subprocess.run] raised instead of completing ([FileNotFoundError] when
    there is no [cloc]), or, once [cloc] has exited with status 0 and
    printed JSON, a [TypeError] or an [AttributeError], and then the output
    is not an object, or it is an object that holds something else than an
    object under ["Python"]. *)
Theorem cloc_metrics_outcome (run : cloc_run) :
  match cloc_metrics run with
  | Ok rec => rec = [] ∨ rec.*1 = cloc_keys
  | Raise e =>
      e ≠ CalledProcessError ∧ e ≠ JSONDecodeError
      ∧ ((run = ClocNotFound ∧ e = FileNotFoundError)
         ∨ run = ClocNotRun e
         ∨ (∃ v, run = ClocExited 0 (Some v)
                 ∧ (e = TypeError ∨ e = AttributeError)
                 ∧ ∀ kv, v = PDict kv →
                     ∃ x, dict_lookup "Python" kv = Some x ∧ ∀ py, x ≠ PDict py))
  end.
Proof. apply cloc_metrics_cases. Qed.

(** X7. The row that [main] prints: the aggregate of the processed
    metric-bearing rows followed by what [cloc_metrics] returned, under the
    27 aggregate keys followed by the [cloc] keys, every cell filled.  The
    [reindex] over the de-duplicated labels changes nothing. *)
Theorem main_prints_aggregate_then_cloc report cloc date (t : DataFrame) :
  Analyze.main report cloc date = Ok t →
  ∃ data df agg c,
    report = Ok data
    ∧ (load_report_to_df data true ≫= process_df) = Ok df
    ∧ aggregate_metrics df date = Ok agg
    ∧ cloc_metrics cloc = Ok c
    ∧ columns t = aggregate_keys ++ c.*1
    ∧ rows t = [Some <$> (agg.*2 ++ c.*2)].
Proof.
  unfold Analyze.main. intros H.
  apply bind_ok_inv in H as (data & -> & H).
  apply bind_ok_inv in H as (df0 & Hload & H).
  apply bind_ok_inv in H as (df & Hproc & H).
  apply bind_ok_inv in H as (agg & Hagg & H).
  apply bind_ok_inv in H as (c & Hc & H).
  apply Ok_inj in H. subst t.
  exists data, df, agg, c. split; [done|].
  split; [by rewrite Hload|]. split; [done|]. split; [done|].
  pose proof (aggregate_keys_of _ _ _ Hagg) as Hkeys.
  assert (NoDup aggregate_keys) as Hnd
    by (apply (bool_decide_unpack _); vm_compute; exact I).
  assert (record_update agg c = agg ++ c) as ->.
  { pose proof (cloc_metrics_cases cloc) as Hout. rewrite Hc in Hout.
    destruct Hout as [->|Hck]; [by rewrite app_nil_r|].
    apply record_update_fresh; rewrite Hck, ?Hkeys.
    - apply (bool_decide_unpack _). vm_compute. exact I.
    - intros k Hk. apply (bool_decide_unpack _).
      unfold cloc_keys in Hk.
      repeat (apply elem_of_cons in Hk as [->|Hk]); [..|by apply elem_of_nil in Hk];
        vm_compute; exact I. }
  rewrite frame_of_distinct_record.
  - unfold frame_of_record. cbn [columns rows]. rewrite !fmap_app, Hkeys. done.
  - rewrite fmap_app, Hkeys.
    pose proof (cloc_metrics_cases cloc) as Hout. rewrite Hc in Hout.
    destruct Hout as [->|Hck]; [by rewrite app_nil_r|]. rewrite Hck.
    apply (bool_decide_unpack _). vm_compute. exact I.
Qed.

Lemma main_prints_aggregate_then_cloc_witness :
  ∃ t data df agg c,
    Analyze.main (Ok small_report)
         (ClocExited 0 (Some (PDict [("Python", PDict [("nFiles", PNum 2)])])))
         "2024-01-01" = Ok t
    ∧ Ok small_report = Ok data
    ∧ (load_report_to_df data true ≫= process_df) = Ok df
    ∧ aggregate_metrics df "2024-01-01" = Ok agg
    ∧ cloc_metrics
        (ClocExited 0 (Some (PDict [("Python", PDict [("nFiles", PNum 2)])]))) = Ok c
    ∧ columns t = aggregate_keys ++ c.*1
    ∧ rows t = [Some <$> (agg.*2 ++ c.*2)].
Proof.
  destruct (is_ok_inv
              (Analyze.main (Ok small_report)
                 (ClocExited 0 (Some (PDict [("Python", PDict [("nFiles", PNum 2)])])))
                 "2024-01-01"))
    as [t E]; [vm_compute; reflexivity|].
  destruct (main_prints_aggregate_then_cloc _ _ _ t E) as (data & df & agg & c & H).
  exists t, data, df, agg, c. split; [exact E|exact H].
Defined.

(** ** The shape of the ledger *)

Lemma fromkeys_from_fresh seen l :
  NoDup (fromkeys_from seen l)
  ∧ ∀ c, c ∈ fromkeys_from seen l ↔ c ∈ l ∧ c ∉ seen.
Proof.
  revert seen. induction l as [|k l IH]; intros seen.
  { split; [constructor|]. intros c. cbn. split; [by intros ?%elem_of_nil|].
    by intros [?%elem_of_nil _]. }
  cbn [fromkeys_from]. case_bool_decide as Hk.
  - destruct (IH seen) as [Hnd Hin]. split; [done|].
    intros c. rewrite Hin, elem_of_cons. naive_solver.
  - destruct (IH (k :: seen)) as [Hnd Hin]. split.
    + constructor; [|done]. rewrite Hin, elem_of_cons. naive_solver.
    + intros c. rewrite elem_of_cons, Hin, !elem_of_cons.
      destruct (decide (c = k)); naive_solver.
Qed.

(** X8. For a ledger with distinct labels and a record with distinct keys, the
    table that [append_metrics_to_hub_csv] uploads has pairwise distinct
    labels, namely those of the ledger and those of the record, and one cell
    per label in every row; with a record that is not empty it has a column,
    so that it meets again what the next append expects of a ledger. *)
Theorem append_keeps_ledger_shape (existing : DataFrame) (r : record) :
  NoDup (columns existing) →
  NoDup r.*1 →
  let merged := df_updated existing r in
  NoDup (columns merged)
  ∧ (∀ c, c ∈ columns merged ↔ c ∈ columns existing ∨ c ∈ r.*1)
  ∧ rectangular merged
  ∧ (r ≠ [] → columns merged ≠ []).
Proof.
  intros _ _ merged.
  assert (columns merged = fromkeys (columns existing ++ r.*1)) as Hcols.
  { unfold merged, df_updated. by destruct (frame_empty existing). }
  destruct (fromkeys_from_fresh [] (columns existing ++ r.*1)) as [Hnd Hin].
  fold (fromkeys (columns existing ++ r.*1)) in Hnd, Hin. rewrite <- Hcols in Hnd, Hin.
  assert (∀ c, c ∈ columns merged ↔ c ∈ columns existing ∨ c ∈ r.*1) as Hiff.
  { intros c. rewrite Hin, elem_of_app. split; [tauto|].
    intros H. split; [done|]. by intros ?%elem_of_nil. }
  split; [done|]. split; [done|]. split.
  - unfold rectangular. rewrite Hcols. unfold merged, df_updated.
    destruct (frame_empty existing); cbn [rows reindex concat2 frame_of_record columns];
      rewrite ?Forall_fmap; apply Forall_forall; intros x _; cbn;
      by rewrite length_fmap.
  - intros Hr Hnil. destruct r as [|[k v] r]; [done|].
    assert (k ∈ columns merged) as Hk by (apply Hiff; right; left).
    rewrite Hnil in Hk. by apply elem_of_nil in Hk.
Qed.

Lemma append_keeps_ledger_shape_witness :
  NoDup (columns ledger0) ∧ NoDup record0.*1
  ∧ NoDup (columns (df_updated ledger0 record0))
  ∧ rectangular (df_updated ledger0 record0).
Proof.
  assert (NoDup (columns ledger0)) as H1
    by (apply (bool_decide_unpack _); vm_compute; exact I).
  assert (NoDup record0.*1) as H2
    by (apply (bool_decide_unpack _); vm_compute; exact I).
  split; [exact H1|]. split; [exact H2|].
  destruct (append_keeps_ledger_shape ledger0 record0 H1 H2) as (Hnd & _ & Hrect & _).
  split; [exact Hnd|exact Hrect].
Defined.

(** ** The type coverage *)




(** ** The docstring statistics *)

Lemma filter_disjoint_length {A} (P Q : A → Prop)
    `{!∀ x, Decision (P x)} `{!∀ x, Decision (Q x)} (l : list A) :
  (∀ x, P x → Q x → False) →
  (length (filter P l) + length (filter Q l) ≤ length l)%nat.
Proof.
  intros Hd. induction l as [|x l IH]; [done|].
  rewrite !filter_cons. destruct (decide (P x)), (decide (Q x)); cbn; try lia.
  by destruct (Hd x).
Qed.

(** X10. In an aggregate record the docstring coverage lies between 0 and 1, and
    the rows counted as missing a docstring are not counted as documented:
    the two counts together do not exceed the number of rows. *)
Theorem docstring_statistics_bounded (df : list row) (date : string) (rec : record) :
  aggregate_metrics df date = Ok rec →
  ∃ (cov : Q) (missing : Z),
    get_float rec "docstring coverage" = Some cov
    ∧ get_int rec "docstring missing" = Some missing
    ∧ 0 <= cov ∧ cov <= 1
    ∧ (0 ≤ missing)%Z
    ∧ (count_documented df + missing ≤ Z.of_nat (length df))%Z.
Proof.
  intros Hagg.
  assert (df ≠ []) as Hne.
  { intros ->. by rewrite aggregate_metrics_empty in Hagg. }
  apply aggregate_metrics_inv in Hagg
    as [(l1 & l2 & l3 & l4 & l5 & tail & _ & _ & _ & _ & _ & -> & _)].
  pose proof (filter_disjoint_length documented
                (λ r, str_len (cell r "docstring") = Some 0%nat) df) as Hsum.
  assert (length (filter documented df) ≤ length df)%nat as Hdoc
    by apply length_filter.
  assert (0 < inject_Z (Z.of_nat (length df))) as Hn.
  { change 0 with (inject_Z 0). rewrite <- Zlt_Qlt. destruct df; [done|cbn; lia]. }
  destruct (round4 (smean (docstring_flags df))) as [cov|] eqn:Hcov.
  2:{ rewrite docstring_coverage_eq in Hcov by done. done. }
  exists cov, (docstring_missing df).
  split; [reflexivity|].
  split; [reflexivity|].
  rewrite docstring_coverage_eq in Hcov by done.
  destruct (round4_between 0 1
              (inject_Z (count_documented df) / inject_Z (Z.of_nat (length df))) cov)
    as [Hc0 Hc1]; [| |exact Hcov|].
  - apply Qle_shift_div_l; [done|]. rewrite Qmult_0_l.
    change 0 with (inject_Z 0). rewrite <- Zle_Qle. unfold count_documented. lia.
  - apply Qle_shift_div_r; [done|]. rewrite Qmult_1_l.
    rewrite <- Zle_Qle. unfold count_documented. lia.
  - split; [exact Hc0|]. split; [exact Hc1|].
    unfold docstring_missing, count_documented. split; [lia|].
    specialize (Hsum ltac:(intros x [n Hx] Hx'; congruence)). lia.
Qed.

Lemma docstring_statistics_bounded_witness :
  ∃ df rec (cov : Q) (missing : Z),
    aggregate_metrics df "2024-01-01" = Ok rec
    ∧ get_float rec "docstring coverage" = Some cov
    ∧ get_int rec "docstring missing" = Some missing
    ∧ 0 <= cov ∧ cov <= 1
    ∧ (0 ≤ missing)%Z
    ∧ (count_documented df + missing ≤ Z.of_nat (length df))%Z.
Proof.
  destruct (is_ok_inv (df0 ← load_report_to_df small_report true;
                       df ← process_df df0;
                       rec ← aggregate_metrics df "2024-01-01";
                       Ok (df, rec)))
    as [[df rec] E]; [vm_compute; reflexivity|].
  apply bind_ok_inv in E as (df0' & _ & E).
  apply bind_ok_inv in E as (df' & _ & E).
  apply bind_ok_inv in E as (rec' & Hagg & E).
  injection E as -> ->.
  destruct (docstring_statistics_bounded df "2024-01-01" rec Hagg) as (cov & missing & H).
  exists df, rec, cov, missing. split; [exact Hagg|exact H].
Defined.

(** ** Names and kinds *)

(** X11. The seven base fields of a row are copied from the node, null where the
    node lacks them; [qual_or_name] is [qualname or name] whichever branch
    of the conditional is taken; and a row is never both a directory and a
    file. *)
Theorem row_names_and_kind kv (r : row) :
  node_row kv = Ok r →
  (∀ k, k ∈ BASE_FIELDS → cell r k = dict_get kv k)
  ∧ cell r "qual_or_name" = py_or (dict_get kv "qualname") (dict_get kv "name")
  ∧ cell r "is_directory" = PBool (eq_str (dict_get kv "nodetype") "directory")
  ∧ cell r "is_file" = PBool (eq_str (dict_get kv "nodetype") "file")
  ∧ ¬ (cell r "is_directory" = PBool true ∧ cell r "is_file" = PBool true).
Proof.
  unfold node_row. cbv zeta.
  destruct (as_dict (py_or (dict_get kv "metrics") (PDict []))) as [m|e]; [|done].
  cbn [mbind result_bind].
  destruct (as_dict (py_or (dict_get m "duplication") (PDict []))) as [dup|e]; [|done].
  cbn [mbind result_bind]. intros H%Ok_inj. subst r.
  assert (∀ k, k ∈ BASE_FIELDS →
            cell (list_to_map ((λ k, (k, dict_get kv k)) <$> BASE_FIELDS)) k = dict_get kv k)
    as Hbase.
  { intros k Hk. unfold BASE_FIELDS in *. cbn [fmap list_fmap list_to_map foldr].
    repeat (apply elem_of_cons in Hk as [->|Hk]); [..|by apply elem_of_nil in Hk];
      cbn [curry fst snd]; rewrite ?cell_insert_ne by done; by rewrite cell_insert. }
  split; [|split; [|split; [|split]]].
  - intros k Hk. pose proof (Hbase k Hk) as Hcell. unfold BASE_FIELDS in Hk.
    repeat (apply elem_of_cons in Hk as [->|Hk]); [..|by apply elem_of_nil in Hk];
      by rewrite !cell_insert_ne by done.
  - rewrite !cell_insert_ne by done. rewrite cell_insert.
    rewrite !Hbase by set_solver. unfold py_or.
    by destruct (truthy (dict_get kv "qualname")).
  - rewrite !cell_insert_ne by done. rewrite cell_insert.
    rewrite !cell_insert_ne by done. by rewrite Hbase by set_solver.
  - rewrite cell_insert.
    rewrite !cell_insert_ne by done. by rewrite Hbase by set_solver.
  - rewrite cell_insert. rewrite !cell_insert_ne by done. rewrite cell_insert.
    rewrite !cell_insert_ne by done. rewrite Hbase by set_solver.
    intros [[= Hd] [= Hf]]. destruct (dict_get kv "nodetype"); try done.
    cbn in Hd, Hf. apply String.eqb_eq in Hd, Hf. congruence.
Qed.

Lemma row_names_and_kind_witness :
  ∃ r : row,
    node_row [("name", PStr "pkg"); ("nodetype", PStr "directory")] = Ok r
    ∧ cell r "qual_or_name" = PStr "pkg"
    ∧ cell r "is_directory" = PBool true.
Proof.
  destruct (is_ok_inv (node_row [("name", PStr "pkg"); ("nodetype", PStr "directory")]))
    as [r E]; [vm_compute; reflexivity|].
  exists r. split; [exact E|].
  destruct (row_names_and_kind _ r E) as (_ & Hq & Hd & _).
  split; [rewrite Hq|rewrite Hd]; reflexivity.
Defined.

End AnalyzeFacts.

(* ===================================================================== *)
(** * Properties of backfill.py *)
(* ===================================================================== *)

Module BackfillFacts.

Import Analyze Backfill Notions AnalyzeFacts.

Ltac simpl_world :=
  unfold add_log, add_err, set_head; cbn [HEAD log out err fst snd].

Ltac norm_log :=
  repeat (progress (rewrite <- ?app_assoc; cbn [app fst snd log])).

Section Facts.
Variable env : Env.

Lemma bindM {A B} (m : M A) (f : A → M B) w :
  (m ≫= f) w = match m w with (Ok a, w') => f a w' | (Raise e, w') => (Raise e, w') end.
Proof. reflexivity. Qed.

Lemma exec_head cmd h :
  (∀ t, cmd ≠ GitCheckout t) → (exec env cmd h).2 = h.
Proof.
  intros Hc. unfold exec. destruct (git_fails env cmd h); [done|].
  destruct cmd; try done. by destruct (Hc target).
Qed.

Lemma run_world cmd check w r w' :
  run env cmd check w = (r, w') →
  w' = mk_world (exec env cmd (HEAD w)).2 (log w ++ [cmd]) (out w) (err w).
Proof.
  unfold run. destruct (exec env cmd (HEAD w)) as [cp h]. cbn.
  destruct (check && _); by intros [= <- <-].
Qed.

Lemma run_unchecked cmd w :
  run env cmd false w =
    (Ok (exec env cmd (HEAD w)).1,
     mk_world (exec env cmd (HEAD w)).2 (log w ++ [cmd]) (out w) (err w)).
Proof. unfold run. by destruct (exec env cmd (HEAD w)) as [cp h]. Qed.

Lemma run_checked cmd w :
  run env cmd true w =
    (if bool_decide (returncode (exec env cmd (HEAD w)).1 = 0%Z)
     then Ok (exec env cmd (HEAD w)).1 else Raise CalledProcessError,
     mk_world (exec env cmd (HEAD w)).2 (log w ++ [cmd]) (out w) (err w)).
Proof.
  unfold run. destruct (exec env cmd (HEAD w)) as [cp h]. cbn.
  by case_bool_decide.
Qed.

Lemma git_first_commit_on_or_after_eq branch m w :
  git_first_commit_on_or_after env branch (since_iso m) w =
    (Ok (resolved env branch m (HEAD w)),
     add_log w [GitRevList branch (Some (since_iso m))]).
Proof.
  unfold git_first_commit_on_or_after. rewrite bindM, run_unchecked.
  rewrite exec_head by done. reflexivity.
Qed.

Lemma git_commit_date_eq sha w :
  git_commit_date env sha w =
    (if bool_decide (returncode (exec env (GitShow sha) (HEAD w)).1 = 0%Z)
     then fromisoformat env (strip (stdout (exec env (GitShow sha) (HEAD w)).1))
     else Raise CalledProcessError,
     add_log w [GitShow sha]).
Proof.
  unfold git_commit_date. rewrite bindM, run_checked.
  rewrite exec_head by done. by case_bool_decide.
Qed.


(** One iteration of the loop, spelled out on the world. *)
Lemma snapshot_loop_cons branch earliest m rest dfs seen w :
  snapshot_loop env branch earliest (m :: rest) dfs seen w =
    let w0 := add_err w ["|"] in
    if date_ltb m (replace_day1 earliest) then (Ok dfs, w0)
    else
      let w1 := add_log w0 [GitRevList branch (Some (since_iso m))] in
      match resolved env branch m (HEAD w) with
      | None => snapshot_loop env branch earliest rest dfs seen w1
      | Some sha =>
          if bool_decide (sha = "") || bool_decide (sha ∈ seen)
          then snapshot_loop env branch earliest rest dfs seen w1
          else
            let co := exec env (GitCheckout sha) (HEAD w) in
            let w2 := add_log (set_head w1 co.2) [GitCheckout sha] in
            if bool_decide (returncode co.1 = 0%Z) then
              let scan := (exec env MainPy co.2).1 in
              let shown := (exec env (GitShow sha) co.2).1 in
              let dt := if bool_decide (returncode shown = 0%Z)
                        then fromisoformat env (strip (stdout shown))
                        else Raise CalledProcessError in
              let w4 := add_log w2 [MainPy; GitShow sha] in
              match dt with
              | Raise e => (Raise e, w4)
              | Ok d =>
                  if bool_decide (returncode scan = 0%Z) then
                    let an := (exec env (AnalyzePy (isoformat d)) co.2).1 in
                    let w5 := add_log w4 [AnalyzePy (isoformat d)] in
                    if bool_decide (returncode an = 0%Z) then
                      if bool_decide (strip (stdout an) = "")
                      then snapshot_loop env branch earliest rest dfs (seen ∪ {[sha]}) w5
                      else
                        match read_csv env (strip (stdout an)) with
                        | Ok df =>
                            snapshot_loop env branch earliest rest (dfs ++ [df])
                                          (seen ∪ {[sha]}) w5
                        | Raise e => (Raise e, w5)
                        end
                    else (Raise CalledProcessError, w5)
                  else (Ok dfs, add_err w4 [failure_message sha d; stderr scan])
              end
            else (Raise CalledProcessError, w2)
      end.
Proof.
  cbn [snapshot_loop]. rewrite bindM. cbn [print_err].
  destruct (date_ltb m (replace_day1 earliest)); [reflexivity|].
  rewrite bindM, git_first_commit_on_or_after_eq. simpl_world.
  destruct (resolved env branch m (HEAD w)) as [sha|]; [|reflexivity].
  destruct (bool_decide (sha = "") || bool_decide (sha ∈ seen)); [reflexivity|].
  rewrite bindM, run_checked. simpl_world.
  destruct (exec env (GitCheckout sha) (HEAD w)) as [cp h2] eqn:Eco. simpl_world.
  case_bool_decide as Hrc; [|by rewrite <- ?app_assoc].
  rewrite bindM, run_unchecked. simpl_world.
  rewrite (exec_head MainPy h2) by done.
  case_bool_decide as Hscan; cbn [negb].
  - rewrite bindM, git_commit_date_eq. simpl_world.
    case_bool_decide as Hshow.
    + destruct (fromisoformat env _) as [d|e]; [|by rewrite <- ?app_assoc].
      rewrite bindM, run_checked. simpl_world.
      rewrite (exec_head (AnalyzePy _) h2) by done.
      case_bool_decide as Han; [|by rewrite <- ?app_assoc].
      case_bool_decide as Hcsv; [by rewrite <- ?app_assoc|].
      rewrite bindM. unfold lift.
      destruct (read_csv env _) as [df|e]; by rewrite <- ?app_assoc.
    + by rewrite <- ?app_assoc.
  - rewrite bindM, git_commit_date_eq. simpl_world.
    case_bool_decide as Hshow.
    + destruct (fromisoformat env _) as [d|e]; [|by rewrite <- ?app_assoc].
      repeat (rewrite bindM; cbn [print_err]; simpl_world).
      unfold mret, M_ret, failure_message. by rewrite <- ?app_assoc.
    + by rewrite <- ?app_assoc.
Qed.

Lemma checkouts_app l1 l2 : checkouts (l1 ++ l2) = checkouts l1 ++ checkouts l2.
Proof. apply omap_app. Qed.

Lemma fresh_done seen l new :
  checkouts new = [] → fresh_checkouts seen l (l ++ new).
Proof.
  intros H. exists new. rewrite H. split; [done|]. split; [constructor|].
  by intros t ?%elem_of_nil.
Qed.

Lemma fresh_refl seen l : fresh_checkouts seen l l.
Proof. rewrite <- (app_nil_r l) at 2. by apply fresh_done. Qed.

Lemma fresh_skip seen l pre after :
  checkouts pre = [] → fresh_checkouts seen (l ++ pre) after →
  fresh_checkouts seen l after.
Proof.
  intros Hpre (new & -> & Hnd & Hfresh). exists (pre ++ new).
  rewrite checkouts_app, Hpre, app_assoc. done.
Qed.

Lemma fresh_step seen l pre after sha :
  checkouts pre = [sha] → sha ∉ seen →
  fresh_checkouts (seen ∪ {[sha]}) (l ++ pre) after →
  fresh_checkouts seen l after.
Proof.
  intros Hpre Hsha (new & -> & Hnd & Hfresh). exists (pre ++ new).
  rewrite checkouts_app, Hpre, app_assoc. split; [done|]. split.
  - cbn. constructor; [|done]. intros Hin. apply Hfresh in Hin. set_solver.
  - cbn. intros t [->|Hin]%elem_of_cons; [done|].
    apply Hfresh in Hin. set_solver.
Qed.

Lemma snapshot_loop_fresh branch earliest starts dfs seen w :
  fresh_checkouts seen (log w)
    (log (snapshot_loop env branch earliest starts dfs seen w).2).
Proof.
  revert dfs seen w. induction starts as [|m rest IH]; intros dfs seen w.
  { apply fresh_refl. }
  rewrite snapshot_loop_cons. cbn zeta.
  destruct (date_ltb m (replace_day1 earliest)).
  { apply fresh_refl. }
  assert (∀ dfs', fresh_checkouts seen (log w)
            (log (snapshot_loop env branch earliest rest dfs' seen
               (add_log (add_err w ["|"]) [GitRevList branch (Some (since_iso m))])).2))
    as Hskip.
  { intros dfs'.
    apply (fresh_skip _ _ [GitRevList branch (Some (since_iso m))]); [done|].
    exact (IH dfs' seen (add_log (add_err w ["|"])
                           [GitRevList branch (Some (since_iso m))])). }
  destruct (resolved env branch m (HEAD w)) as [sha|]; [|apply Hskip].
  destruct (bool_decide (sha = "")) eqn:Hempty; [apply Hskip|].
  destruct (bool_decide (sha ∈ seen)) eqn:Hseen; [apply Hskip|].
  apply bool_decide_eq_false in Hseen. cbn [orb].
  destruct (exec env (GitCheckout sha) (HEAD w)) as [cp h2]. simpl_world.
  assert (∀ dfs' cmds,
            checkouts cmds = [] →
            fresh_checkouts seen (log w)
              (log (snapshot_loop env branch earliest rest dfs' (seen ∪ {[sha]})
                 {| HEAD := h2;
                    log := log w ++ GitRevList branch (Some (since_iso m))
                                 :: GitCheckout sha :: cmds;
                    out := out w; err := err w ++ ["|"] |}).2)) as Hstep.
  { intros dfs' cmds Hc.
    apply (fresh_step _ _ (GitRevList branch (Some (since_iso m))
                           :: GitCheckout sha :: cmds) _ sha);
      [change (checkouts (_ :: _ :: cmds)) with (sha :: checkouts cmds);
       by rewrite Hc|done|].
    exact (IH dfs' (seen ∪ {[sha]})
              {| HEAD := h2;
                 log := log w ++ GitRevList branch (Some (since_iso m))
                              :: GitCheckout sha :: cmds;
                 out := out w; err := err w ++ ["|"] |}). }
  assert (∀ cmds, checkouts cmds = [] →
            fresh_checkouts seen (log w)
              (log w ++ GitRevList branch (Some (since_iso m))
                      :: GitCheckout sha :: cmds)) as Hleaf.
  { intros cmds Hc.
    apply (fresh_step _ _ (GitRevList branch (Some (since_iso m))
                           :: GitCheckout sha :: cmds) _ sha);
      [change (checkouts (_ :: _ :: cmds)) with (sha :: checkouts cmds);
       by rewrite Hc|done|].
    apply fresh_refl. }
  destruct (bool_decide (returncode cp = 0%Z)); [|norm_log; by apply Hleaf].
  destruct (if bool_decide _ then fromisoformat env _ else _) as [d|e];
    [|norm_log; by apply Hleaf].
  destruct (bool_decide (returncode (exec env MainPy h2).1 = 0%Z));
    [|norm_log; by apply Hleaf].
  destruct (bool_decide (returncode (exec env (AnalyzePy (isoformat d)) h2).1 = 0%Z));
    [|norm_log; by apply Hleaf].
  destruct (bool_decide (strip _ = "")); [norm_log; by apply Hstep|].
  destruct (read_csv env _) as [df|e]; norm_log; [by apply Hstep|by apply Hleaf].
Qed.

Lemma restore_eq sr ss w :
  restore env sr ss w =
    (Ok (),
     mk_world (exec env (GitCheckout (restore_target sr ss)) (HEAD w)).2
              (log w ++ [GitCheckout (restore_target sr ss)]) (out w) (err w)).
Proof.
  unfold restore, restore_target.
  destruct (String.eqb sr "HEAD"); by rewrite bindM, run_unchecked.
Qed.

Lemma try_finally_restore {A} (body : M A) sr ss w :
  try_finally body (restore env sr ss) w =
    ((body w).1,
     mk_world (exec env (GitCheckout (restore_target sr ss)) (HEAD (body w).2)).2
              (log (body w).2 ++ [GitCheckout (restore_target sr ss)])
              (out (body w).2) (err (body w).2)).
Proof.
  unfold try_finally. destruct (body w) as [r w1]. by rewrite restore_eq.
Qed.

Lemma collect_and_write_result args earliest starts w :
  (collect_and_write env args earliest starts w).1 =
    match snapshot_loop env (branch args) earliest starts [] ∅ w with
    | (Ok dfs, _) => output_result env dfs
    | (Raise e, _) => Raise e
    end.
Proof.
  unfold collect_and_write. rewrite bindM.
  destruct (snapshot_loop _ _ _ _ _ _ _) as [[dfs|e] w1]; [|done].
  destruct dfs as [|df dfs]; [done|].
  rewrite bindM. unfold lift, output_result.
  by destruct (concat_sort_to_csv env (df :: dfs)).
Qed.

Lemma collect_and_write_head args earliest starts w :
  HEAD (collect_and_write env args earliest starts w).2 =
    HEAD (snapshot_loop env (branch args) earliest starts [] ∅ w).2.
Proof.
  unfold collect_and_write. rewrite bindM.
  destruct (snapshot_loop _ _ _ _ _ _ _) as [[dfs|e] w1]; [|done].
  destruct dfs as [|df dfs]; [done|].
  rewrite bindM. unfold lift.
  by destruct (concat_sort_to_csv env (df :: dfs)).
Qed.


(** C7. The commits checked out by one run of the sampling loop are
    pairwise distinct, and none of them was seen before; a month start that
    resolves to no commit, or to a commit already seen, is passed over
    without a checkout and without an exception: the loop goes on with the
    next month, its accumulators unchanged. *)
Theorem sampler_emits_each_commit_once branch earliest :
  (∀ starts dfs seen w,
     ∃ new,
       log (snapshot_loop env branch earliest starts dfs seen w).2 = log w ++ new
       ∧ NoDup (checkouts new)
       ∧ ∀ t, t ∈ checkouts new → t ∉ seen)
  ∧ (∀ m rest dfs seen w,
       date_ltb m (replace_day1 earliest) = false →
       (resolved env branch m (HEAD w) = None
        ∨ ∃ sha, resolved env branch m (HEAD w) = Some sha ∧ sha ∈ seen) →
       snapshot_loop env branch earliest (m :: rest) dfs seen w =
         snapshot_loop env branch earliest rest dfs seen
           (add_log (add_err w ["|"]) [GitRevList branch (Some (since_iso m))])).
Proof.
  split.
  - intros starts dfs seen w. apply snapshot_loop_fresh.
  - intros m rest dfs seen w Hdate Hres. rewrite snapshot_loop_cons. cbn zeta.
    rewrite Hdate. destruct Hres as [->|(sha & -> & Hsha)]; [done|].
    by rewrite (bool_decide_eq_true_2 (sha ∈ seen)), orb_true_r.
Qed.

(** C2, as the code has it.  When the report generator exits with a
    non-zero status for a selected commit, nothing is run for the remaining
    months.  The failure itself is not raised: the date of the commit is
    read for the message, and if that succeeds the loop is left with the
    tables collected so far, the message and the error output of the
    generator being printed; if [git show] fails or its output is no date,
    that exception leaves the loop instead.  However the loop has ended, the
    [try] statement then does what it does after any run of the loop: an
    exception of the loop is passed on, no table means a normal return, and
    otherwise the collected tables are written, with a normal return unless
    that step raises; the restoring checkout is the last command in every
    case. *)
Theorem scanner_failure_breaks_loop branch earliest m rest dfs seen w sha :
  date_ltb m (replace_day1 earliest) = false →
  resolved env branch m (HEAD w) = Some sha →
  sha ≠ "" → sha ∉ seen →
  returncode (exec env (GitCheckout sha) (HEAD w)).1 = 0%Z →
  let h := (exec env (GitCheckout sha) (HEAD w)).2 in
  returncode (exec env MainPy h).1 ≠ 0%Z →
  snapshot_loop env branch earliest (m :: rest) dfs seen w =
    (match shown_date env sha h with
     | Ok _ => Ok dfs
     | Raise e => Raise e
     end,
     {| HEAD := h;
        log := log w ++ [GitRevList branch (Some (since_iso m));
                         GitCheckout sha; MainPy; GitShow sha];
        out := out w;
        err := err w ++ "|" :: match shown_date env sha h with
                               | Ok d => [failure_message sha d;
                                          stderr (exec env MainPy h).1]
                               | Raise _ => []
                               end |})
  ∧ (∀ args starts sr ss w0,
       ∃ w2,
         try_finally (collect_and_write env args earliest starts) (restore env sr ss) w0
           = (after_loop env
                (snapshot_loop env (Backfill.branch args) earliest starts [] ∅ w0).1, w2)
         ∧ last (log w2) = Some (GitCheckout (restore_target sr ss))).
Proof.
  intros Hdate Hres Hne Hseen Hco h Hscan. split.
  - rewrite snapshot_loop_cons. cbn zeta. rewrite Hdate, Hres.
    rewrite (bool_decide_eq_false_2 (sha = "")), (bool_decide_eq_false_2 (sha ∈ seen))
      by done.
    cbn [orb]. rewrite (bool_decide_eq_true_2 _ Hco).
    fold h. fold (shown_date env sha h).
    destruct (shown_date env sha h) as [d|e].
    + rewrite (bool_decide_eq_false_2 _ Hscan). simpl_world.
      by rewrite <- !app_assoc.
    + simpl_world. by rewrite <- ?app_assoc.
  - intros args starts sr ss w0.
    rewrite try_finally_restore. eexists. split.
    + f_equal. rewrite collect_and_write_result. unfold after_loop, output_result.
      by destruct (snapshot_loop _ _ _ _ _ _ _) as [[dfs'|e] w1].
    + cbn [log]. apply last_snoc.
Qed.


End Facts.


(** C1 at the failing input.  The run starts on branch [dev] with
    [--branch main]; [git checkout main] succeeds and the [git show] of
    [git_first_commit_date], which precedes the [try] statement, fails.  The
    exception leaves [main] with [main] checked out: the [finally] clause
    was never entered and no restoring checkout was run. *)
Theorem exception_before_try_skips_restore :
  Backfill.main (example_env (λ _, 0%Z) analyze_ok true) args0 on_dev =
    (Raise CalledProcessError,
     {| HEAD := OnBranch "main";
        log := [GitRevParseAbbrevRef; GitRevParseHead; GitShowRef "main";
                GitCheckout "main"; GitRevList "main" None; GitShow "c1"];
        out := []; err := [] |})
  ∧ HEAD on_dev = OnBranch "dev".
Proof. split; vm_compute; reflexivity. Qed.

(** C2, as stated, fails: the scanner exits with status 1 on [c1], the
    second commit selected, and [main] returns normally, having written the
    table collected for [c2]. *)
Lemma scanner_failure_not_raised :
  ¬ (∀ env args w sha,
       MainPy ∈ log (Backfill.main env args w).2 →
       GitCheckout sha ∈ log (Backfill.main env args w).2 →
       returncode (main_py env (Detached sha)) ≠ 0%Z →
       ∃ e, (Backfill.main env args w).1 = Raise e).
Proof.
  intros H.
  assert (Backfill.main (example_env scan_fails_on_c1 analyze_ok false) args0 on_dev =
          (Ok (),
           {| HEAD := OnBranch "dev";
              log := [GitRevParseAbbrevRef; GitRevParseHead; GitShowRef "main";
                      GitCheckout "main"; GitRevList "main" None; GitShow "c1";
                      GitRevList "main" (Some "2024-02-01T00:00:00+00:00");
                      GitCheckout "c2"; MainPy; GitShow "c2"; AnalyzePy "2024-02-10";
                      GitRevList "main" (Some "2024-01-01T00:00:00+00:00");
                      GitCheckout "c1"; MainPy; GitShow "c1";
                      GitCheckout "dev"];
              out := ["date" +:+ nl +:+ "2024-02-10" +:+ nl];
              err := ["|"; "|"; "error: main.py failed on commit c1 (2024-01-15), aborting";
                      "scanner error"] |})) as E by (vm_compute; reflexivity).
  destruct (H (example_env scan_fails_on_c1 analyze_ok false) args0 on_dev "c1") as [e He].
  - rewrite E. cbn [snd log]. do 8 right. left.
  - rewrite E. cbn [snd log]. do 12 right. left.
  - vm_compute. discriminate.
  - rewrite E in He. discriminate He.
Qed.


Lemma scanner_failure_breaks_loop_witness :
  let env := example_env scan_fails_on_c1 analyze_ok false in
  let w := mk_world (OnBranch "main") [] [] [] in
  resolved env "main" (mk_date 2024 1 1) (HEAD w) = Some "c1"
  ∧ returncode (exec env MainPy (Detached "c1")).1 = 1%Z
  ∧ snapshot_loop env "main" (mk_date 2024 1 15) [mk_date 2024 1 1; mk_date 2023 12 1]
                  [example_frame] ∅ w =
      (Ok [example_frame],
       {| HEAD := Detached "c1";
          log := [GitRevList "main" (Some "2024-01-01T00:00:00+00:00");
                  GitCheckout "c1"; MainPy; GitShow "c1"];
          out := [];
          err := ["|"; "error: main.py failed on commit c1 (2024-01-15), aborting";
                  "scanner error"] |}).
Proof.
  intros env w.
  split; [vm_compute; reflexivity|]. split; [vm_compute; reflexivity|].
  refine (eq_trans
            (proj1 (scanner_failure_breaks_loop env "main" (mk_date 2024 1 15)
                      (mk_date 2024 1 1) [mk_date 2023 12 1] [example_frame] ∅ w
                      "c1" _ _ _ _ _ _)) _).
  - vm_compute; reflexivity.
  - vm_compute; reflexivity.
  - discriminate.
  - apply not_elem_of_empty.
  - vm_compute; reflexivity.
  - vm_compute; discriminate.
  - vm_compute; reflexivity.
Defined.


(** * Further properties of backfill.py *)

Section Runs.
Variable env : Env.

Lemma checkout_failed_head t h :
  returncode (exec env (GitCheckout t) h).1 ≠ 0%Z → (exec env (GitCheckout t) h).2 = h.
Proof.
  unfold exec. destruct (git_fails env _ h); [done|].
  destruct (is_branch env t); [by intros []|].
  destruct (is_commit env t); [by intros []|done].
Qed.

Lemma git_current_ref_eq w :
  git_current_ref env w =
    (if bool_decide (returncode (exec env GitRevParseAbbrevRef (HEAD w)).1 = 0%Z) then
       if bool_decide (returncode (exec env GitRevParseHead (HEAD w)).1 = 0%Z) then
         Ok (strip (stdout (exec env GitRevParseAbbrevRef (HEAD w)).1),
             strip (stdout (exec env GitRevParseHead (HEAD w)).1))
       else Raise CalledProcessError
     else Raise CalledProcessError,
     add_log w (if bool_decide (returncode (exec env GitRevParseAbbrevRef (HEAD w)).1 = 0%Z)
                then [GitRevParseAbbrevRef; GitRevParseHead]
                else [GitRevParseAbbrevRef])).
Proof.
  unfold git_current_ref. rewrite bindM, run_checked.
  rewrite (exec_head env GitRevParseAbbrevRef) by done.
  case_bool_decide; [|done].
  rewrite bindM, run_checked. simpl_world.
  rewrite (exec_head env GitRevParseHead) by done.
  case_bool_decide; by rewrite <- ?app_assoc.
Qed.

Lemma verify_branch_eq b w :
  verify_branch env b w =
    (if bool_decide (returncode (exec env (GitShowRef b) (HEAD w)).1 = 0%Z)
     then (Ok (), add_log w [GitShowRef b])
     else (Raise (SystemExit 2),
           add_err (add_log w [GitShowRef b])
                   ["error: branch '" +:+ b +:+ "' not found"])).
Proof.
  unfold verify_branch. rewrite run_checked.
  rewrite (exec_head env (GitShowRef b)) by done.
  by case_bool_decide.
Qed.

(** The names reported for a reference that can be restored lead back to
    it. *)
Lemma restore_target_returns h h' :
  restorable env h →
  git_fails env GitRevParseAbbrevRef h = false →
  git_fails env GitRevParseHead h = false →
  (exec env (GitCheckout
               (restore_target (strip (stdout (exec env GitRevParseAbbrevRef h).1))
                               (strip (stdout (exec env GitRevParseHead h).1)))) h').2 = h.
Proof.
  intros Hr Hf1 Hf2. unfold exec at 2 3. rewrite Hf1, Hf2. cbn [fst stdout ok_process].
  destruct h as [n|s]; cbn [restorable] in Hr.
  - destruct Hr as (Hn & -> & Hb & Hfail). unfold restore_target.
    destruct (String.eqb_spec n "HEAD"); [done|].
    unfold exec. by rewrite Hfail, Hb.
  - destruct Hr as (Hs & Hb & Hc & Hfail).
    change (restore_target (strip "HEAD") (strip s)) with (strip s).
    rewrite Hs. unfold exec. by rewrite Hfail, Hb, Hc.
Qed.

Lemma git_first_commit_date_head b w :
  HEAD (git_first_commit_date env b w).2 = HEAD w.
Proof.
  unfold git_first_commit_date, git_earliest_first_parent_sha.
  rewrite !bindM, run_unchecked. simpl_world.
  rewrite (exec_head env (GitRevList _ _)) by done.
  unfold mret, M_ret.
  destruct (head (nonempty_lines _)) as [sha|]; [|done].
  by rewrite git_commit_date_eq.
Qed.

(** [main], stage by stage. *)
Lemma main_eq args w :
  Backfill.main env args w =
    if negb (analyzer_has_main_py env)
    then (Raise (SystemExit 2), add_err w ["error: main.py not found"])
    else if negb (cwd_has_analyze_py env)
    then (Raise (SystemExit 2), add_err w ["error: analyze.py not found"])
    else
      let abbrev := (exec env GitRevParseAbbrevRef (HEAD w)).1 in
      let full := (exec env GitRevParseHead (HEAD w)).1 in
      if negb (bool_decide (returncode abbrev = 0%Z))
      then (Raise CalledProcessError, add_log w [GitRevParseAbbrevRef])
      else if negb (bool_decide (returncode full = 0%Z))
      then (Raise CalledProcessError, add_log w [GitRevParseAbbrevRef; GitRevParseHead])
      else if negb (bool_decide (returncode (exec env (GitShowRef (branch args)) (HEAD w)).1
                                 = 0%Z))
      then (Raise (SystemExit 2),
            add_err (add_log w [GitRevParseAbbrevRef; GitRevParseHead;
                                GitShowRef (branch args)])
                    ["error: branch '" +:+ branch args +:+ "' not found"])
      else if negb (bool_decide (returncode (exec env (GitCheckout (branch args)) (HEAD w)).1
                                 = 0%Z))
      then (Raise CalledProcessError, after_branch_checkout env args w)
      else
        match git_first_commit_date env (branch args) (after_branch_checkout env args w) with
        | (Raise e, w1) => (Raise e, w1)
        | (Ok earliest, w1) =>
            match month_starts_descending env with
            | Raise e => (Raise e, w1)
            | Ok starts =>
                try_finally
                  (collect_and_write env args earliest
                     (if bool_decide (max_months args = 0%Z) then starts
                      else slice_to (max_months args) starts))
                  (restore env (strip (stdout abbrev)) (strip (stdout full))) w1
            end
        end.
Proof.
  unfold Backfill.main.
  destruct (analyzer_has_main_py env); cbn [negb]; [|done].
  destruct (cwd_has_analyze_py env); cbn [negb]; [|done].
  rewrite bindM, git_current_ref_eq. cbn zeta.
  case_bool_decide as E1; cbn [negb]; [|done].
  case_bool_decide as E2; cbn [negb]; [|done].
  rewrite bindM, verify_branch_eq. simpl_world.
  case_bool_decide as Hb; cbn [negb]; [|by rewrite <- !app_assoc].
  rewrite bindM, run_checked. simpl_world.
  rewrite <- !app_assoc. cbn [app]. fold (after_branch_checkout env args w).
  case_bool_decide as Hco; cbn [negb]; [|done].
  rewrite bindM.
  destruct (git_first_commit_date env (branch args) (after_branch_checkout env args w))
    as [[earliest|e] w1]; [|done].
  rewrite bindM. unfold lift.
  by destruct (month_starts_descending env).
Qed.

(** X13. Whatever the [try] statement of [main] does, and however it ends,
    [main] leaves a restorable repository on the reference it started from;
    the only runs that end elsewhere are those in which an exception is
    raised by [git_first_commit_date] or [month_starts_descending], after
    the branch has been checked out and before the [try] statement. *)
Theorem main_restores_or_fails_before_try args w :
  restorable env (HEAD w) →
  HEAD (Backfill.main env args w).2 = HEAD w
  ∨ ∃ e,
      (Backfill.main env args w).1 = Raise e
      ∧ HEAD (Backfill.main env args w).2
          = (exec env (GitCheckout (branch args)) (HEAD w)).2
      ∧ ((git_first_commit_date env (branch args)
            (after_branch_checkout env args w)).1 = Raise e
         ∨ month_starts_descending env = Raise e).
Proof.
  intros Hr. rewrite main_eq. cbn zeta.
  destruct (negb (analyzer_has_main_py env)); [by left|].
  destruct (negb (cwd_has_analyze_py env)); [by left|].
  case_bool_decide as E1; cbn [negb]; [|by left].
  case_bool_decide as E2; cbn [negb]; [|by left].
  assert (git_fails env GitRevParseAbbrevRef (HEAD w) = false) as Hf1.
  { unfold exec in E1. by destruct (git_fails env GitRevParseAbbrevRef (HEAD w)). }
  assert (git_fails env GitRevParseHead (HEAD w) = false) as Hf2.
  { unfold exec in E2. by destruct (git_fails env GitRevParseHead (HEAD w)). }
  case_bool_decide as Hb; cbn [negb]; [|by left].
  case_bool_decide as Hco; cbn [negb]; [|left; by apply checkout_failed_head].
  pose proof (git_first_commit_date_head (branch args) (after_branch_checkout env args w))
    as Hhead.
  destruct (git_first_commit_date env (branch args) (after_branch_checkout env args w))
    as [[earliest|e] w1].
  2:{ right. exists e. split; [done|]. split; [exact Hhead|by left]. }
  destruct (month_starts_descending env) as [starts|e].
  2:{ right. exists e. split; [done|]. split; [exact Hhead|by right]. }
  left. rewrite try_finally_restore. cbn [snd HEAD fst].
  by apply restore_target_returns.
Qed.

(** X14. A missing [main.py], a missing [analyze.py] or an unknown branch ends
    [main] with an exception before anything is checked out or written: the
    exit with status 2, or [CalledProcessError] when [git rev-parse] itself
    fails. *)
Theorem configuration_error_before_any_checkout args w :
  analyzer_has_main_py env = false ∨ cwd_has_analyze_py env = false
  ∨ is_branch env (branch args) = false →
  ((Backfill.main env args w).1 = Raise (SystemExit 2)
   ∨ (Backfill.main env args w).1 = Raise CalledProcessError)
  ∧ HEAD (Backfill.main env args w).2 = HEAD w
  ∧ out (Backfill.main env args w).2 = out w
  ∧ checkouts (log (Backfill.main env args w).2) = checkouts (log w).
Proof.
  intros Hcfg. rewrite main_eq. cbn zeta.
  destruct (analyzer_has_main_py env); cbn [negb];
    [|by repeat split; [left|..]].
  destruct (cwd_has_analyze_py env); cbn [negb];
    [|by repeat split; [left|..]].
  destruct Hcfg as [?|[?|Hb]]; [done..|].
  case_bool_decide as E1; cbn [negb].
  2:{ simpl_world. rewrite checkouts_app, app_nil_r. by repeat split; [right|..]. }
  case_bool_decide as E2; cbn [negb].
  2:{ simpl_world. rewrite checkouts_app, app_nil_r. by repeat split; [right|..]. }
  rewrite (bool_decide_eq_false_2 (returncode (exec env (GitShowRef _) _).1 = 0%Z)).
  - cbn [negb]. simpl_world. rewrite checkouts_app, app_nil_r.
    by repeat split; [left|..].
  - unfold exec. destruct (git_fails env _ _); [done|]. by rewrite Hb.
Qed.

Section LoopMore.
Variable branch : string.
Variable earliest : date.

(** X16. The loop ends at the first month start that lies before the month of
    the earliest commit: what follows it in the list is never looked at. *)
Theorem loop_stops_before_earliest_month pre m rest rest' dfs seen w :
  date_ltb m (replace_day1 earliest) = true →
  snapshot_loop env branch earliest (pre ++ m :: rest) dfs seen w
  = snapshot_loop env branch earliest (pre ++ m :: rest') dfs seen w.
Proof.
  intros Hm. revert dfs seen w.
  induction pre as [|p pre IH]; intros dfs seen w; cbn [app].
  { by rewrite !snapshot_loop_cons, Hm. }
  rewrite !snapshot_loop_cons. cbn zeta.
  destruct (date_ltb p (replace_day1 earliest)); [done|].
  destruct (resolved env branch p (HEAD w)) as [sha|]; [|apply IH].
  destruct (bool_decide (sha = "") || bool_decide (sha ∈ seen)); [apply IH|].
  destruct (bool_decide _); [|done].
  destruct (if bool_decide _ then fromisoformat env _ else _) as [d|e]; [|done].
  destruct (bool_decide _); [|done].
  destruct (bool_decide _); [|done].
  destruct (bool_decide _); [apply IH|].
  destruct (read_csv env _); [apply IH|done].
Qed.

Lemma loop_trace_leaf m rest dfs before pre r :
  (length (queried pre) ≤ 1)%nat →
  (∀ s, s ∈ queried pre → s = since_iso m) →
  date_ltb m (replace_day1 earliest) = false →
  (∀ dfs', r = Ok dfs' → dfs' = dfs) →
  loop_trace earliest (m :: rest) dfs before r (before ++ pre).
Proof.
  intros Hlen Hq Hd Hr. exists pre. split; [done|]. split; [cbn; lia|]. split.
  - intros s Hs. exists m. split; [left|]. split; [by apply Hq|done].
  - intros dfs' E. exists []. rewrite app_nil_r. split; [by apply Hr|cbn; lia].
Qed.

Lemma loop_trace_step m rest dfs before pre k r after :
  (length (queried pre) ≤ 1)%nat →
  (∀ s, s ∈ queried pre → s = since_iso m) →
  date_ltb m (replace_day1 earliest) = false →
  (length k ≤ length (checkouts pre))%nat →
  loop_trace earliest rest (dfs ++ k) (before ++ pre) r after →
  loop_trace earliest (m :: rest) dfs before r after.
Proof.
  intros Hlen Hq Hd Hk (new & -> & Hcount & Hqs & Hdfs).
  exists (pre ++ new). split; [by rewrite app_assoc|]. split; [|split].
  - unfold queried in *. rewrite omap_app, length_app. cbn [length]. lia.
  - intros s. unfold queried. rewrite omap_app. intros [Hs|Hs]%elem_of_app.
    + exists m. split; [left|]. split; [by apply Hq|done].
    + destruct (Hqs s Hs) as (m0 & ? & ? & ?). exists m0. split; [by right|done].
  - intros dfs' E. destruct (Hdfs dfs' E) as (added & -> & Hadd).
    exists (k ++ added). split; [by rewrite app_assoc|].
    rewrite checkouts_app, !length_app. lia.
Qed.

Lemma snapshot_loop_trace starts dfs seen w :
  loop_trace earliest starts dfs (log w)
    (snapshot_loop env branch earliest starts dfs seen w).1
    (log (snapshot_loop env branch earliest starts dfs seen w).2).
Proof.
  revert dfs seen w. induction starts as [|m rest IH]; intros dfs seen w.
  { exists []. cbn. rewrite app_nil_r. split; [done|]. split; [lia|]. split.
    - by intros s ?%elem_of_nil.
    - intros dfs' [= <-]. exists []. by rewrite app_nil_r. }
  rewrite snapshot_loop_cons. cbn zeta.
  destruct (date_ltb m (replace_day1 earliest)) eqn:Hd.
  { exists []. simpl_world. rewrite app_nil_r. split; [done|]. split; [cbn; lia|]. split.
    - by intros s ?%elem_of_nil.
    - intros dfs' [= <-]. exists []. by rewrite app_nil_r. }
  assert (∀ s, s ∈ queried [GitRevList branch (Some (since_iso m))] → s = since_iso m)
    as Hq1 by (by intros s ->%list_elem_of_singleton).
  assert (∀ seen1 w1,
            log w1 = log w ++ [GitRevList branch (Some (since_iso m))] →
            loop_trace earliest (m :: rest) dfs (log w)
              (snapshot_loop env branch earliest rest dfs seen1 w1).1
              (log (snapshot_loop env branch earliest rest dfs seen1 w1).2)) as Hskip.
  { intros seen1 w1 Hw1.
    apply (loop_trace_step _ _ _ _ [GitRevList branch (Some (since_iso m))] []);
      [cbn; lia|done|done|cbn; lia|].
    rewrite app_nil_r, <- Hw1. apply IH. }
  destruct (resolved env branch m (HEAD w)) as [sha|]; [|by apply Hskip].
  destruct (bool_decide (sha = "") || bool_decide (sha ∈ seen)); [by apply Hskip|].
  destruct (exec env (GitCheckout sha) (HEAD w)) as [cp h2]. simpl_world.
  destruct (bool_decide (returncode cp = 0%Z)).
  2:{ rewrite <- app_assoc. by apply loop_trace_leaf; [cbn; lia|..]. }
  destruct (if bool_decide _ then fromisoformat env _ else _) as [d|e].
  2:{ rewrite <- !app_assoc. by apply loop_trace_leaf; [cbn; lia|..]. }
  destruct (bool_decide (returncode (exec env MainPy h2).1 = 0%Z)).
  2:{ rewrite <- !app_assoc. apply loop_trace_leaf; [cbn; lia|done|done|].
      by intros ? [= <-]. }
  destruct (bool_decide (returncode (exec env (AnalyzePy (isoformat d)) h2).1 = 0%Z)).
  2:{ rewrite <- !app_assoc. by apply loop_trace_leaf; [cbn; lia|..]. }
  destruct (bool_decide (strip _ = "")).
  { apply (loop_trace_step _ _ _ _
             [GitRevList branch (Some (since_iso m)); GitCheckout sha;
              MainPy; GitShow sha; AnalyzePy (isoformat d)] []);
      [cbn; lia|done|done|cbn; lia|].
    rewrite app_nil_r.
    match goal with
    | |- context [snapshot_loop env branch earliest rest dfs ?s ?w1] =>
        replace (log w ++ [GitRevList branch (Some (since_iso m)); GitCheckout sha;
                           MainPy; GitShow sha; AnalyzePy (isoformat d)])
          with (log w1) by (cbn [log]; by rewrite <- !app_assoc);
        apply IH
    end. }
  destruct (read_csv env _) as [df|e].
  - apply (loop_trace_step _ _ _ _
             [GitRevList branch (Some (since_iso m)); GitCheckout sha;
              MainPy; GitShow sha; AnalyzePy (isoformat d)] [df]);
      [cbn; lia|done|done|cbn; lia|].
    match goal with
    | |- context [snapshot_loop env branch earliest rest (dfs ++ [df]) ?s ?w1] =>
        replace (log w ++ [GitRevList branch (Some (since_iso m)); GitCheckout sha;
                           MainPy; GitShow sha; AnalyzePy (isoformat d)])
          with (log w1) by (cbn [log]; by rewrite <- !app_assoc);
        apply IH
    end.
  - rewrite <- !app_assoc. by apply loop_trace_leaf; [cbn; lia|..].
Qed.

(** X17. The tables collected by the loop extend the ones it started with, in
    order, by at most one table per commit checked out; the history is
    queried at most once per month start, and only for month starts of the
    list that do not lie before the month of the earliest commit. *)
Theorem loop_collects_per_checkout starts dfs seen w :
  ∃ new,
    log (snapshot_loop env branch earliest starts dfs seen w).2 = log w ++ new
    ∧ (length (queried new) ≤ length starts)%nat
    ∧ (∀ s, s ∈ queried new →
            ∃ m, m ∈ starts ∧ s = since_iso m
                 ∧ date_ltb m (replace_day1 earliest) = false)
    ∧ ∀ dfs',
        (snapshot_loop env branch earliest starts dfs seen w).1 = Ok dfs' →
        ∃ added, dfs' = dfs ++ added ∧ (length added ≤ length (checkouts new))%nat.
Proof. apply snapshot_loop_trace. Qed.
End LoopMore.
(** ** The month starts *)

Lemma month_starts_from_spec n d :
  (1 ≤ month d ≤ 12)%Z → (year d ≤ 9999)%Z →
  match month_starts_from n d with
  | Ok starts =>
      (n = 0%nat ∨ 12 ≤ month_index d - Z.of_nat n)%Z
      ∧ length starts = n
      ∧ ∀ (i : nat) x, starts !! i = Some x →
          month_index x = (month_index d - Z.of_nat i)%Z
          ∧ (1 ≤ month x ≤ 12)%Z
          ∧ (i = 0%nat → x = d) ∧ (i ≠ 0%nat → day x = 1%Z)
  | Raise e => e = ValueError ∧ (month_index d - Z.of_nat n < 12)%Z
  end.
Proof.
  revert d. induction n as [|n IH]; intros d Hm Hy.
  { cbn. split; [by left|]. split; [done|]. by intros i x ?. }
  cbn [month_starts_from]. cbv zeta. unfold month_start_date.
  case_bool_decide as Hv; cbn [mbind result_bind].
  2:{ split; [done|]. unfold month_index.
      case_bool_decide; lia. }
  match goal with
  | |- context [month_starts_from n ?d'] =>
      specialize (IH d'); set (d1 := d') in *
  end.
  assert (month_index d1 = month_index d - 1)%Z as Hidx.
  { unfold month_index, d1. cbn [year month]. case_bool_decide; lia. }
  assert (1 ≤ month d1 ≤ 12)%Z as Hm1 by (unfold d1; cbn [month]; lia).
  assert (year d1 ≤ 9999)%Z as Hy1 by (unfold d1; cbn [year]; lia).
  assert (12 ≤ month_index d1)%Z as Hlow.
  { unfold month_index, d1. cbn [year month]. lia. }
  specialize (IH Hm1 Hy1).
  destruct (month_starts_from n d1) as [starts|e]; cbn [mbind result_bind].
  - destruct IH as (Hn & Hlen & Hel). split; [right; lia|].
    split; [cbn; by rewrite Hlen|].
    intros [|i] x Hx; cbn in Hx.
    + injection Hx as <-. repeat split; (done || lia).
    + destruct (Hel i x Hx) as (Hi & Hmx & H0 & Hday).
      split; [lia|]. split; [done|]. split; [done|]. intros _.
      destruct i; [by rewrite (H0 eq_refl)|by apply Hday].
  - destruct IH as [-> Hlt]. split; [done|]. lia.
Qed.

(** X18. [month_starts_descending] returns 2400 dates: the first of the month,
    month by month backwards from the month of today.  It needs the 2400
    months before today to lie in year 1 or later, the date after the last
    one being computed as well: before year 201 it raises [ValueError]. *)
Theorem month_starts_descending_spec :
  (1 ≤ month (today env) ≤ 12)%Z → (1 ≤ year (today env) ≤ 9999)%Z →
  match month_starts_descending env with
  | Ok starts =>
      (201 ≤ year (today env))%Z
      ∧ length starts = 2400%nat
      ∧ (∀ (i : nat) x, starts !! i = Some x →
           day x = 1%Z ∧ (1 ≤ month x ≤ 12)%Z
           ∧ month_index x = (month_index (today env) - Z.of_nat i)%Z)
      ∧ ∀ (i : nat) x y, starts !! i = Some x → starts !! S i = Some y →
          date_ltb y x = true
  | Raise e => e = ValueError ∧ (year (today env) ≤ 200)%Z
  end.
Proof.
  intros Hm Hy. unfold month_starts_descending.
  pose proof (month_starts_from_spec 2400 (replace_day1 (today env))) as H.
  assert (month_index (replace_day1 (today env)) = month_index (today env)) as Hidx by done.
  specialize (H Hm ltac:(cbn; lia)).
  destruct (month_starts_from 2400 (replace_day1 (today env))) as [starts|e].
  - destruct H as (Hn & Hlen & Hel). rewrite Hidx in Hn.
    split; [unfold month_index in Hn; lia|]. split; [done|].
    assert (∀ (i : nat) x, starts !! i = Some x →
              day x = 1%Z ∧ (1 ≤ month x ≤ 12)%Z
              ∧ month_index x = (month_index (today env) - Z.of_nat i)%Z) as Hshape.
    { intros i x Hx. destruct (Hel i x Hx) as (Hi & Hmx & H0 & Hday).
      split; [|by rewrite <- Hidx].
      destruct i; [by rewrite (H0 eq_refl)|by apply Hday]. }
    split; [exact Hshape|].
    intros i x y Hx Hy'.
    destruct (Hshape i x Hx) as (Hdx & Hmx & Hix).
    destruct (Hshape (S i) y Hy') as (Hdy & Hmy & Hiy).
    unfold date_ltb. apply bool_decide_eq_true_2.
    unfold month_index in Hix, Hiy. lia.
  - destruct H as [-> Hlt]. split; [done|]. rewrite Hidx in Hlt.
    unfold month_index in Hlt. lia.
Qed.

(** ** Queries *)

Lemma only_queried_log w h l :
  h = HEAD w → checkouts l = [] →
  only_queried w (mk_world h (log w ++ l) (out w) (err w)).
Proof.
  intros -> Hl. repeat split. cbn [log]. by rewrite checkouts_app, Hl, app_nil_r.
Qed.

(** X19. The five functions that ask git about the history leave the repository
    on the reference it is on and print nothing, whether they return or
    raise: they differ from doing nothing by the commands run, none of which
    is a checkout. *)
Theorem git_queries_read_only b since sha w :
  only_queried w (git_current_ref env w).2
  ∧ only_queried w (git_earliest_first_parent_sha env b w).2
  ∧ only_queried w (git_first_commit_date env b w).2
  ∧ only_queried w (git_first_commit_on_or_after env b since w).2
  ∧ only_queried w (git_commit_date env sha w).2.
Proof.
  assert (only_queried w (git_earliest_first_parent_sha env b w).2) as Hearliest.
  { unfold git_earliest_first_parent_sha. rewrite bindM, run_unchecked.
    cbn [snd fst]. apply only_queried_log; [|done]. by rewrite exec_head. }
  split; [|split; [done|split; [|split]]].
  - rewrite git_current_ref_eq. cbn [snd]. unfold add_log.
    apply only_queried_log; [done|]. by case_bool_decide.
  - unfold git_first_commit_date, git_earliest_first_parent_sha.
    rewrite !bindM, run_unchecked. simpl_world.
    rewrite (exec_head env (GitRevList _ _)) by done.
    unfold mret, M_ret.
    destruct (head (nonempty_lines _)) as [s|].
    + rewrite git_commit_date_eq. simpl_world. rewrite <- app_assoc.
      by apply only_queried_log.
    + by apply only_queried_log.
  - unfold git_first_commit_on_or_after. rewrite bindM, run_unchecked.
    cbn [snd fst]. apply only_queried_log; [|done]. by rewrite exec_head.
  - rewrite git_commit_date_eq. by apply only_queried_log.
Qed.

(** ** How many months are examined *)

Lemma month_starts_from_length n d l : month_starts_from n d = Ok l → length l = n.
Proof.
  revert d l. induction n as [|n IH]; intros d l; cbn [month_starts_from].
  { by intros [= <-]. }
  cbv zeta. destruct (month_start_date _ _) as [d'|]; [|done]. cbn [mbind result_bind].
  destruct (month_starts_from n d') as [l'|] eqn:E; [|done]. cbn.
  intros [= <-]. cbn. by rewrite (IH d' l').
Qed.

Lemma slice_to_length {A} n (l : list A) :
  (length (slice_to n l) ≤ length l)%nat
  ∧ ((0 < n)%Z → (length (slice_to n l) ≤ Z.to_nat n)%nat).
Proof.
  unfold slice_to. case_bool_decide; rewrite length_take; lia.
Qed.

Lemma git_first_commit_date_log b w :
  ∃ l, log (git_first_commit_date env b w).2 = log w ++ l ∧ queried l = [].
Proof.
  unfold git_first_commit_date, git_earliest_first_parent_sha.
  rewrite !bindM, run_unchecked. simpl_world.
  unfold mret, M_ret.
  destruct (head (nonempty_lines _)) as [sha|].
  - rewrite git_commit_date_eq. simpl_world.
    exists [GitRevList b None; GitShow sha]. by rewrite <- app_assoc.
  - by exists [GitRevList b None].
Qed.

Lemma collect_and_write_log args earliest starts w :
  log (collect_and_write env args earliest starts w).2 =
    log (snapshot_loop env (branch args) earliest starts [] ∅ w).2.
Proof.
  unfold collect_and_write. rewrite bindM.
  destruct (snapshot_loop _ _ _ _ _ _ _) as [[dfs|e] w1]; [|done].
  destruct dfs as [|df dfs]; [done|].
  rewrite bindM. unfold lift.
  by destruct (concat_sort_to_csv env (df :: dfs)).
Qed.

(** X20. One run of [main] asks the history for at most 2400 month starts, and
    for at most [--max-months] of them when that limit is positive. *)
Theorem main_examines_bounded_months args w :
  ∃ new,
    log (Backfill.main env args w).2 = log w ++ new
    ∧ (length (queried new) ≤ 2400)%nat
    ∧ ((0 < max_months args)%Z →
       (length (queried new) ≤ Z.to_nat (max_months args))%nat).
Proof.
  assert (∀ l : list command, queried l = [] →
            (length (queried l) ≤ 2400)%nat
            ∧ ((0 < max_months args)%Z →
               (length (queried l) ≤ Z.to_nat (max_months args))%nat)) as Hnone.
  { intros l ->. cbn. lia. }
  rewrite main_eq. cbn zeta.
  destruct (negb (analyzer_has_main_py env)).
  { exists []. cbn. rewrite app_nil_r. split; [done|]. lia. }
  destruct (negb (cwd_has_analyze_py env)).
  { exists []. cbn. rewrite app_nil_r. split; [done|]. lia. }
  destruct (negb (bool_decide _)); [eexists; split; [done|by apply Hnone]|].
  destruct (negb (bool_decide _)); [eexists; split; [done|by apply Hnone]|].
  destruct (negb (bool_decide _)); [eexists; split; [done|by apply Hnone]|].
  destruct (negb (bool_decide _)); [eexists; split; [done|by apply Hnone]|].
  destruct (git_first_commit_date_log (branch args) (after_branch_checkout env args w))
    as (l & Hl & Hql).
  cbn [after_branch_checkout log] in Hl.
  destruct (git_first_commit_date env (branch args) (after_branch_checkout env args w))
    as [[earliest|e] w1]; cbn [snd] in Hl.
  2:{ eexists. split; [cbn [snd]; by rewrite Hl, <- app_assoc|]. apply Hnone.
      unfold queried in *. by rewrite omap_app, Hql. }
  destruct (month_starts_descending env) as [starts|e] eqn:Hstarts.
  2:{ eexists. split; [cbn [snd]; by rewrite Hl, <- app_assoc|]. apply Hnone.
      unfold queried in *. by rewrite omap_app, Hql. }
  apply month_starts_from_length in Hstarts.
  rewrite try_finally_restore. cbn [snd log]. rewrite collect_and_write_log.
  match goal with
  | |- context [snapshot_loop env (branch args) earliest ?st [] ∅ w1] =>
      destruct (snapshot_loop_trace (branch args) earliest st [] ∅ w1)
        as (new & -> & Hcount & _);
      assert ((length st ≤ 2400)%nat
              ∧ ((0 < max_months args)%Z → (length st ≤ Z.to_nat (max_months args))%nat))
        as [Hst1 Hst2]
  end.
  { case_bool_decide as Hz; [split; lia|].
    destruct (slice_to_length (max_months args) starts). split; [lia|done]. }
  eexists. split; [by rewrite Hl, <- !app_assoc|].
  unfold queried in *. rewrite !omap_app, !length_app, Hql. cbn.
  split; [lia|]. intros Hpos. specialize (Hst2 Hpos). lia.
Qed.

(** ** Standard output *)

Section LoopOut.
Variable branch : string.
Variable earliest : date.

Lemma snapshot_loop_out starts dfs seen w :
  out (snapshot_loop env branch earliest starts dfs seen w).2 = out w.
Proof.
  revert dfs seen w. induction starts as [|m rest IH]; intros dfs seen w; [done|].
  rewrite snapshot_loop_cons. cbn zeta.
  destruct (date_ltb m (replace_day1 earliest)); [done|].
  destruct (resolved env branch m (HEAD w)) as [sha|]; [|by rewrite IH].
  destruct (bool_decide (sha = "") || bool_decide (sha ∈ seen)); [by rewrite IH|].
  destruct (bool_decide _); [|done].
  destruct (if bool_decide _ then fromisoformat env _ else _) as [d|e]; [|done].
  destruct (bool_decide _); [|done].
  destruct (bool_decide _); [|done].
  destruct (bool_decide _); [by rewrite IH|].
  destruct (read_csv env _); [by rewrite IH|done].
Qed.
End LoopOut.

Lemma git_first_commit_date_out b w :
  out (git_first_commit_date env b w).2 = out w.
Proof.
  unfold git_first_commit_date, git_earliest_first_parent_sha.
  rewrite !bindM, run_unchecked. simpl_world.
  unfold mret, M_ret.
  destruct (head (nonempty_lines _)) as [sha|]; [|done].
  by rewrite git_commit_date_eq.
Qed.

Lemma collect_and_write_out args earliest starts w :
  out (collect_and_write env args earliest starts w).2 = out w
  ∨ ∃ df dfs csv,
      (snapshot_loop env (branch args) earliest starts [] ∅ w).1 = Ok (df :: dfs)
      ∧ concat_sort_to_csv env (df :: dfs) = Ok csv
      ∧ out (collect_and_write env args earliest starts w).2 = out w ++ [csv]
      ∧ (collect_and_write env args earliest starts w).1 = Ok ().
Proof.
  unfold collect_and_write. rewrite bindM.
  pose proof (snapshot_loop_out (branch args) earliest starts [] ∅ w) as Hout.
  destruct (snapshot_loop _ _ _ _ _ _ _) as [[dfs|e] w1]; cbn [snd fst] in *; [|by left].
  destruct dfs as [|df dfs]; [by left|].
  rewrite bindM. unfold lift.
  destruct (concat_sort_to_csv env (df :: dfs)) as [csv|e] eqn:E; [|by left].
  right. exists df, dfs, csv. cbn. by rewrite Hout.
Qed.

(** X21. [main] writes to standard output at most once.  When it does, the
    branch was checked out, the date of the earliest commit and the month
    starts were found, the loop over the month starts returned a list of
    tables that is not empty, what is written is the table made of exactly
    these, and [main] returns normally.  So a run that ends with an
    exception, or whose loop collects nothing, has written nothing. *)
Theorem output_only_on_success args w :
  out (Backfill.main env args w).2 = out w
  ∨ ∃ earliest w1 starts dfs w2 csv,
      git_first_commit_date env (branch args) (after_branch_checkout env args w)
        = (Ok earliest, w1)
      ∧ month_starts_descending env = Ok starts
      ∧ snapshot_loop env (branch args) earliest (months_examined args starts) [] ∅ w1
          = (Ok dfs, w2)
      ∧ dfs ≠ []
      ∧ concat_sort_to_csv env dfs = Ok csv
      ∧ out (Backfill.main env args w).2 = out w ++ [csv]
      ∧ (Backfill.main env args w).1 = Ok ().
Proof.
  rewrite main_eq. cbn zeta.
  destruct (negb (analyzer_has_main_py env)); [by left|].
  destruct (negb (cwd_has_analyze_py env)); [by left|].
  destruct (negb (bool_decide _)); [by left|].
  destruct (negb (bool_decide _)); [by left|].
  destruct (negb (bool_decide _)); [by left|].
  destruct (negb (bool_decide _)); [by left|].
  pose proof (git_first_commit_date_out (branch args) (after_branch_checkout env args w))
    as Hout.
  destruct (git_first_commit_date env (branch args) (after_branch_checkout env args w))
    as [[earliest|e] w1]; cbn [snd] in Hout; [|by left].
  destruct (month_starts_descending env) as [starts|e]; [|by left].
  rewrite try_finally_restore. cbn [fst snd out].
  fold (months_examined args starts).
  destruct (collect_and_write_out args earliest (months_examined args starts) w1)
    as [E|(df & dfs & csv & Hloop & Hcsv & E & Hok)].
  - left. by rewrite E, Hout.
  - right.
    exists earliest, w1, starts, (df :: dfs),
      (snapshot_loop env (branch args) earliest (months_examined args starts) [] ∅ w1).2,
      csv.
    rewrite E, Hout. split; [done|]. split; [done|].
    split; [by rewrite <- Hloop, <- surjective_pairing|]. done.
Qed.

End Runs.

(** ** Examples *)

Lemma main_restores_or_fails_before_try_witness :
  restorable (example_env (λ _, 0%Z) analyze_ok false) (HEAD on_dev)
  ∧ (HEAD (Backfill.main (example_env (λ _, 0%Z) analyze_ok false) args0 on_dev).2
       = HEAD on_dev
     ∨ ∃ e,
         (Backfill.main (example_env (λ _, 0%Z) analyze_ok false) args0 on_dev).1 = Raise e
         ∧ HEAD (Backfill.main (example_env (λ _, 0%Z) analyze_ok false) args0 on_dev).2
             = (exec (example_env (λ _, 0%Z) analyze_ok false)
                  (GitCheckout (branch args0)) (HEAD on_dev)).2
         ∧ ((git_first_commit_date (example_env (λ _, 0%Z) analyze_ok false) (branch args0)
               (after_branch_checkout (example_env (λ _, 0%Z) analyze_ok false)
                  args0 on_dev)).1 = Raise e
            ∨ month_starts_descending (example_env (λ _, 0%Z) analyze_ok false) = Raise e)).
Proof.
  assert (restorable (example_env (λ _, 0%Z) analyze_ok false) (HEAD on_dev)) as Hr.
  { split; [by intros [=]|]. split; [vm_compute; reflexivity|].
    split; [vm_compute; reflexivity|]. intros h'. reflexivity. }
  split; [exact Hr|].
  exact (main_restores_or_fails_before_try
           (example_env (λ _, 0%Z) analyze_ok false) args0 on_dev Hr).
Defined.

Lemma configuration_error_before_any_checkout_witness :
  is_branch (example_env (λ _, 0%Z) analyze_ok false) "release" = false
  ∧ (Backfill.main (example_env (λ _, 0%Z) analyze_ok false)
       (mk_args "release" 100) on_dev).1 = Raise (SystemExit 2).
Proof.
  assert (is_branch (example_env (λ _, 0%Z) analyze_ok false) "release" = false) as Hb
    by (vm_compute; reflexivity).
  split; [exact Hb|].
  destruct (configuration_error_before_any_checkout
              (example_env (λ _, 0%Z) analyze_ok false) (mk_args "release" 100) on_dev
              (or_intror (or_intror Hb))) as [[E|E] _]; [exact E|].
  exfalso. revert E. vm_compute. discriminate.
Defined.

Lemma loop_stops_before_earliest_month_witness :
  snapshot_loop (example_env (λ _, 0%Z) analyze_ok false) "main" (mk_date 2024 1 15)
    ([mk_date 2024 2 1] ++ mk_date 2023 12 1 :: [mk_date 2023 11 1]) [] ∅ on_dev
  = snapshot_loop (example_env (λ _, 0%Z) analyze_ok false) "main" (mk_date 2024 1 15)
      ([mk_date 2024 2 1] ++ mk_date 2023 12 1 :: []) [] ∅ on_dev.
Proof.
  apply loop_stops_before_earliest_month. vm_compute. reflexivity.
Defined.

Lemma month_starts_descending_spec_witness :
  match month_starts_descending (example_env (λ _, 0%Z) analyze_ok false) with
  | Ok starts =>
      (201 ≤ 2024)%Z
      ∧ length starts = 2400%nat
      ∧ (∀ (i : nat) x, starts !! i = Some x →
           day x = 1%Z ∧ (1 ≤ month x ≤ 12)%Z
           ∧ month_index x = (24289 - Z.of_nat i)%Z)
      ∧ ∀ (i : nat) x y, starts !! i = Some x → starts !! S i = Some y →
          date_ltb y x = true
  | Raise e => e = ValueError ∧ (2024 ≤ 200)%Z
  end.
Proof.
  apply (month_starts_descending_spec (example_env (λ _, 0%Z) analyze_ok false));
    cbn; lia.
Defined.

End BackfillFacts.
